(** * sat-stac: request signing in [satstac/utils.py]

    A shallow embedding of [get_s3_signed_url] (AWS Signature Version 4 for an
    unsigned-payload GET) together with the Python built-ins it calls, and the
    properties of the signing routine stated over that embedding.

    Representation choices.
    - A Python [str] is represented by the [string] holding its UTF-8
      encoding, code point by code point.  A lone surrogate, which UTF-8
      does not encode, is held as the byte [FF], which no UTF-8 encoding
      contains, followed by two continuation bytes for its eleven low bits:
      [U+DC80] is [FF 92 80].  So every [str] has one representation, and
      [.encode('utf-8')] raises [UnicodeEncodeError] exactly on a [string]
      that holds the byte [FF]; elsewhere it is the passage from [string]
      to [list byte].  All patterns the module searches for are ASCII,
      hence [replace], [split], [join], [+] and [%] act on the
      representation exactly as they act on the code points.
    - [bytes] are [list byte].
    - [os.environ] and the returned header [dict] are [gmap string string].
    - Exceptions are values of [exn]; a computation yields [Ok v] or
      [Raise e] next to the world it leaves behind.

    The second part embeds the rest of the module that can be stated
    without the text layout of a terminal: [splitall], with [os.path] on
    POSIX; [get_text_calendar_dates], over the month calendars of the
    [calendar] library; and [download_file], as the sequence of calls it
    makes to the logger, to [requests] and to the file system. *)

From Stdlib Require Import ZArith NArith Lia.
From Stdlib Require Import Strings.Ascii Strings.String Strings.Byte.
From stdpp Require Import base option list gmap strings.

(** ** Python exceptions and results *)

Inductive exn : Type :=
| ValueError (msg : string)
| IndexError (msg : string)
| TypeError (msg : string)
| UnicodeEncodeError (reason : string).

Inductive result (A : Type) : Type :=
| Ok (a : A)
| Raise (e : exn).
Arguments Ok {A} a.
Arguments Raise {A} e.

#[export] Instance result_ret : MRet result := fun A a => Ok a.
#[export] Instance result_bind : MBind result := fun A B f r =>
  match r with
  | Ok a => f a
  | Raise e => Raise e
  end.

(** ** Built-ins of [str] and [list] *)

Module Py.

(** [s.startswith(p)] *)
Fixpoint startswith (s p : string) {struct p} : bool :=
  match p with
  | "" => true
  | String a p' =>
      match s with
      | "" => false
      | String b s' => if Ascii.eqb a b then startswith s' p' else false
      end
  end.

(** [p in s] *)
Fixpoint contains (s p : string) {struct s} : bool :=
  startswith s p ||
  match s with
  | "" => false
  | String _ s' => contains s' p
  end.

(** [c in s] for a single character *)
Fixpoint has_char (c : ascii) (s : string) : bool :=
  match s with
  | "" => false
  | String b s' => Ascii.eqb c b || has_char c s'
  end.

(** [s[n:]] *)
Fixpoint drop_str (n : nat) (s : string) : string :=
  match n, s with
  | S k, String _ s' => drop_str k s'
  | _, _ => s
  end.

(** [s.replace(old, new)] for an empty [old]: [new] is put before every
    character and at the end. *)
Fixpoint replace_empty (new s : string) : string :=
  match s with
  | "" => new
  | String c s' => new +:+ String c (replace_empty new s')
  end.

(** The left-to-right scan of [s.replace(old, new)] for a non-empty [old]:
    [skip] counts the characters of a match that are still to be passed. *)
Fixpoint replace_go (old new : string) (skip : nat) (s : string) : string :=
  match s with
  | "" => ""
  | String c s' =>
      match skip with
      | S k => replace_go old new k s'
      | O =>
          if startswith s old
          then new +:+ replace_go old new (String.length old - 1) s'
          else String c (replace_go old new 0 s')
      end
  end.

(** [s.replace(old, new)]: every non-overlapping occurrence, leftmost
    first. *)
Definition replace (s old new : string) : string :=
  match old with
  | "" => replace_empty new s
  | _ => replace_go old new 0 s
  end.

Definition cons_head (c : ascii) (l : list string) : list string :=
  match l with
  | [] => [String c ""]
  | h :: t => String c h :: t
  end.

Fixpoint split_go (sep : string) (skip : nat) (s : string) : list string :=
  match s with
  | "" => [""]
  | String c s' =>
      match skip with
      | S k => split_go sep k s'
      | O =>
          if startswith s sep
          then "" :: split_go sep (String.length sep - 1) s'
          else cons_head c (split_go sep 0 s')
      end
  end.

(** [s.split(sep)]; an empty separator is a [ValueError]. *)
Definition split (s sep : string) : result (list string) :=
  match sep with
  | "" => Raise (ValueError "empty separator")
  | _ => Ok (split_go sep 0 s)
  end.

(** [sep.join(ls)] *)
Fixpoint join (sep : string) (ls : list string) : string :=
  match ls with
  | [] => ""
  | [x] => x
  | x :: xs => x +:+ sep +:+ join sep xs
  end.

(** [l[i]] for [i >= 0]; out of range is an [IndexError]. *)
Definition getitem {A} (l : list A) (i : nat) : result A :=
  match l !! i with
  | Some x => Ok x
  | None => Raise (IndexError "list index out of range")
  end.

(** [l[i:]] *)
Definition slice_from {A} (i : nat) (l : list A) : list A := drop i l.

(** The byte that opens a lone surrogate in the representation of a
    [str]. *)
Definition surrogate_lead : ascii := "255"%char.

(** [s] holds no lone surrogate. *)
Definition encodable (s : string) : bool := negb (has_char surrogate_lead s).

(** The bytes of the UTF-8 encoding of a [str] that has one. *)
Definition utf8_bytes (s : string) : list byte := String.list_byte_of_string s.

(** [s.encode('utf-8')]; the exception carries the [reason] attribute of
    the one Python raises. *)
Definition encode_utf8 (s : string) : result (list byte) :=
  if encodable s then Ok (utf8_bytes s)
  else Raise (UnicodeEncodeError "surrogates not allowed").

Definition digit_char (d : Z) : ascii := ascii_of_N (48 + Z.to_N d).

(** The decimal digits of [n >= 0] in front of [acc], lowest digit first
    into the accumulator; [fuel] bounds the number of digits. *)
Fixpoint decimal_go (fuel : nat) (n : Z) (acc : string) : string :=
  match fuel with
  | O => acc
  | S fuel' =>
      let acc' := String (digit_char (n mod 10)) acc in
      if (n <? 10)%Z then acc' else decimal_go fuel' (n / 10) acc'
  end.

(** A number has no more decimal digits than binary ones. *)
Definition decimal (n : Z) : string :=
  decimal_go (S (Z.to_nat (Z.log2 n))) n "".

(** [str(n)] for an [int] *)
Definition str_of_int (z : Z) : string :=
  if (z <? 0)%Z then "-" +:+ decimal (- z) else decimal z.

(** [s.rjust(width, '0')] *)
Definition rjust0 (width : nat) (s : string) : string :=
  String.string_of_list_ascii (replicate (width - String.length s) "0"%char) +:+ s.

(** [fmt % args] for the directives [%s] and [%%]; every argument is a
    [str]. *)
Fixpoint format (fmt : string) (args : list string) : result string :=
  match fmt with
  | "" =>
      match args with
      | [] => Ok ""
      | _ => Raise (TypeError "not all arguments converted during string formatting")
      end
  | String "%" (String d rest) =>
      if Ascii.eqb d "s" then
        match args with
        | [] => Raise (TypeError "not enough arguments for format string")
        | a :: args' =>
            match format rest args' with
            | Ok r => Ok (a +:+ r)
            | Raise e => Raise e
            end
        end
      else if Ascii.eqb d "%" then
        match format rest args with
        | Ok r => Ok (String "%" r)
        | Raise e => Raise e
        end
      else Raise (ValueError "unsupported format character")
  | String "%" "" => Raise (ValueError "incomplete format")
  | String c rest =>
      match format rest args with
      | Ok r => Ok (String c r)
      | Raise e => Raise e
      end
  end.

End Py.

(** ** [hashlib] and [hmac]

    The routine is written against the hash interface of [hashlib]; the
    properties below hold for any implementation of it.  [hmac.new] is the
    construction of RFC 2104 over that hash, with the 64-byte block of
    [hashlib.sha256]. *)

Class HashLib : Type := { sha256_digest : list byte -> list byte }.

Module Hex.

Definition digit (n : N) : ascii :=
  if (n <? 10)%N then ascii_of_N (48 + n) else ascii_of_N (87 + n).

Definition of_byte (b : byte) : string :=
  let n := Byte.to_N b in
  String (digit (n / 16)) (String (digit (n mod 16)) "").

(** [bytes.hex()], as used by [hexdigest()]: two lower-case digits a byte. *)
Fixpoint hexlify (bs : list byte) : string :=
  match bs with
  | [] => ""
  | b :: bs' => of_byte b +:+ hexlify bs'
  end.

End Hex.

Module Hmac.

Definition block_size : nat := 64.

Definition byte_xor (c : N) (b : byte) : byte :=
  match Byte.of_N (N.lxor c (Byte.to_N b)) with
  | Some r => r
  | None => b
  end.

Definition pad_key `{HashLib} (key : list byte) : list byte :=
  let k := if Nat.ltb block_size (length key) then sha256_digest key else key in
  k ++ replicate (block_size - length k) x00.

(** [hmac.new(key, msg, hashlib.sha256).digest()] *)
Definition digest `{HashLib} (key msg : list byte) : list byte :=
  let k := pad_key key in
  sha256_digest (map (byte_xor 92) k ++ sha256_digest (map (byte_xor 54) k ++ msg)).

(** [hmac.new(key, msg, hashlib.sha256).hexdigest()] *)
Definition hexdigest `{HashLib} (key msg : list byte) : string :=
  Hex.hexlify (digest key msg).

End Hmac.

(** [hashlib.sha256(data).hexdigest()] *)
Definition sha256_hexdigest `{HashLib} (data : list byte) : string :=
  Hex.hexlify (sha256_digest data).

(** SHA-256 as in FIPS 180-4, on 32-bit words held in [Z]; the instance of
    [HashLib] that the interpreter provides. *)
Module SHA256.

Definition w32 (z : Z) : Z := Z.land z 0xffffffff.
Definition add32 (a b : Z) : Z := w32 (a + b).
Definition rotr (n x : Z) : Z := Z.lor (Z.shiftr x n) (w32 (Z.shiftl x (32 - n))).
Definition Ch (x y z : Z) : Z := Z.lxor (Z.land x y) (Z.land (w32 (Z.lnot x)) z).
Definition Maj (x y z : Z) : Z :=
  Z.lxor (Z.lxor (Z.land x y) (Z.land x z)) (Z.land y z).
Definition bsig0 (x : Z) : Z := Z.lxor (Z.lxor (rotr 2 x) (rotr 13 x)) (rotr 22 x).
Definition bsig1 (x : Z) : Z := Z.lxor (Z.lxor (rotr 6 x) (rotr 11 x)) (rotr 25 x).
Definition ssig0 (x : Z) : Z := Z.lxor (Z.lxor (rotr 7 x) (rotr 18 x)) (Z.shiftr x 3).
Definition ssig1 (x : Z) : Z := Z.lxor (Z.lxor (rotr 17 x) (rotr 19 x)) (Z.shiftr x 10).

(** The first [n] primes, by trial division from [k] on ([fuel] bounds the
    search). *)
Fixpoint primes_from (fuel n : nat) (k : Z) (found : list Z) : list Z :=
  match fuel, n with
  | S fuel', S n' =>
      if forallb (fun q => negb (k mod q =? 0)%Z) found
      then primes_from fuel' n' (k + 1)%Z (found ++ [k])
      else primes_from fuel' n (k + 1)%Z found
  | _, _ => found
  end.

Definition primes (n : nat) : list Z := primes_from 400 n 2%Z [].

(** [root e bits x]: the largest [r] below [2 ^ bits] with [r ^ e <= x]. *)
Fixpoint root (e : Z) (bits : nat) (x r : Z) : Z :=
  match bits with
  | O => r
  | S b =>
      let r' := (r + 2 ^ Z.of_nat b)%Z in
      root e b x (if (r' ^ e <=? x)%Z then r' else r)
  end.

(** The first 32 bits of the fractional part of the [e]-th root of [p]. *)
Definition root_fraction (e p : Z) : Z := w32 (root e 40 (p * 2 ^ (32 * e)) 0).

(** The round constants: cube roots of the first 64 primes. *)
Definition K : list Z := Eval vm_compute in map (root_fraction 3) (primes 64).

(** The initial hash value: square roots of the first 8 primes. *)
Definition H0 : list Z := Eval vm_compute in map (root_fraction 2) (primes 8).

Definition byte_of_Z (z : Z) : byte :=
  match Byte.of_N (Z.to_N (Z.land z 0xff)) with
  | Some b => b
  | None => x00
  end.

Definition Z_of_byte (b : byte) : Z := Z.of_N (Byte.to_N b).

(** big-endian bytes of the low [n] bytes of [z] *)
Fixpoint be_bytes (n : nat) (z : Z) : list byte :=
  match n with
  | O => []
  | S k => byte_of_Z (Z.shiftr z (8 * Z.of_nat k)) :: be_bytes k z
  end.

Definition pad (msg : list byte) : list byte :=
  let len := length msg in
  let zeros := (64 - (len + 9) mod 64) mod 64 in
  msg ++ x80 :: replicate zeros x00 ++ be_bytes 8 (8 * Z.of_nat len).

(** the words of a byte string, four bytes each, big-endian *)
Fixpoint words (bs : list byte) : list Z :=
  match bs with
  | a :: b :: c :: d :: rest =>
      Z.lor (Z.shiftl (Z_of_byte a) 24)
        (Z.lor (Z.shiftl (Z_of_byte b) 16)
           (Z.lor (Z.shiftl (Z_of_byte c) 8) (Z_of_byte d)))
      :: words rest
  | _ => []
  end.

(** [n] further words of the message schedule; [recent] holds the words so
    far, latest first. *)
Fixpoint schedule (n : nat) (recent : list Z) : list Z :=
  match n with
  | O => reverse recent
  | S k =>
      let w := add32 (add32 (ssig1 (recent !!! 1%nat)) (recent !!! 6%nat))
                     (add32 (ssig0 (recent !!! 14%nat)) (recent !!! 15%nat)) in
      schedule k (w :: recent)
  end.

Definition round (st : list Z) (kw : Z * Z) : list Z :=
  match st with
  | [a; b; c; d; e; f; g; h] =>
      let t1 := add32 (add32 (add32 h (bsig1 e)) (add32 (Ch e f g) kw.1)) kw.2 in
      let t2 := add32 (bsig0 a) (Maj a b c) in
      [add32 t1 t2; a; b; c; add32 d t1; e; f; g]
  | _ => st
  end.

Definition compress (h : list Z) (block : list Z) : list Z :=
  let w := schedule 48 (reverse block) in
  zip_with add32 h (foldl round h (zip K w)).

(** the blocks of a word list, sixteen words each *)
Fixpoint blocks (n : nat) (ws : list Z) : list (list Z) :=
  match n with
  | O => []
  | S k => take 16 ws :: blocks k (drop 16 ws)
  end.

Definition digest (msg : list byte) : list byte :=
  let ws := words (pad msg) in
  let h := foldl compress H0 (blocks (length ws / 16) ws) in
  concat (map (be_bytes 4) h).

End SHA256.

#[export] Instance sha256_fips : HashLib := {| sha256_digest := SHA256.digest |}.

(** ** [datetime] *)

Record datetime : Type := mkDatetime {
  year : Z; month : Z; day : Z;
  hour : Z; minute : Z; second : Z; microsecond : Z
}.

(** The ranges [datetime] keeps its fields in. *)
Definition datetime_valid (t : datetime) : Prop :=
  (1 <= year t <= 9999 /\ 1 <= month t <= 12 /\ 1 <= day t <= 31 /\
   0 <= hour t <= 23 /\ 0 <= minute t <= 59 /\ 0 <= second t <= 59 /\
   0 <= microsecond t <= 999999)%Z.

(** One directive of [strftime], as the C library of Linux (glibc) formats
    it: [%Y] is the year in decimal, not padded, so on four digits from the
    year 1000 on and on fewer before; [%m], [%d], [%H], [%M] and [%S] are on
    two digits; a directive the module does not use is left as written. *)
Definition strftime_directive (t : datetime) (d : ascii) : string :=
  if Ascii.eqb d "Y" then Py.str_of_int (year t)
  else if Ascii.eqb d "m" then Py.rjust0 2 (Py.str_of_int (month t))
  else if Ascii.eqb d "d" then Py.rjust0 2 (Py.str_of_int (day t))
  else if Ascii.eqb d "H" then Py.rjust0 2 (Py.str_of_int (hour t))
  else if Ascii.eqb d "M" then Py.rjust0 2 (Py.str_of_int (minute t))
  else if Ascii.eqb d "S" then Py.rjust0 2 (Py.str_of_int (second t))
  else if Ascii.eqb d "%" then "%"
  else String "%" (String d "").

(** [t.strftime(fmt)] *)
Fixpoint strftime (t : datetime) (fmt : string) : string :=
  match fmt with
  | "" => ""
  | String "%" (String d rest) => strftime_directive t d +:+ strftime t rest
  | String c rest => String c (strftime t rest)
  end.

(** ** The world the routine runs in

    The process environment, the system clock and the records handed to the
    module's logger.  [clock w n] is what the [n]-th reading of the clock
    returns; [ticks w] counts the readings made so far. *)

Record World : Type := mkWorld {
  environ : gmap string string;
  clock : nat -> datetime;
  ticks : nat;
  debug_log : list string
}.

Definition M (A : Type) : Type := World -> result A * World.

#[export] Instance M_ret : MRet M := fun A a w => (Ok a, w).
#[export] Instance M_bind : MBind M := fun A B f m w =>
  match m w with
  | (Ok a, w') => f a w'
  | (Raise e, w') => (Raise e, w')
  end.

(** a pure step that may raise *)
Definition lift {A} (r : result A) : M A := fun w => (r, w).

(** [os.environ.get(name)] *)
Definition os_environ_get (name : string) : M (option string) :=
  fun w => (Ok (environ w !! name), w).

(** [datetime.datetime.utcnow()] *)
Definition utcnow : M datetime :=
  fun w => (Ok (clock w (ticks w)),
            mkWorld (environ w) (clock w) (S (ticks w)) (debug_log w)).

(** [logger.debug(msg)] *)
Definition logger_debug (msg : string) : M unit :=
  fun w => (Ok tt, mkWorld (environ w) (clock w) (ticks w) (debug_log w ++ [msg])).

(** ** [get_s3_signed_url] *)

(** The local variables of a call that reaches the [return] of the signing
    path, under the names the source gives them ([t] is [utc_t]). *)
Record Frame : Type := mkFrame {
  access_key : string;
  secret_key : string;
  parts : list string;
  bucket : string;
  key : string;
  service : string;
  host : string;
  request_parameters : string;
  utc_t : datetime;
  amzdate : string;
  datestamp : string;
  canonical_uri : string;
  canonical_querystring : string;
  payload_hash : string;
  canonical_headers : string;
  signed_headers : string;
  canonical_request : string;
  algorithm : string;
  credential_scope : string;
  string_to_sign : string;
  signing_key : list byte;
  signature : string;
  authorization_header : string;
  headers : gmap string string;
  request_url : string
}.

Definition default_region : string := "eu-central-1".

(** The character the source writes [\n]. *)
Definition nl : string := String "010" "".

Section Signing.
Context `{HashLib}.

(** the nested [sign(key, msg)] *)
Definition sign (key : list byte) (msg : string) : result (list byte) :=
  msg_bytes ← Py.encode_utf8 msg;
  Ok (Hmac.digest key msg_bytes).

(** the nested [getSignatureKey(key, dateStamp, regionName, serviceName)] *)
Definition getSignatureKey (key dateStamp regionName serviceName : string)
  : result (list byte) :=
  key_bytes ← Py.encode_utf8 ("AWS4" +:+ key);
  kDate ← sign key_bytes dateStamp;
  kRegion ← sign kDate regionName;
  kService ← sign kRegion serviceName;
  kSigning ← sign kService "aws4_request";
  Ok kSigning.

(** The statements of [get_s3_signed_url] that follow the credential check,
    in source order; the value is the frame at the [return].  A chain of [+]
    is written with the right-nested [+:+].  The three calls that encode a
    [str], [canonical_request.encode], [getSignatureKey] and
    [string_to_sign.encode], come after the reading of the clock and before
    the log record, and each may raise. *)
Definition signing_path (access_key secret_key url region : string) : M Frame :=
  parts ← lift (Py.split (Py.replace url "https://" "") "/");
  parts_0 ← lift (Py.getitem parts 0);
  let bucket := Py.replace parts_0 ".s3.amazonaws.com" "" in
  let key := Py.join "/" (Py.slice_from 1 parts) in
  let service := "s3" in
  host ← lift (Py.format "%s.s3-%s.amazonaws.com" [bucket; region]);
  host ← lift (Py.format "%s.s3.amazonaws.com" [bucket]);
  let request_parameters := "" in
  t ← utcnow;
  let amzdate := strftime t "%Y%m%dT%H%M%SZ" in
  let datestamp := strftime t "%Y%m%d" in
  let canonical_uri := "/" +:+ key in
  let canonical_querystring := request_parameters in
  let payload_hash := "UNSIGNED-PAYLOAD" in
  canonical_headers ←
    lift (Py.format
            ("host:%s" +:+ nl +:+ "x-amz-content-sha256:%s" +:+ nl +:+
             "x-amz-date:%s" +:+ nl +:+ "x-amz-request-payer:requester" +:+ nl)
            [host; payload_hash; amzdate]);
  let signed_headers := "host;x-amz-content-sha256;x-amz-date;x-amz-request-payer" in
  let canonical_request :=
    "GET" +:+ nl +:+ canonical_uri +:+ nl +:+ canonical_querystring +:+ nl +:+
    canonical_headers +:+ nl +:+ signed_headers +:+ nl +:+ payload_hash in
  let algorithm := "AWS4-HMAC-SHA256" in
  let credential_scope :=
    datestamp +:+ "/" +:+ region +:+ "/" +:+ service +:+ "/" +:+ "aws4_request" in
  canonical_request_bytes ← lift (Py.encode_utf8 canonical_request);
  let string_to_sign :=
    algorithm +:+ nl +:+ amzdate +:+ nl +:+ credential_scope +:+ nl +:+
    sha256_hexdigest canonical_request_bytes in
  signing_key ← lift (getSignatureKey secret_key datestamp region service);
  string_to_sign_bytes ← lift (Py.encode_utf8 string_to_sign);
  let signature := Hmac.hexdigest signing_key string_to_sign_bytes in
  let authorization_header :=
    algorithm +:+ " " +:+ "Credential=" +:+ access_key +:+ "/" +:+
    credential_scope +:+ ", " +:+ "SignedHeaders=" +:+ signed_headers +:+
    ", " +:+ "Signature=" +:+ signature in
  let headers : gmap string string :=
    <["x-amz-request-payer" := "requester"]>
      (<["Authorization" := authorization_header]>
         (<["x-amz-content-sha256" := payload_hash]>
            (<["x-amz-date" := amzdate]> ∅))) in
  request_url ← lift (Py.format "https://%s%s" [host; canonical_uri]);
  _ ← logger_debug ("Request URL = " +:+ request_url);
  mret (mkFrame access_key secret_key parts bucket key service host
          request_parameters t amzdate datestamp canonical_uri
          canonical_querystring payload_hash canonical_headers signed_headers
          canonical_request algorithm credential_scope string_to_sign
          signing_key signature authorization_header headers request_url).

(** [get_s3_signed_url(url, region)]: the pair [(request_url, headers)], with
    [None] for the headers when a credential is missing. *)
Definition get_s3_signed_url (url region : string)
  : M (string * option (gmap string string)) :=
  access_key ← os_environ_get "AWS_ACCESS_KEY_ID";
  secret_key ← os_environ_get "AWS_SECRET_ACCESS_KEY";
  match access_key, secret_key with
  | Some access_key, Some secret_key =>
      f ← signing_path access_key secret_key url region;
      mret (request_url f, Some (headers f))
  | _, _ => mret (url, None)
  end.

(** Both credentials are in the environment of [w]. *)
Definition credentials (w : World) (ak sk : string) : Prop :=
  environ w !! "AWS_ACCESS_KEY_ID" = Some ak /\
  environ w !! "AWS_SECRET_ACCESS_KEY" = Some sk.

(** A signing invocation: a call made in [w] with both credentials present
    that reaches the [return] with frame [f], leaving the world [w']. *)
Definition signing_call (url region : string) (w : World) (ak sk : string)
    (f : Frame) (w' : World) : Prop :=
  credentials w ak sk /\
  signing_path ak sk url region w = (Ok f, w') /\
  get_s3_signed_url url region w = (Ok (request_url f, Some (headers f)), w').

End Signing.

(** ** The specification's wording of the signed strings

    These definitions follow the text of the specification; the theorems
    compare them with what [signing_path] computes. *)

(** The canonical headers, in the order the specification fixes. *)
Definition canonical_header_fields (host amzdate : string) : list (string * string) :=
  [("host", host);
   ("x-amz-content-sha256", "UNSIGNED-PAYLOAD");
   ("x-amz-date", amzdate);
   ("x-amz-request-payer", "requester")].

(** Each header as [name:value] closed by a newline. *)
Definition header_block (fields : list (string * string)) : string :=
  foldr (fun nv r => nv.1 +:+ ":" +:+ nv.2 +:+ nl +:+ r) "" fields.

(** The header names joined by semicolons. *)
Definition spec_signed_headers (fields : list (string * string)) : string :=
  Py.join ";" (map fst fields).

(** The canonical request: the newline-joined method, URI, empty query
    string, header block, signed-headers list and payload hash. *)
Definition spec_canonical_request (key host amzdate : string) : string :=
  let fields := canonical_header_fields host amzdate in
  Py.join nl ["GET"; "/" +:+ key; ""; header_block fields;
              spec_signed_headers fields; "UNSIGNED-PAYLOAD"].

(** The same text line by line; the newline that closes the header block
    leaves a blank line before the signed-headers list. *)
Definition spec_canonical_request_lines (key host amzdate : string) : string :=
  let fields := canonical_header_fields host amzdate in
  Py.join nl (["GET"; "/" +:+ key; ""]
              ++ map (fun nv => nv.1 +:+ ":" +:+ nv.2) fields
              ++ [""; spec_signed_headers fields; "UNSIGNED-PAYLOAD"]).

Definition spec_credential_scope (datestamp region : string) : string :=
  datestamp +:+ "/" +:+ region +:+ "/s3/aws4_request".

Definition spec_string_to_sign `{HashLib}
    (amzdate datestamp region canonical_request : string) : string :=
  Py.join nl ["AWS4-HMAC-SHA256"; amzdate;
              spec_credential_scope datestamp region;
              Hex.hexlify (sha256_digest (Py.utf8_bytes canonical_request))].

(** Four chained HMAC-SHA256 steps, each keyed by the digest before it. *)
Definition spec_signing_key `{HashLib} (secret datestamp region : string) : list byte :=
  let k1 := Hmac.digest (Py.utf8_bytes ("AWS4" +:+ secret)) (Py.utf8_bytes datestamp) in
  let k2 := Hmac.digest k1 (Py.utf8_bytes region) in
  let k3 := Hmac.digest k2 (Py.utf8_bytes "s3") in
  let k4 := Hmac.digest k3 (Py.utf8_bytes "aws4_request") in
  k4.

Definition spec_authorization (access_key scope signed_headers signature : string)
  : string :=
  "AWS4-HMAC-SHA256 Credential=" +:+ access_key +:+ "/" +:+ scope +:+
  ", SignedHeaders=" +:+ signed_headers +:+ ", Signature=" +:+ signature.

(** [s.endswith(p)] *)
Fixpoint endswith (s p : string) : bool :=
  String.eqb s p ||
  match s with
  | "" => false
  | String _ s' => endswith s' p
  end.

(** A malformed URL in the specification's sense: the host segment does not
    end in the storage-domain suffix, or the object key is empty. *)
Definition malformed_url (url : string) : bool :=
  match Py.split_go "/" 0 (Py.replace url "https://" "") with
  | host_segment :: path =>
      negb (endswith host_segment ".s3.amazonaws.com")
      || String.eqb (Py.join "/" path) ""
  | [] => true
  end.

(** [p] has no border: no proper non-empty suffix of [p] is a prefix of
    it. *)
Definition border_free (p : string) : bool :=
  forallb (fun k => negb (Py.startswith p (Py.drop_str k p)))
          (seq 1 (String.length p - 1)).

Definition is_digit (c : ascii) : bool :=
  (48 <=? nat_of_ascii c)%nat && (nat_of_ascii c <=? 57)%nat.

Definition is_lower_hex (c : ascii) : bool :=
  is_digit c || ((97 <=? nat_of_ascii c)%nat && (nat_of_ascii c <=? 102)%nat).

Fixpoint all_chars (P : ascii -> bool) (s : string) : bool :=
  match s with
  | "" => true
  | String c s' => P c && all_chars P s'
  end.

(** [s] is [n] decimal digits. *)
Definition digits (n : nat) (s : string) : bool :=
  (String.length s =? n)%nat && all_chars is_digit s.

(** [m] does not look at the world, and changes it by one log record, the
    request URL of the frame it returns, or not at all when it raises. *)
Definition logs_at_end (m : M Frame) : Prop :=
  forall w w',
    m w = match (m w').1 with
          | Ok f =>
              (Ok f, mkWorld (environ w) (clock w) (ticks w)
                       (debug_log w ++ ["Request URL = " +:+ request_url f]))
          | Raise e => (Raise e, w)
          end.

(** The strings the signing path encodes are made of the URL, the region and
    the secret key; the access key is never encoded. *)
Definition encodable_inputs (url region secret_key : string) : bool :=
  Py.encodable url && Py.encodable region && Py.encodable secret_key.

(** ** A concrete world: the credentials and frozen day of the
    specification's known-answer test; the clock advances by a second at
    each reading. *)

Definition example_clock (n : nat) : datetime :=
  mkDatetime 2023 1 1 0 0 (Z.of_nat (n mod 60)) 0.

Definition example_environ : gmap string string :=
  <["AWS_SECRET_ACCESS_KEY" := "testsecret"]>
    (<["AWS_ACCESS_KEY_ID" := "AKIDEXAMPLE"]> ∅).

Definition example_world : World := mkWorld example_environ example_clock 0 [].

Definition example_url : string := "https://examplebucket.s3.amazonaws.com/test.txt".

(** The same process later on: more clock readings made, a record logged. *)
Definition later_world : World :=
  mkWorld example_environ example_clock 60 ["Request URL = https://a/b"].

(** A process without credentials. *)
Definition bare_world : World := mkWorld ∅ example_clock 0 [].

(** The lone surrogate [U+DC80], and a URL whose key is that one character:
    [https://b.s3.amazonaws.com/\udc80] in Python's notation. *)
Definition lone_surrogate : string :=
  String "255" (String "146" (String "128" "")).

Definition surrogate_url : string := "https://b.s3.amazonaws.com/" +:+ lone_surrogate.

(** * The rest of [utils.py]

    [splitall], [get_text_calendar_dates] and [download_file], with the
    parts of [os.path], [calendar], [requests] and the file system that
    they call. *)

(** ** Errors outside the built-in ones, and outcomes

    [Builtin] holds the exceptions of the signing routine's model,
    [LibraryError] an exception class of a library ([requests], [OSError]
    and the like) by its name, [Exception] the bare [Exception] that
    [download_file] raises. *)

Inductive error : Type :=
| Builtin (e : exn)
| ZeroDivisionError (msg : string)
| LibraryError (name msg : string)
| Exception (msg : string).

Inductive outcome (A : Type) : Type :=
| Return (a : A)
| Throw (e : error).
Arguments Return {A} a.
Arguments Throw {A} e.

#[export] Instance outcome_ret : MRet outcome := fun A a => Return a.
#[export] Instance outcome_bind : MBind outcome := fun A B f m =>
  match m with
  | Return a => f a
  | Throw e => Throw e
  end.

(** A [for] loop, or a list comprehension, whose body may raise: the results
    in order, or the first error. *)
Fixpoint for_each {A B} (f : A -> outcome B) (l : list A) : outcome (list B) :=
  match l with
  | [] => Return []
  | x :: l' =>
      match f x with
      | Throw e => Throw e
      | Return y =>
          match for_each f l' with
          | Throw e => Throw e
          | Return ys => Return (y :: ys)
          end
      end
  end.

Module PyList.

(** [range(start, stop, step)] for [step <> 0] *)
Definition range (start stop step : Z) : list Z :=
  let count :=
    if (0 <? step)%Z then ((stop - start + step - 1) / step)%Z
    else ((start - stop - step - 1) / - step)%Z in
  map (fun k => start + k * step)%Z (seqZ 0 count).

(** An index of a slice, brought into [0 .. len]. *)
Definition clamp (len i : Z) : Z :=
  if (i <? 0)%Z then Z.max 0 (i + len) else Z.min i len.

(** [l[lo:hi]] *)
Definition slice {A} (l : list A) (lo hi : Z) : list A :=
  let len := Z.of_nat (length l) in
  let a := clamp len lo in
  let b := clamp len hi in
  take (Z.to_nat (b - a)) (drop (Z.to_nat a) l).

(** [l[lo:]] *)
Definition slice_from {A} (l : list A) (lo : Z) : list A :=
  slice l lo (Z.of_nat (length l)).

(** [l[:hi]] *)
Definition slice_to {A} (l : list A) (hi : Z) : list A := slice l 0 hi.

End PyList.

(** ** [calendar] and [get_text_calendar_dates] *)

Module Cal.

(** The attributes of a date the module reads.  A [datetime.date] keeps
    [month] within 1..12; the record does not, and the theorems that depend
    on the month assume the range. *)
Record date : Type := mkDate { year : Z; month : Z; day : Z }.

(** [int(a / b)]: true division, then truncation toward zero.  For the
    operands the module has, a month number less one (0..11) over an [int],
    the float quotient never crosses an integer, so the truncation is the
    integer quotient [Z.quot]. *)
Definition int_of_quotient (a b : Z) : outcome Z :=
  if (b =? 0)%Z then Throw (ZeroDivisionError "division by zero")
  else Return (Z.quot a b).

(** The month calendars come from the [calendar] library:
    [monthdatescalendar year month] is what
    [Calendar().monthdatescalendar(year, month)] returns, a list of weeks of
    dates, or the exception it raises. *)
Section Calendar.
Context {Month : Type}.
Variable monthdatescalendar : Z -> Z -> outcome Month.

(** [Calendar().yeardatescalendar(year, width)]: the twelve months, then
    rows of [width] of them. *)
Definition yeardatescalendar (year width : Z) : outcome (list (list Month)) :=
  months ← for_each (monthdatescalendar year) (PyList.range 1 13 1);
  if (width =? 0)%Z
  then Throw (Builtin (ValueError "range() arg 3 must not be zero"))
  else Return (map (fun i => PyList.slice months i (i + width))
                 (PyList.range 0 (Z.of_nat (length months)) width)).

(** the default of [cols] *)
Definition default_cols : Z := 3.

(** [get_text_calendar_dates(date1, date2, cols)] *)
Definition get_text_calendar_dates (date1 date2 : date) (cols : Z)
  : outcome (list (list (list Month))) :=
  let year1 := year date1 in
  let year2 := year date2 in
  row1 ← int_of_quotient (month date1 - 1) cols;
  q2 ← int_of_quotient (month date2 - 1) cols;
  let row2 := (q2 + 1)%Z in
  for_each
    (fun yr =>
       ycal ← yeardatescalendar yr cols;
       Return
         (if (yr =? year1)%Z && (yr =? year2)%Z then PyList.slice ycal row1 row2
          else if (yr =? year1)%Z then PyList.slice_from ycal row1
          else if (yr =? year2)%Z then PyList.slice_to ycal row2
          else ycal))
    (PyList.range year1 (year2 + 1) 1).

End Calendar.
End Cal.


(** The months of year [y] that the result shows: from the first month of
    the row that holds [date1]'s month, in [date1]'s year, to the last month
    of the row that holds [date2]'s month, in [date2]'s year. *)
Definition first_shown (date1 : Cal.date) (cols y : Z) : Z :=
  if (y =? Cal.year date1)%Z then (cols * ((Cal.month date1 - 1) / cols) + 1)%Z else 1%Z.

Definition last_shown (date2 : Cal.date) (cols y : Z) : Z :=
  if (y =? Cal.year date2)%Z
  then Z.min 12 (cols * ((Cal.month date2 - 1) / cols + 1))%Z
  else 12%Z.

(** Rows of [w] elements, [n] of them. *)
Definition rows_of {A} (w : nat) (l : list A) (n : nat) : list (list A) :=
  map (fun r => take w (drop (r * w) l)) (seq 0 n).

(** What [yeardatescalendar(y, cols)] returns when the month calendars of
    year [y] are [calendar_of y 1], ..., [calendar_of y 12]. *)
Definition year_rows {Month} (calendar_of : Z -> Z -> Month) (cols y : Z)
  : list (list Month) :=
  rows_of (Z.to_nat cols) (map (calendar_of y) (seqZ 1 12))
    (Z.to_nat ((12 + cols - 1) / cols)).

(** The year block of the loop body, once the year's rows are known. *)
Definition year_block {Month} (calendar_of : Z -> Z -> Month)
    (date1 date2 : Cal.date) (cols yr : Z) : list (list Month) :=
  let row1 := ((Cal.month date1 - 1) `quot` cols)%Z in
  let row2 := ((Cal.month date2 - 1) `quot` cols + 1)%Z in
  let ycal := year_rows calendar_of cols yr in
  if (yr =? Cal.year date1)%Z && (yr =? Cal.year date2)%Z
  then PyList.slice ycal row1 row2
  else if (yr =? Cal.year date1)%Z then PyList.slice_from ycal row1
  else if (yr =? Cal.year date2)%Z then PyList.slice_to ycal row2
  else ycal.

(** ** [os.path] on POSIX, as far as [utils.py] calls it *)

Module PosixPath.

(** [sep * n] *)
Definition seps (n : nat) : string :=
  String.string_of_list_ascii (replicate n "/"%char).

(** [p[:i], p[i:]] for [i = p.rfind('/') + 1]: the text up to the last
    separator, that separator included, and the text behind it. *)
Fixpoint cut (p : string) : string * string :=
  match p with
  | "" => ("", "")
  | String c p' =>
      match cut p' with
      | ("", t) => if Ascii.eqb c "/" then (String c "", t) else ("", String c t)
      | (h, t) => (String c h, t)
      end
  end.

(** [s.rstrip('/')] *)
Fixpoint rstrip_sep (s : string) : string :=
  match s with
  | "" => ""
  | String c s' =>
      match rstrip_sep s' with
      | "" => if Ascii.eqb c "/" then "" else String c ""
      | r => String c r
      end
  end.

(** [os.path.split(p)] *)
Definition split (p : string) : string * string :=
  let '(head, tail) := cut p in
  let head :=
    if negb (String.eqb head "") && negb (String.eqb head (seps (String.length head)))
    then rstrip_sep head
    else head in
  (head, tail).

(** [os.path.basename(p)] *)
Definition basename (p : string) : string := (cut p).2.

(** [s.endswith('/')] *)
Fixpoint ends_with_sep (s : string) : bool :=
  match s with
  | "" => false
  | String c "" => Ascii.eqb c "/"
  | String _ s' => ends_with_sep s'
  end.

(** The loop of [os.path.join]: [path] starts as the first argument and [p]
    holds the others. *)
Fixpoint join_from (path : string) (p : list string) : string :=
  match p with
  | [] => path
  | b :: p' =>
      join_from
        (if Py.startswith b "/" then b
         else if String.eqb path "" || ends_with_sep path then path +:+ b
         else path +:+ "/" +:+ b)
        p'
  end.

(** [os.path.join] applied to the unpacked [parts]; without a first argument
    it is a [TypeError]. *)
Definition join (parts : list string) : result string :=
  match parts with
  | [] => Raise (TypeError "join() missing 1 required positional argument: 'a'")
  | a :: p => Ok (join_from a p)
  end.

End PosixPath.

(** ** [splitall] *)

(** The [while 1] loop of [splitall]: [allparts.insert(0, x)] puts [x] in
    front; [None] when [fuel] iterations did not reach a [break]. *)
Fixpoint splitall_loop (fuel : nat) (path : string) (allparts : list string)
  : option (list string) :=
  match fuel with
  | O => None
  | S fuel' =>
      let parts := PosixPath.split path in
      if String.eqb parts.1 path then Some (parts.1 :: allparts)
      else if String.eqb parts.2 path then Some (parts.2 :: allparts)
      else splitall_loop fuel' parts.1 (parts.2 :: allparts)
  end.

(** [splitall(path)], with an iteration for every character and one more. *)
Definition splitall (path : string) : option (list string) :=
  splitall_loop (S (String.length path)) path [].

(** [s.lstrip('/')] *)
Fixpoint lstrip_sep (s : string) : string :=
  match s with
  | String c s' => if Ascii.eqb c "/" then lstrip_sep s' else s
  | "" => ""
  end.

(** No doubled separator behind the leading ones. *)
Definition tidy (path : string) : bool :=
  negb (Py.contains (lstrip_sep path) "//").

(** made of separators only *)
Definition only_seps (s : string) : bool := all_chars (Ascii.eqb "/") s.

(** ** [download_file]

    What the routine does to the outside is a sequence of calls: to the
    logger, to [requests.get], to [open], to the file's [write], and the
    closing of the file when the [with] block is left.  The model records
    these calls, in order, in a trace; what the outside answers is given by
    an environment, each answer being a value or an exception.  The process
    state that [get_s3_signed_url] reads and writes is the [World] above. *)

(** A [requests.Response], as far as the routine looks at it:
    [iter_content] yields the chunks in order and then stops, or raises
    [iter_error]. *)
Record Response : Type := mkResponse {
  status_code : Z;
  text : outcome string;
  iter_content : list (list byte);
  iter_error : option error
}.

(** The calls made to the outside, whether they return or raise: a record
    handed to [logger.info], a request with its answer, the opening of a
    file for writing, a write, the closing of the file. *)
Inductive event : Type :=
| Logged (msg : string)
| Requested (url : string) (hdrs : option (gmap string string)) (answer : outcome Response)
| Opened (filename : string)
| Wrote (chunk : list byte)
| Closed.

(** The answers of the outside: [network n url hdrs] to the request
    [requests.get(url, headers=hdrs, stream=True)] made after [n] earlier
    requests; [open_error filename] is the exception of
    [open(filename, 'wb')], if it raises; [write_error n chunk] that of the
    write of [chunk] after [n] earlier writes; [close_error] that of closing
    the file. *)
Record Env : Type := mkEnv {
  network : nat -> string -> option (gmap string string) -> outcome Response;
  open_error : string -> option error;
  write_error : nat -> list byte -> option error;
  close_error : option error
}.

Record Sys : Type := mkSys { proc : World; trace : list event }.

Definition IO (A : Type) : Type := Sys -> outcome A * Sys.

#[export] Instance IO_ret : MRet IO := fun A a s => (Return a, s).
#[export] Instance IO_bind : MBind IO := fun A B f m s =>
  match m s with
  | (Return a, s') => f a s'
  | (Throw e, s') => (Throw e, s')
  end.

Definition is_get (e : event) : bool :=
  match e with Requested _ _ _ => true | _ => false end.

Definition is_write (e : event) : bool :=
  match e with Wrote _ => true | _ => false end.

(** the calls on the file system *)
Definition is_file_event (e : event) : bool :=
  match e with Opened _ | Wrote _ | Closed => true | _ => false end.

Definition gets (tr : list event) : list event := List.filter is_get tr.
Definition writes (tr : list event) : list event := List.filter is_write tr.
Definition file_events (tr : list event) : list event := List.filter is_file_event tr.

Definition record (e : event) : IO unit :=
  fun s => (Return tt, mkSys (proc s) (trace s ++ [e])).

Definition raise {A} (e : error) : IO A := fun s => (Throw e, s).

(** a pure step of the earlier sections *)
Definition pure {A} (r : result A) : IO A :=
  fun s => (match r with Ok a => Return a | Raise e => Throw (Builtin e) end, s).

(** a step on the process state *)
Definition in_process {A} (m : M A) : IO A :=
  fun s =>
    match m (proc s) with
    | (Ok a, w) => (Return a, mkSys w (trace s))
    | (Raise e, w) => (Throw (Builtin e), mkSys w (trace s))
    end.

(** reading an attribute that may raise *)
Definition read {A} (o : outcome A) : IO A := fun s => (o, s).

Section Download.
Context `{HashLib}.
Variable env : Env.

(** [logger.info(msg)] *)
Definition logger_info (msg : string) : IO unit := record (Logged msg).

(** [requests.get(url, headers=hdrs, stream=True)] *)
Definition requests_get (url : string) (hdrs : option (gmap string string))
  : IO Response :=
  fun s =>
    let answer := network env (length (gets (trace s))) url hdrs in
    (answer, mkSys (proc s) (trace s ++ [Requested url hdrs answer])).

(** [f.write(chunk)] *)
Definition f_write (chunk : list byte) : IO unit :=
  fun s =>
    let s' := mkSys (proc s) (trace s ++ [Wrote chunk]) in
    match write_error env (length (writes (trace s))) chunk with
    | Some e => (Throw e, s')
    | None => (Return tt, s')
    end.

(** [with open(filename, 'wb') as f: body]: the file is closed however the
    body ends; an exception of the closing replaces that of the body. *)
Definition with_open (filename : string) (body : IO unit) : IO unit :=
  fun s =>
    let s0 := mkSys (proc s) (trace s ++ [Opened filename]) in
    match open_error env filename with
    | Some e => (Throw e, s0)
    | None =>
        let '(r, s1) := body s0 in
        let s2 := mkSys (proc s1) (trace s1 ++ [Closed]) in
        match close_error env with
        | Some e => (Throw e, s2)
        | None => (r, s2)
        end
    end.

(** the [for] loop over [resp.iter_content(chunk_size=1024)] *)
Fixpoint write_chunks (chunks : list (list byte)) (stop : option error) : IO unit :=
  match chunks with
  | [] => match stop with Some e => raise e | None => mret tt end
  | chunk :: chunks' =>
      _ ← match chunk with [] => mret tt | _ => f_write chunk end;
      write_chunks chunks' stop
  end.

(** [download_file(url, filename)], [filename] being [None] when the caller
    leaves it out *)
Definition download_file (url : string) (filename : option string) : IO string :=
  let filename :=
    match filename with None => PosixPath.basename url | Some f => f end in
  msg ← pure (Py.format "Downloading %s as %s" [url; filename]);
  _ ← logger_info msg;
  let headers : gmap string string := ∅ in
  resp ←
    (if Py.contains url "s3.amazonaws.com" then
       signed ← in_process (get_s3_signed_url url default_region);
       let '(signed_url, signed_headers) := signed in
       resp ← requests_get signed_url signed_headers;
       if negb (status_code resp =? 200)%Z
       then requests_get url (Some headers)
       else mret resp
     else requests_get url (Some headers));
  if negb (status_code resp =? 200)%Z then
    body ← read (text resp);
    msg ← pure (Py.format "Unable to download file %s: %s" [url; body]);
    raise (Exception msg)
  else
    _ ← with_open filename (write_chunks (iter_content resp) (iter_error resp));
    mret filename.

End Download.

(** a response the routine takes for a failure *)
Definition rejected (a : outcome Response) : bool :=
  match a with
  | Return resp => negb (status_code resp =? 200)%Z
  | Throw _ => false
  end.

(** [if chunk:] *)
Definition nonempty (chunk : list byte) : bool :=
  match chunk with [] => false | _ => true end.

(** the name the file is saved under *)
Definition target (url : string) (filename : option string) : string :=
  match filename with None => PosixPath.basename url | Some f => f end.

(** The signing of the URL returns: what a run beyond the first lines of
    [download_file] requires of a URL in S3. *)
Definition signing_returns `{HashLib} (url : string) (w : World) : Prop :=
  Py.contains url "s3.amazonaws.com" = true ->
  exists u h w', get_s3_signed_url url default_region w = (Ok (u, h), w').

(** The request the routine starts with, and the process state after, when
    the signing returns.  (When it raises, no request is made; the last
    branch is not read then.) *)
Definition first_request `{HashLib} (url : string) (w : World)
  : string * option (gmap string string) * World :=
  if Py.contains url "s3.amazonaws.com" then
    match get_s3_signed_url url default_region w with
    | (Ok (u, h), w') => (u, h, w')
    | (Raise _, w') => (url, None, w')
    end
  else (url, Some ∅, w).

(** the bytes written, in order *)
Definition written (tr : list event) : list byte :=
  concat (omap (fun e => match e with Wrote c => Some c | _ => None end) tr).

(** ** Inputs of the examples for the rest of the module *)

(** A calendar library that builds every month; a month calendar is
    represented by its year and month. *)
Definition example_calendar (y m : Z) : outcome (Z * Z) := Return (y, m).

(** The library at the end of its range: the weeks of December 9999 reach
    into a year that [datetime.date] does not have. *)
Definition calendar_to_9999 (y m : Z) : outcome (Z * Z) :=
  if (y =? 9999)%Z && (m =? 12)%Z
  then Throw (Builtin (ValueError "year 10000 is out of range"))
  else Return (y, m).

Definition may_2020 : Cal.date := Cal.mkDate 2020 5 17.
Definition feb_2021 : Cal.date := Cal.mkDate 2021 2 3.

(** A response with status 200 and a body of three chunks, the second one
    empty, and a response with status 403. *)
Definition served : Response :=
  mkResponse 200 (Return "") [["a"%byte; "b"%byte]; []; ["c"%byte]] None.

Definition denied : Response := mkResponse 403 (Return "AccessDenied") [] None.

(** An outside that answers every request with [r] and lets every file be
    written. *)
Definition answering (r : Response) : Env :=
  mkEnv (fun _ _ _ => Return r) (fun _ => None) (fun _ _ => None) None.

Definition plain_url : string := "http://example.org/data/scene.tif?v=2".

(** A process holding other credentials, at the same clock. *)
Definition other_world : World :=
  mkWorld (<["AWS_SECRET_ACCESS_KEY" := "othersecret"]>
             (<["AWS_ACCESS_KEY_ID" := "AKIDOTHER"]> ∅)) example_clock 0 [].

(** ** Known answers *)

Example replace_all_occurrences :
  Py.replace "https://a/https://b" "https://" "" = "a/b".
Proof. reflexivity. Qed.

Example replace_leftmost_first : Py.replace "aaa" "aa" "b" = "ba".
Proof. reflexivity. Qed.

(** A bucket name that itself holds the suffix loses it too. *)
Example replace_suffix_inside_bucket :
  Py.replace ("a.s3.amazonaws.com" +:+ ".s3.amazonaws.com") ".s3.amazonaws.com" ""
  = "a".
Proof. reflexivity. Qed.

Example replace_empty_pattern : Py.replace "abc" "" "-" = "-a-b-c-".
Proof. reflexivity. Qed.

Example split_keeps_empty_segments : Py.split "a//b/" "/" = Ok ["a"; ""; "b"; ""].
Proof. reflexivity. Qed.

Example split_of_empty : Py.split "" "/" = Ok [""].
Proof. reflexivity. Qed.

Example split_long_separator : Py.split "a--b-c" "--" = Ok ["a"; "b-c"].
Proof. reflexivity. Qed.

Example join_segments : Py.join "/" ["a"; ""; "b"] = "a//b".
Proof. reflexivity. Qed.

Example str_of_int_examples :
  map Py.str_of_int [0; 7; 10; 2023; 9999; 10000; -15]%Z
  = ["0"; "7"; "10"; "2023"; "9999"; "10000"; "-15"].
Proof. reflexivity. Qed.

Example format_two : Py.format "%s.s3-%s.amazonaws.com" ["b"; "r"] = Ok "b.s3-r.amazonaws.com".
Proof. reflexivity. Qed.

Example format_missing_argument :
  Py.format "%s%s" ["b"] = Raise (TypeError "not enough arguments for format string").
Proof. reflexivity. Qed.

Example strftime_full :
  strftime (mkDatetime 2023 1 1 0 0 7 0) "%Y%m%dT%H%M%SZ" = "20230101T000007Z".
Proof. reflexivity. Qed.

Example sha256_abc :
  sha256_hexdigest (Py.utf8_bytes "abc")
  = "ba7816bf8f01cfea414140de5dae2223b00361a396177a9cb410ff61f20015ad".
Proof. vm_compute. reflexivity. Qed.

Example sha256_of_empty :
  sha256_hexdigest (Py.utf8_bytes "")
  = "e3b0c44298fc1c149afbf4c8996fb92427ae41e4649b934ca495991b7852b855".
Proof. vm_compute. reflexivity. Qed.

Example sha256_two_blocks :
  sha256_hexdigest (Py.utf8_bytes "abcdbcdecdefdefgefghfghighijhijkijkljklmklmnlmnomnopnopq")
  = "248d6a61d20638b8e5c026930c3e6039a33ce45964ff2167f6ecedd419db06c1".
Proof. vm_compute. reflexivity. Qed.

(** RFC 4231, test case 2 *)
Example hmac_sha256_rfc4231 :
  Hmac.hexdigest (Py.utf8_bytes "Jefe") (Py.utf8_bytes "what do ya want for nothing?")
  = "5bdcc146bf60754e6a042426089575c75a003f089d2739839dec58b964ec3843".
Proof. vm_compute. reflexivity. Qed.

(** The signing-key example of the AWS documentation the source cites. *)
Example getSignatureKey_aws_example :
  match getSignatureKey "wJalrXUtnFEMI/K7MDENG+bPxRfiCYEXAMPLEKEY"
          "20120215" "us-east-1" "iam" with
  | Ok kSigning => Hex.hexlify kSigning
  | Raise _ => ""
  end
  = "f4780e2d9f65fa895f9c67b32ce1baf0b0d8a43505a000a1a9e090d414db404d".
Proof. vm_compute. reflexivity. Qed.

Example encode_known_answers :
  Py.encode_utf8 "a/b" = Ok ["a"; "/"; "b"]%byte /\
  Py.encode_utf8 lone_surrogate = Raise (UnicodeEncodeError "surrogates not allowed") /\
  Py.encode_utf8 ("key-" +:+ lone_surrogate)
  = Raise (UnicodeEncodeError "surrogates not allowed").
Proof. repeat split. Qed.

Example strftime_before_year_1000 :
  strftime (mkDatetime 999 1 1 2 3 4 0) "%Y%m%dT%H%M%SZ" = "9990101T020304Z".
Proof. reflexivity. Qed.

(** A URL with a lone surrogate in its key, with credentials present: the
    clock is read, the encoding of the canonical request raises, nothing is
    logged. *)
Example get_s3_signed_url_surrogate :
  get_s3_signed_url surrogate_url default_region example_world
  = (Raise (UnicodeEncodeError "surrogates not allowed"),
     mkWorld example_environ example_clock 1 []).
Proof. reflexivity. Qed.

(** The known-answer test of the specification: bucket [examplebucket], key
    [test.txt], region [eu-central-1], the clock at 2023-01-01T00:00:00Z. *)
Example get_s3_signed_url_example :
  match get_s3_signed_url example_url default_region example_world with
  | (Ok (request_url, Some headers), w') =>
      request_url = "https://examplebucket.s3.amazonaws.com/test.txt" /\
      headers !! "x-amz-date" = Some "20230101T000000Z" /\
      headers !! "x-amz-content-sha256" = Some "UNSIGNED-PAYLOAD" /\
      headers !! "x-amz-request-payer" = Some "requester" /\
      headers !! "Authorization" =
        Some "AWS4-HMAC-SHA256 Credential=AKIDEXAMPLE/20230101/eu-central-1/s3/aws4_request, SignedHeaders=host;x-amz-content-sha256;x-amz-date;x-amz-request-payer, Signature=5e43bf1f28977ed44816e52c5ace290fb4f03550213e1cbc2ef5e3856bd9f1a1" /\
      size headers = 4%nat /\
      ticks w' = 1%nat /\
      debug_log w' = ["Request URL = https://examplebucket.s3.amazonaws.com/test.txt"]
  | _ => False
  end.
Proof. vm_compute. repeat split. Qed.

(** ** Facts about the string built-ins *)

Lemma str_app_cons c s t : String c s +:+ t = String c (s +:+ t).
Proof. reflexivity. Qed.

Lemma str_app_nil_l s : "" +:+ s = s.
Proof. reflexivity. Qed.

Lemma str_app_nil_r s : s +:+ "" = s.
Proof. induction s as [|c s IH]; [done|]. by rewrite str_app_cons, IH. Qed.

Lemma str_app_assoc a b c : (a +:+ b) +:+ c = a +:+ (b +:+ c).
Proof. induction a as [|x a IH]; [done|]. by rewrite !str_app_cons, IH. Qed.

Lemma str_length_app a b :
  String.length (a +:+ b) = (String.length a + String.length b)%nat.
Proof.
  induction a as [|x a IH]; [done|]. rewrite str_app_cons. simpl. by rewrite IH.
Qed.

Lemma has_char_app c a b :
  Py.has_char c (a +:+ b) = Py.has_char c a || Py.has_char c b.
Proof.
  induction a as [|x a IH]; [done|].
  rewrite str_app_cons. simpl. rewrite IH. by rewrite orb_assoc.
Qed.

Lemma startswith_refl s : Py.startswith s s = true.
Proof. induction s as [|c s IH]; [done|]. simpl. by rewrite Ascii.eqb_refl. Qed.

Lemma startswith_app p s : Py.startswith (p +:+ s) p = true.
Proof.
  induction p as [|c p IH]; [done|].
  rewrite str_app_cons. simpl. by rewrite Ascii.eqb_refl.
Qed.

(** A match of [p] at the head of [b +:+ q] lies inside [b], or [b] is a
    prefix of [p] and the rest of [p] opens [q]. *)
Lemma startswith_app_inv b q p :
  Py.startswith (b +:+ q) p = true ->
  Py.startswith b p = true \/ exists p', p = b +:+ p' /\ Py.startswith q p' = true.
Proof.
  revert p. induction b as [|c b IH]; intros p Hp.
  - right. by exists p.
  - destruct p as [|a p]; [by left|].
    rewrite str_app_cons in Hp. simpl in Hp |- *.
    destruct (Ascii.eqb_spec a c) as [->|]; [|done].
    destruct (IH _ Hp) as [?|(p' & -> & ?)]; [by left|].
    right. by exists p'.
Qed.

Lemma startswith_has_char c s p :
  Py.startswith s p = true -> Py.has_char c p = true -> Py.has_char c s = true.
Proof.
  revert s. induction p as [|a p IH]; intros s Hs Hc; [done|].
  destruct s as [|b s]; [done|]. simpl in *.
  destruct (Ascii.eqb_spec a b) as [->|]; [|done].
  destruct (Ascii.eqb c b); [done|]. simpl in *. by apply IH.
Qed.

Lemma startswith_app_l x y p :
  String.length p <= String.length x ->
  Py.startswith (x +:+ y) p = Py.startswith x p.
Proof.
  revert x. induction p as [|a p IH]; intros x Hlen; [done|].
  destruct x as [|b x]; [simpl in Hlen; lia|].
  rewrite str_app_cons. simpl in *.
  destruct (Ascii.eqb a b); [|done]. apply IH. lia.
Qed.

Lemma drop_str_app b s : Py.drop_str (String.length b) (b +:+ s) = s.
Proof. induction b as [|c b IH]; [by destruct s|]. by rewrite str_app_cons. Qed.

Lemma contains_cons c s p :
  Py.contains (String c s) p = Py.startswith (String c s) p || Py.contains s p.
Proof. reflexivity. Qed.

(** *** [replace] *)

Lemma replace_go_skip old new x s :
  Py.replace_go old new (String.length x) (x +:+ s) = Py.replace_go old new 0 s.
Proof.
  induction x as [|c x IH]; [by destruct s|]. by rewrite str_app_cons.
Qed.

(** An occurrence at the head is replaced and the scan goes on behind it. *)
Lemma replace_go_head old new s :
  old <> "" ->
  Py.replace_go old new 0 (old +:+ s) = new +:+ Py.replace_go old new 0 s.
Proof.
  intros Hold. destruct old as [|a old]; [done|].
  pose proof (startswith_app (String a old) s) as Hsw.
  rewrite str_app_cons in Hsw |- *.
  cbn [Py.replace_go]. rewrite Hsw. f_equal.
  cbn [String.length]. rewrite Nat.sub_succ, Nat.sub_0_r.
  apply replace_go_skip.
Qed.

(** Without an occurrence nothing changes. *)
Lemma replace_go_absent old new s :
  Py.contains s old = false -> Py.replace_go old new 0 s = s.
Proof.
  induction s as [|c s IH]; intros Hc; [done|].
  rewrite contains_cons in Hc. apply orb_false_elim in Hc as [Hsw Hc].
  cbn [Py.replace_go]. rewrite Hsw. f_equal. by apply IH.
Qed.

Lemma border_free_no_overlap p b :
  border_free p = true -> b <> "" ->
  Py.startswith (b +:+ p) p = true -> Py.startswith b p = true.
Proof.
  intros Hbf Hb Hsw.
  destruct (startswith_app_inv _ _ _ Hsw) as [?|(p' & Hp & Hp')]; [done|].
  destruct p' as [|a p'].
  { rewrite str_app_nil_r in Hp. subst p. apply startswith_refl. }
  exfalso. unfold border_free in Hbf. rewrite forallb_forall in Hbf.
  specialize (Hbf (String.length b)).
  rewrite Hp in Hbf at 3. rewrite drop_str_app in Hbf. rewrite Hp' in Hbf.
  assert (Hin : In (String.length b) (seq 1 (String.length p - 1))).
  { apply in_seq. rewrite Hp, str_length_app. simpl.
    destruct b; [done|]. simpl. lia. }
  specialize (Hbf Hin). done.
Qed.

(** A border-free pattern at the end of a string that holds no other
    occurrence of it is the one occurrence [replace] finds. *)
Lemma replace_go_tail old new b :
  old <> "" -> border_free old = true -> Py.contains b old = false ->
  Py.replace_go old new 0 (b +:+ old) = b +:+ new.
Proof.
  intros Hold Hbf. induction b as [|c b IH]; intros Hc.
  - rewrite !str_app_nil_l.
    pose proof (replace_go_head old new "" Hold) as Hh.
    rewrite str_app_nil_r in Hh. rewrite Hh. simpl. by rewrite str_app_nil_r.
  - rewrite contains_cons in Hc. apply orb_false_elim in Hc as [Hsw Hc].
    assert (Hno : Py.startswith (String c b +:+ old) old = false).
    { destruct (Py.startswith (String c b +:+ old) old) eqn:E; [|done].
      apply border_free_no_overlap in E; [congruence|done|done]. }
    rewrite str_app_cons in Hno. rewrite !str_app_cons.
    cbn [Py.replace_go]. rewrite Hno. f_equal. by apply IH.
Qed.

(** *** [split] and [join] on the separator "/" *)

Lemma split_go_slash c s :
  Py.split_go "/" 0 (String c s) =
  if Ascii.eqb "/" c then "" :: Py.split_go "/" 0 s
  else Py.cons_head c (Py.split_go "/" 0 s).
Proof.
  cbn [Py.split_go Py.startswith]. by destruct (Ascii.eqb "/" c).
Qed.

(** [split] never returns the empty list. *)
Lemma split_go_nonempty sep k s : Py.split_go sep k s <> [].
Proof.
  revert k. induction s as [|c s IH]; intros k; simpl; [done|].
  destruct k; [|apply IH].
  destruct (Py.startswith _ _); [done|].
  specialize (IH 0%nat). destruct (Py.split_go sep 0 s); simpl; done.
Qed.

Lemma split_go_first x s :
  Py.has_char "/" x = false ->
  Py.split_go "/" 0 (x +:+ String "/" s) = x :: Py.split_go "/" 0 s.
Proof.
  induction x as [|c x IH]; intros Hx.
  - by rewrite str_app_nil_l, split_go_slash.
  - cbn [Py.has_char] in Hx. apply orb_false_elim in Hx as [Hc Hx].
    rewrite str_app_cons, split_go_slash, Hc, IH by done. done.
Qed.

Lemma join_cons_head sep c l :
  l <> [] -> Py.join sep (Py.cons_head c l) = String c (Py.join sep l).
Proof. destruct l as [|h [|h' t]]; done. Qed.

(** Joining the segments with the separator gives the string back. *)
Lemma join_split_slash s : Py.join "/" (Py.split_go "/" 0 s) = s.
Proof.
  induction s as [|c s IH]; [done|].
  rewrite split_go_slash.
  destruct (Ascii.eqb_spec "/" c) as [<-|].
  - pose proof (split_go_nonempty "/" 0 s).
    destruct (Py.split_go "/" 0 s) as [|h t]; [done|].
    change (Py.join "/" ("" :: h :: t)) with ("" +:+ "/" +:+ Py.join "/" (h :: t)).
    by rewrite IH.
  - rewrite join_cons_head by apply split_go_nonempty. by rewrite IH.
Qed.

(** *** The URL shape [https://<bucket>.s3.amazonaws.com/<key-path>] *)

Lemma suffix_border_free : border_free ".s3.amazonaws.com" = true.
Proof. reflexivity. Qed.

(** Behind the scheme, the scheme text can only occur inside the key path. *)
Lemma scheme_absent b kp :
  Py.has_char "/" b = false ->
  Py.contains kp "https://" = false ->
  Py.contains (b +:+ ".s3.amazonaws.com/" +:+ kp) "https://" = false.
Proof.
  intros Hb Hkp. induction b as [|c b IH].
  - rewrite str_app_nil_l. exact Hkp.
  - cbn [Py.has_char] in Hb. apply orb_false_elim in Hb as [Hc Hb].
    rewrite str_app_cons, contains_cons, (IH Hb), orb_false_r.
    change (String c (b +:+ ".s3.amazonaws.com/" +:+ kp))
      with (String c b +:+ ".s3.amazonaws.com" +:+ String "/" kp).
    rewrite <- str_app_assoc, startswith_app_l.
    2:{ rewrite str_length_app. simpl. lia. }
    destruct (Py.startswith _ _) eqn:E; [|done].
    apply (startswith_has_char "/") in E; [|done].
    rewrite has_char_app in E. cbn [Py.has_char] in E.
    rewrite Hc, Hb in E. done.
Qed.

Lemma url_scheme_stripped b kp :
  Py.has_char "/" b = false ->
  Py.contains kp "https://" = false ->
  Py.replace ("https://" +:+ b +:+ ".s3.amazonaws.com/" +:+ kp) "https://" ""
  = b +:+ ".s3.amazonaws.com/" +:+ kp.
Proof.
  intros Hb Hkp. unfold Py.replace.
  rewrite replace_go_head by done. rewrite str_app_nil_l.
  apply replace_go_absent. by apply scheme_absent.
Qed.

Lemma url_segments b kp :
  Py.has_char "/" b = false ->
  Py.split_go "/" 0 (b +:+ ".s3.amazonaws.com/" +:+ kp)
  = (b +:+ ".s3.amazonaws.com") :: Py.split_go "/" 0 kp.
Proof.
  intros Hb.
  change (b +:+ ".s3.amazonaws.com/" +:+ kp)
    with (b +:+ ".s3.amazonaws.com" +:+ String "/" kp).
  rewrite <- str_app_assoc. apply split_go_first.
  rewrite has_char_app, Hb. reflexivity.
Qed.

Lemma bucket_of_host_segment b :
  Py.contains b ".s3.amazonaws.com" = false ->
  Py.replace (b +:+ ".s3.amazonaws.com") ".s3.amazonaws.com" "" = b.
Proof.
  intros Hb. unfold Py.replace.
  rewrite replace_go_tail; [apply str_app_nil_r|done|apply suffix_border_free|done].
Qed.

(** *** Digits: the stamps of [strftime] and the hexadecimal digests *)

Lemma all_chars_app P a b :
  all_chars P (a +:+ b) = all_chars P a && all_chars P b.
Proof.
  induction a as [|c a IH]; [done|].
  rewrite str_app_cons. simpl. rewrite IH. by rewrite andb_assoc.
Qed.

Lemma digits_app m n a b :
  digits m a = true -> digits n b = true -> digits (m + n) (a +:+ b) = true.
Proof.
  unfold digits. intros [Hm Ha]%andb_true_iff [Hn Hb]%andb_true_iff.
  apply Nat.eqb_eq in Hm, Hn.
  rewrite all_chars_app, Ha, Hb, str_length_app, Hm, Hn, Nat.eqb_refl. done.
Qed.

Lemma digit_char_is_digit d : (0 <= d < 10)%Z -> is_digit (Py.digit_char d) = true.
Proof.
  intros Hd.
  assert (Hcases : (d = 0 \/ d = 1 \/ d = 2 \/ d = 3 \/ d = 4 \/ d = 5 \/ d = 6
                    \/ d = 7 \/ d = 8 \/ d = 9)%Z) by lia.
  repeat (destruct Hcases as [-> | Hcases]; [reflexivity|]). by subst.
Qed.

(** With fuel for every binary digit, the decimal digits of a number below
    [10 ^ k] are at most [k] characters, all of them digits. *)
Lemma decimal_go_digits fuel : forall n acc k,
  (0 <= n < 2 ^ Z.of_nat fuel)%Z -> (n < 10 ^ Z.of_nat k)%Z -> (1 <= k)%nat ->
  exists d, Py.decimal_go fuel n acc = d +:+ acc /\
            (String.length d <= k)%nat /\ all_chars is_digit d = true.
Proof.
  induction fuel as [|fuel IH]; intros n acc k Hn Hk Hk1.
  { exists "". split; [done|]. split; [simpl; lia|done]. }
  cbn [Py.decimal_go].
  assert (Hdigit : is_digit (Py.digit_char (n mod 10)) = true).
  { apply digit_char_is_digit. apply Z.mod_pos_bound. lia. }
  destruct (Z.ltb_spec n 10) as [Hlt|Hge].
  - exists (String (Py.digit_char (n mod 10)) ""). split; [done|].
    split; [simpl; lia|]. simpl. by rewrite Hdigit.
  - destruct k as [|[|k]]; [lia|simpl in Hk; lia|].
    destruct (IH (n / 10)%Z (String (Py.digit_char (n mod 10)) acc) (S k))
      as (d & Hd & Hlen & Hall).
    + rewrite Nat2Z.inj_succ, Z.pow_succ_r in Hn by lia.
      split; [apply Z.div_pos; lia|].
      apply Z.div_lt_upper_bound; lia.
    + rewrite (Nat2Z.inj_succ (S k)), Z.pow_succ_r in Hk by lia.
      apply Z.div_lt_upper_bound; lia.
    + lia.
    + exists (d +:+ String (Py.digit_char (n mod 10)) "").
      rewrite Hd, str_app_assoc. split; [done|].
      rewrite str_length_app, all_chars_app, Hall. simpl. rewrite Hdigit.
      split; [lia|done].
Qed.

Lemma str_of_int_digits z k :
  (0 <= z < 10 ^ Z.of_nat k)%Z -> (1 <= k)%nat ->
  (String.length (Py.str_of_int z) <= k)%nat /\
  all_chars is_digit (Py.str_of_int z) = true.
Proof.
  intros Hz Hk. unfold Py.str_of_int, Py.decimal.
  destruct (Z.ltb_spec z 0) as [|_]; [lia|].
  destruct (decimal_go_digits (S (Z.to_nat (Z.log2 z))) z "" k)
    as (d & -> & Hlen & Hall); [|lia|done|by rewrite str_app_nil_r].
  split; [lia|].
  rewrite Nat2Z.inj_succ, Z2Nat.id by apply Z.log2_nonneg.
  destruct (Z.eq_dec z 0%Z) as [->|]; [done|].
  apply Z.log2_spec. lia.
Qed.

Lemma all_chars_replicate P c n :
  P c = true -> all_chars P (String.string_of_list_ascii (replicate n c)) = true.
Proof. intros Hc. induction n as [|n IH]; [done|]. simpl. by rewrite Hc. Qed.

Lemma length_replicate_str c n :
  String.length (String.string_of_list_ascii (replicate n c)) = n.
Proof. induction n as [|n IH]; [done|]. simpl. by rewrite IH. Qed.

(** A number below [10 ^ k], right-justified with zeros, is [k] digits. *)
Lemma rjust0_digits z k :
  (0 <= z < 10 ^ Z.of_nat k)%Z -> (1 <= k)%nat ->
  digits k (Py.rjust0 k (Py.str_of_int z)) = true.
Proof.
  intros Hz Hk. destruct (str_of_int_digits z k Hz Hk) as [Hlen Hall].
  unfold digits, Py.rjust0.
  rewrite all_chars_app, all_chars_replicate, Hall by done.
  rewrite str_length_app, length_replicate_str.
  apply andb_true_iff. split; [apply Nat.eqb_eq; lia|done].
Qed.

Lemma two_digits z :
  (0 <= z <= 99)%Z -> digits 2 (Py.rjust0 2 (Py.str_of_int z)) = true.
Proof. intros Hz. apply rjust0_digits; [simpl; lia|lia]. Qed.

(** A number of [k + 1] decimal digits is written with that many. *)
Lemma decimal_go_width fuel : forall n acc k,
  (0 <= n < 2 ^ Z.of_nat fuel)%Z ->
  (10 ^ Z.of_nat k <= n < 10 ^ Z.of_nat (S k))%Z ->
  exists d, Py.decimal_go fuel n acc = d +:+ acc /\
            String.length d = S k /\ all_chars is_digit d = true.
Proof.
  induction fuel as [|fuel IH]; intros n acc k Hn Hk.
  { pose proof (Z.pow_pos_nonneg 10 (Z.of_nat k)). simpl in Hn. lia. }
  cbn [Py.decimal_go].
  assert (Hdigit : is_digit (Py.digit_char (n mod 10)) = true).
  { apply digit_char_is_digit. apply Z.mod_pos_bound. lia. }
  rewrite Nat2Z.inj_succ, Z.pow_succ_r in Hk by lia.
  destruct (Z.ltb_spec n 10) as [Hlt|Hge].
  - destruct k as [|k].
    + exists (String (Py.digit_char (n mod 10)) ""). split; [done|].
      split; [done|]. simpl. by rewrite Hdigit.
    + rewrite Nat2Z.inj_succ, Z.pow_succ_r in Hk by lia.
      pose proof (Z.pow_pos_nonneg 10 (Z.of_nat k)). lia.
  - destruct k as [|k]; [simpl in Hk; lia|].
    destruct (IH (n / 10)%Z (String (Py.digit_char (n mod 10)) acc) k)
      as (d & Hd & Hlen & Hall).
    + rewrite Nat2Z.inj_succ, Z.pow_succ_r in Hn by lia.
      split; [apply Z.div_pos; lia|].
      apply Z.div_lt_upper_bound; lia.
    + rewrite Nat2Z.inj_succ, Z.pow_succ_r in Hk |- * by lia.
      split; [apply Z.div_le_lower_bound; lia|apply Z.div_lt_upper_bound; lia].
    + exists (d +:+ String (Py.digit_char (n mod 10)) "").
      rewrite Hd, str_app_assoc. split; [done|].
      rewrite str_length_app, all_chars_app, Hall, Hlen. simpl. rewrite Hdigit.
      split; [lia|done].
Qed.

(** From the year 1000 on the year is four digits. *)
Lemma four_digits z :
  (1000 <= z <= 9999)%Z -> digits 4 (Py.str_of_int z) = true.
Proof.
  intros Hz. unfold Py.str_of_int, Py.decimal.
  destruct (Z.ltb_spec z 0) as [|_]; [lia|].
  destruct (decimal_go_width (S (Z.to_nat (Z.log2 z))) z "" 3)
    as (d & -> & Hlen & Hall).
  - split; [lia|].
    rewrite Nat2Z.inj_succ, Z2Nat.id by apply Z.log2_nonneg.
    apply Z.log2_spec. lia.
  - simpl. lia.
  - rewrite str_app_nil_r. unfold digits. by rewrite Hlen, Hall.
Qed.

(** The date-only stamp of a [datetime] from the year 1000 on is eight
    digits. *)
Lemma datestamp_digits t :
  datetime_valid t -> (1000 <= year t)%Z -> digits 8 (strftime t "%Y%m%d") = true.
Proof.
  intros (Hy & Hm & Hd & _) Hy'.
  change (strftime t "%Y%m%d")
    with (Py.str_of_int (year t) +:+
          Py.rjust0 2 (Py.str_of_int (month t)) +:+
          Py.rjust0 2 (Py.str_of_int (day t)) +:+ "").
  apply (digits_app 4 4); [apply four_digits; lia|].
  apply (digits_app 2 2); [apply two_digits; lia|].
  apply (digits_app 2 0); [apply two_digits; lia|done].
Qed.

(** The time of day is six digits. *)
Lemma daytime_digits t : datetime_valid t -> digits 6 (strftime t "%H%M%S") = true.
Proof.
  intros (_ & _ & _ & Hh & Hm & Hs & _).
  change (strftime t "%H%M%S")
    with (Py.rjust0 2 (Py.str_of_int (hour t)) +:+
          Py.rjust0 2 (Py.str_of_int (minute t)) +:+
          Py.rjust0 2 (Py.str_of_int (second t)) +:+ "").
  apply (digits_app 2 4); [apply two_digits; lia|].
  apply (digits_app 2 2); [apply two_digits; lia|].
  apply (digits_app 2 0); [apply two_digits; lia|done].
Qed.

(** The full timestamp opens with the date-only stamp. *)
Lemma amzdate_opens_with_datestamp t :
  strftime t "%Y%m%dT%H%M%SZ"
  = strftime t "%Y%m%d" +:+ "T" +:+ strftime t "%H%M%S" +:+ "Z".
Proof.
  change (strftime t "%Y%m%dT%H%M%SZ")
    with (Py.str_of_int (year t) +:+
          Py.rjust0 2 (Py.str_of_int (month t)) +:+
          Py.rjust0 2 (Py.str_of_int (day t)) +:+ "T" +:+
          Py.rjust0 2 (Py.str_of_int (hour t)) +:+
          Py.rjust0 2 (Py.str_of_int (minute t)) +:+
          Py.rjust0 2 (Py.str_of_int (second t)) +:+ "Z").
  change (strftime t "%Y%m%d")
    with (Py.str_of_int (year t) +:+
          Py.rjust0 2 (Py.str_of_int (month t)) +:+
          Py.rjust0 2 (Py.str_of_int (day t)) +:+ "").
  change (strftime t "%H%M%S")
    with (Py.rjust0 2 (Py.str_of_int (hour t)) +:+
          Py.rjust0 2 (Py.str_of_int (minute t)) +:+
          Py.rjust0 2 (Py.str_of_int (second t)) +:+ "").
  rewrite !str_app_assoc, !str_app_nil_l. reflexivity.
Qed.

Lemma of_byte_lower_hex b : all_chars is_lower_hex (Hex.of_byte b) = true.
Proof. destruct b; reflexivity. Qed.

(** [hexdigest] writes lower-case hexadecimal digits only. *)
Lemma hexlify_lower_hex bs : all_chars is_lower_hex (Hex.hexlify bs) = true.
Proof.
  induction bs as [|b bs IH]; [done|].
  cbn [Hex.hexlify]. by rewrite all_chars_app, of_byte_lower_hex, IH.
Qed.

(** *** The strings that [encode] accepts *)

Lemma encode_utf8_ok s :
  Py.encodable s = true -> Py.encode_utf8 s = Ok (Py.utf8_bytes s).
Proof. unfold Py.encode_utf8. by intros ->. Qed.

Lemma encode_utf8_returns s bs :
  Py.encode_utf8 s = Ok bs -> Py.encodable s = true /\ bs = Py.utf8_bytes s.
Proof. unfold Py.encode_utf8. destruct (Py.encodable s); [by intros [= <-]|done]. Qed.

Lemma encodable_app a b :
  Py.encodable (a +:+ b) = Py.encodable a && Py.encodable b.
Proof. unfold Py.encodable. by rewrite has_char_app, negb_orb. Qed.

Lemma encodable_all_chars P s :
  P Py.surrogate_lead = false -> all_chars P s = true -> Py.encodable s = true.
Proof.
  intros HP. unfold Py.encodable. induction s as [|c s IH]; [done|].
  cbn [all_chars Py.has_char]. intros [Hc Hs]%andb_true_iff.
  destruct (Ascii.eqb_spec Py.surrogate_lead c) as [<-|_]; [congruence|].
  by apply IH.
Qed.

(** Taking text out of a string puts no surrogate in. *)
Lemma encodable_replace_go old skip s :
  Py.encodable s = true -> Py.encodable (Py.replace_go old "" skip s) = true.
Proof.
  unfold Py.encodable. revert skip.
  induction s as [|c s IH]; intros skip; [done|].
  cbn [Py.has_char Py.replace_go]. rewrite negb_orb.
  intros [Hc Hs]%andb_true_iff.
  destruct skip; [|by apply IH].
  destruct (Py.startswith _ _).
  - rewrite str_app_nil_l. by apply IH.
  - cbn [Py.has_char]. rewrite negb_orb, Hc. by apply IH.
Qed.

Lemma encodable_replace s old :
  Py.encodable s = true -> Py.encodable (Py.replace s old "") = true.
Proof.
  intros Hs. unfold Py.replace. destruct old; [|by apply encodable_replace_go].
  assert (E : Py.replace_empty "" s = s); [|by rewrite E].
  clear Hs. induction s as [|c s IH]; [done|].
  cbn [Py.replace_empty]. by rewrite str_app_nil_l, IH.
Qed.

Lemma encodable_split_go sep skip s :
  Py.encodable s = true ->
  Forall (fun p => Py.encodable p = true) (Py.split_go sep skip s).
Proof.
  unfold Py.encodable. revert skip.
  induction s as [|c s IH]; intros skip; [by repeat constructor|].
  cbn [Py.has_char Py.split_go]. rewrite negb_orb.
  intros [Hc Hs]%andb_true_iff.
  destruct skip; [|by apply IH].
  destruct (Py.startswith _ _); [constructor; [done|by apply IH]|].
  specialize (IH 0%nat Hs).
  destruct (Py.split_go sep 0 s) as [|h t]; cbn [Py.cons_head].
  - repeat constructor. cbn [Py.has_char]. by rewrite negb_orb, Hc.
  - inversion_clear IH as [|? ? Hh Ht]. constructor; [|done].
    cbn [Py.has_char]. by rewrite negb_orb, Hc.
Qed.

Lemma encodable_join sep l :
  Py.encodable sep = true ->
  Forall (fun p => Py.encodable p = true) l ->
  Py.encodable (Py.join sep l) = true.
Proof.
  intros Hsep. induction 1 as [|x l Hx Hl IH]; [done|].
  destruct l as [|y l]; [done|].
  change (Py.join sep (x :: y :: l)) with (x +:+ sep +:+ Py.join sep (y :: l)).
  by rewrite !encodable_app, Hx, Hsep, IH.
Qed.

(** The bucket and the key are made of the text of the URL. *)
Lemma endpoint_encodable url p0 rest :
  Py.encodable url = true ->
  Py.split_go "/" 0 (Py.replace url "https://" "") = p0 :: rest ->
  Py.encodable (Py.replace p0 ".s3.amazonaws.com" "") = true /\
  Py.encodable (Py.join "/" rest) = true.
Proof.
  intros Hurl E.
  pose proof (encodable_split_go "/" 0 _ (encodable_replace _ "https://" Hurl)) as Hall.
  rewrite E in Hall. inversion_clear Hall as [|? ? Hp0 Hrest].
  split; [by apply encodable_replace|by apply encodable_join].
Qed.

Lemma encodable_decimal_go fuel : forall n acc,
  Py.encodable acc = true -> Py.encodable (Py.decimal_go fuel n acc) = true.
Proof.
  induction fuel as [|fuel IH]; intros n acc Hacc; [done|].
  cbn [Py.decimal_go].
  assert (Hd : Py.encodable (String (Py.digit_char (n mod 10)) acc) = true).
  { change (String ?c acc) with (String c "" +:+ acc).
    rewrite encodable_app, Hacc, andb_true_r.
    apply (encodable_all_chars is_digit); [done|].
    cbn [all_chars]. rewrite digit_char_is_digit; [done|].
    apply Z.mod_pos_bound. lia. }
  destruct (n <? 10)%Z; [done|by apply IH].
Qed.

Lemma encodable_str_of_int z : Py.encodable (Py.str_of_int z) = true.
Proof.
  unfold Py.str_of_int, Py.decimal. destruct (z <? 0)%Z.
  - rewrite encodable_app. by rewrite encodable_decimal_go.
  - by apply encodable_decimal_go.
Qed.

Lemma encodable_rjust0 width s :
  Py.encodable s = true -> Py.encodable (Py.rjust0 width s) = true.
Proof.
  intros Hs. unfold Py.rjust0. rewrite encodable_app, Hs, andb_true_r.
  apply (encodable_all_chars is_digit); [done|]. by apply all_chars_replicate.
Qed.

Lemma encodable_strftime_directive t d :
  Ascii.eqb Py.surrogate_lead d = false ->
  Py.encodable (strftime_directive t d) = true.
Proof.
  intros Hd. unfold strftime_directive.
  repeat (destruct (Ascii.eqb d _);
          [first [apply encodable_rjust0, encodable_str_of_int
                 |apply encodable_str_of_int|done]|]).
  unfold Py.encodable. cbn [Py.has_char]. by rewrite Hd.
Qed.

(** A stamp of [strftime] holds what the format holds, and digits. *)
Lemma encodable_strftime t fmt :
  Py.encodable fmt = true -> Py.encodable (strftime t fmt) = true.
Proof.
  assert (Hcons : forall c s, Py.encodable (String c s)
                    = negb (Ascii.eqb Py.surrogate_lead c) && Py.encodable s).
  { intros c s. unfold Py.encodable. cbn [Py.has_char]. by rewrite negb_orb. }
  assert (Hgen : forall n fmt, (String.length fmt <= n)%nat ->
            Py.encodable fmt = true -> Py.encodable (strftime t fmt) = true).
  { clear fmt. induction n as [|n IH]; intros fmt Hlen.
    { destruct fmt; [done|simpl in Hlen; lia]. }
    destruct fmt as [|c fmt]; [done|]. rewrite Hcons.
    intros [Hc Hfmt]%andb_true_iff.
    destruct (Ascii.eqb_spec c "%") as [->|Hne].
    - destruct fmt as [|d rest].
      + done.
      + cbn [strftime]. rewrite Hcons in Hfmt.
        apply andb_true_iff in Hfmt as [Hd Hrest].
        rewrite encodable_app, encodable_strftime_directive
          by by apply negb_true_iff.
        apply IH; [simpl in Hlen; lia|done].
    - assert (E : strftime t (String c fmt) = String c (strftime t fmt)).
      { cbn [strftime]. destruct c as [[] [] [] [] [] [] [] []]; try done. }
      rewrite E, Hcons, Hc. apply IH; [simpl in Hlen; lia|done]. }
  apply (Hgen (String.length fmt)). done.
Qed.

Lemma encodable_hexlify bs : Py.encodable (Hex.hexlify bs) = true.
Proof.
  apply (encodable_all_chars is_lower_hex); [done|apply hexlify_lower_hex].
Qed.

(** The converse: what is taken apart keeps every surrogate. *)

(** What a match of [old] passes over holds no character that [old] does
    not hold. *)
Lemma has_char_past_match c old s :
  Py.has_char c old = false -> Py.startswith s old = true ->
  Py.has_char c s = Py.has_char c (Py.drop_str (String.length old) s).
Proof.
  revert s. induction old as [|a old IH]; intros s Hold Hs; [by destruct s|].
  destruct s as [|b s]; [done|].
  cbn [Py.has_char Py.startswith String.length Py.drop_str] in *.
  apply orb_false_iff in Hold as [Ha Hold].
  destruct (Ascii.eqb_spec a b) as [<-|]; [|done].
  rewrite Ha. by apply IH.
Qed.

(** Taking out the occurrences of [old] takes out no character that [old]
    does not hold. *)
Lemma has_char_replace_go c old skip s :
  old <> "" -> Py.has_char c old = false ->
  Py.has_char c (Py.replace_go old "" skip s) = Py.has_char c (Py.drop_str skip s).
Proof.
  intros Hne Hold. revert skip.
  induction s as [|b s IH]; intros skip; [by destruct skip|].
  cbn [Py.replace_go]. destruct skip as [|k]; [|apply IH].
  destruct (Py.startswith (String b s) old) eqn:Hs.
  - rewrite str_app_nil_l, IH. change (Py.drop_str 0 (String b s)) with (String b s).
    rewrite (has_char_past_match c old (String b s)) by done.
    destruct old as [|a old]; [done|].
    cbn [String.length Py.drop_str].
    by replace (S (String.length old) - 1)%nat with (String.length old) by lia.
  - cbn [Py.has_char Py.drop_str]. by rewrite IH.
Qed.

Lemma encodable_replace_eq s old :
  old <> "" -> Py.encodable old = true ->
  Py.encodable (Py.replace s old "") = Py.encodable s.
Proof.
  intros Hne Hold. unfold Py.encodable in *.
  apply negb_true_iff in Hold.
  unfold Py.replace. destruct old as [|a old]; [done|].
  by rewrite has_char_replace_go.
Qed.

(** The bucket and the key hold every surrogate of the URL. *)
Lemma endpoint_encodable_eq url p0 rest :
  Py.split_go "/" 0 (Py.replace url "https://" "") = p0 :: rest ->
  Py.encodable (Py.replace p0 ".s3.amazonaws.com" "")
  && Py.encodable (Py.join "/" rest)
  = Py.encodable url.
Proof.
  intros E.
  rewrite <- (encodable_replace_eq url "https://") by done.
  rewrite (encodable_replace_eq p0) by done.
  rewrite <- (join_split_slash (Py.replace url "https://" "")), E.
  destruct rest as [|x rest]; [by rewrite andb_true_r|].
  change (Py.join "/" (p0 :: x :: rest)) with (p0 +:+ "/" +:+ Py.join "/" (x :: rest)).
  by rewrite !encodable_app.
Qed.

Lemma encode_utf8_raises s :
  Py.encodable s = false ->
  Py.encode_utf8 s = Raise (UnicodeEncodeError "surrogates not allowed").
Proof. unfold Py.encode_utf8. by intros ->. Qed.

(** *** The two wordings of the canonical request *)

(** Line by line, the newline that closes the last header is followed by
    the empty line. *)
Lemma spec_canonical_request_as_lines key host amzdate :
  spec_canonical_request key host amzdate
  = spec_canonical_request_lines key host amzdate.
Proof.
  unfold spec_canonical_request, spec_canonical_request_lines,
    spec_signed_headers, header_block, canonical_header_fields.
  cbn [Py.join foldr map fst snd app].
  do 3 f_equal.
  repeat first [rewrite str_app_cons | rewrite str_app_nil_l | rewrite str_app_assoc].
  reflexivity.
Qed.

(** ** The signing routine *)

(** *** Running the signing path *)

Section Running.
Context `{HashLib}.

Lemma run_lift {A B} (r : result A) (a : A) (k : A -> M B) (w : World) :
  r = Ok a -> (lift r ≫= k) w = k a w.
Proof. by intros ->. Qed.

Lemma run_utcnow {B} (k : datetime -> M B) (w : World) :
  (utcnow ≫= k) w
  = k (clock w (ticks w)) (mkWorld (environ w) (clock w) (S (ticks w)) (debug_log w)).
Proof. reflexivity. Qed.

(** A step that raises ends the run where it stands. *)
Lemma run_lift_raises {A B} (r : result A) (e : exn) (k : A -> M B) (w : World) :
  r = Raise e -> (lift r ≫= k) w = (Raise e, w).
Proof. by intros ->. Qed.

(** A step that returned has its value from a result that is [Ok]. *)
Lemma lift_bind_returns {A B} (r : result A) (k : A -> M B) w b w' :
  (lift r ≫= k) w = (Ok b, w') -> exists a, r = Ok a /\ k a w = (Ok b, w').
Proof.
  unfold mbind, M_bind, lift. destruct r as [a|e]; [|done]. by exists a.
Qed.

Lemma format_host bucket :
  Py.format "%s.s3.amazonaws.com" [bucket] = Ok (bucket +:+ ".s3.amazonaws.com").
Proof. reflexivity. Qed.

Lemma format_canonical_headers host payload_hash amzdate :
  Py.format
    ("host:%s" +:+ nl +:+ "x-amz-content-sha256:%s" +:+ nl +:+
     "x-amz-date:%s" +:+ nl +:+ "x-amz-request-payer:requester" +:+ nl)
    [host; payload_hash; amzdate]
  = Ok ("host:" +:+ host +:+ nl +:+ "x-amz-content-sha256:" +:+ payload_hash +:+ nl +:+
        "x-amz-date:" +:+ amzdate +:+ nl +:+ "x-amz-request-payer:requester" +:+ nl).
Proof. reflexivity. Qed.

Lemma format_request_url host canonical_uri :
  Py.format "https://%s%s" [host; canonical_uri]
  = Ok ("https://" +:+ host +:+ canonical_uri).
Proof. cbn. by rewrite str_app_nil_r. Qed.

(** The key derivation returns when its three arguments can be encoded,
    and only then. *)
Lemma getSignatureKey_returns secret datestamp region :
  Py.encodable secret = true -> Py.encodable datestamp = true ->
  Py.encodable region = true ->
  getSignatureKey secret datestamp region "s3"
  = Ok (spec_signing_key secret datestamp region).
Proof.
  intros Hs Hd Hr. unfold getSignatureKey, sign.
  rewrite (encode_utf8_ok ("AWS4" +:+ secret)) by (rewrite encodable_app; by rewrite Hs).
  rewrite (encode_utf8_ok datestamp), (encode_utf8_ok region) by done.
  reflexivity.
Qed.

(** It raises when the secret key or the region cannot be encoded. *)
Lemma getSignatureKey_raises secret datestamp region :
  Py.encodable datestamp = true ->
  Py.encodable secret && Py.encodable region = false ->
  getSignatureKey secret datestamp region "s3"
  = Raise (UnicodeEncodeError "surrogates not allowed").
Proof.
  intros Hd Hsr. unfold getSignatureKey, sign, Py.encode_utf8.
  rewrite encodable_app, Hd. cbn [andb Py.encodable Py.has_char negb].
  change (Py.encodable "AWS4") with true. cbn [andb].
  destruct (Py.encodable secret); [|done]. cbn [andb] in Hsr. rewrite Hsr.
  reflexivity.
Qed.

Lemma getSignatureKey_inv secret datestamp region k :
  getSignatureKey secret datestamp region "s3" = Ok k ->
  k = spec_signing_key secret datestamp region.
Proof.
  unfold getSignatureKey, sign, Py.encode_utf8, spec_signing_key.
  destruct (Py.encodable ("AWS4" +:+ secret)); [|done].
  destruct (Py.encodable datestamp); [|done].
  destruct (Py.encodable region); [|done].
  by intros [= <-].
Qed.

End Running.

(** Proves that a string put together from encodable parts is encodable. *)
Ltac encodability :=
  repeat first
    [ assumption
    | rewrite encodable_app; apply andb_true_intro; split
    | apply encodable_strftime; reflexivity
    | apply encodable_hexlify
    | reflexivity ].

(** Runs [signing_path] on the segments [E] names, up to its [return]; the
    parts of the strings it encodes are encodable by the hypotheses at
    hand. *)
Ltac run_signing_path E :=
  unfold signing_path, Py.split; rewrite E;
  repeat (cbv beta zeta;
          first [ rewrite run_utcnow
                | erewrite run_lift by
                    first [ apply encode_utf8_ok; encodability
                          | apply getSignatureKey_returns; encodability
                          | apply format_host
                          | apply format_canonical_headers
                          | apply format_request_url
                          | reflexivity ] ]);
  reflexivity.

(** *** The properties of the routine *)

Section Routine.
Context `{HashLib}.

(** With both credentials present the call is the signing path. *)
Lemma get_s3_signed_url_signed url region w ak sk :
  credentials w ak sk ->
  get_s3_signed_url url region w =
    match signing_path ak sk url region w with
    | (Ok f, w') => (Ok (request_url f, Some (headers f)), w')
    | (Raise e, w') => (Raise e, w')
    end.
Proof.
  intros [Hak Hsk].
  unfold get_s3_signed_url, mbind, M_bind, os_environ_get. rewrite Hak, Hsk.
  by destruct (signing_path ak sk url region w) as [[f|e] w'].
Qed.

(** [parts[0]] exists. *)
Lemma split_parts url :
  exists p0 rest, Py.split_go "/" 0 (Py.replace url "https://" "") = p0 :: rest.
Proof.
  pose proof (split_go_nonempty "/" 0 (Py.replace url "https://" "")).
  destruct (Py.split_go _ _ _) as [|p0 rest]; [done|]. by exists p0, rest.
Qed.

Lemma signing_call_intro url region w ak sk f w' :
  credentials w ak sk ->
  signing_path ak sk url region w = (Ok f, w') ->
  signing_call url region w ak sk f w'.
Proof.
  intros Hc Hp. split; [done|]. split; [done|].
  by rewrite (get_s3_signed_url_signed _ _ _ _ _ Hc), Hp.
Qed.

(** What the hypothesis on the inputs gives for the segments of the URL. *)
Lemma inputs_encodable url region sk p0 rest :
  encodable_inputs url region sk = true ->
  Py.split_go "/" 0 (Py.replace url "https://" "") = p0 :: rest ->
  Py.encodable region = true /\ Py.encodable sk = true /\
  Py.encodable (Py.replace p0 ".s3.amazonaws.com" "") = true /\
  Py.encodable (Py.join "/" rest) = true.
Proof.
  unfold encodable_inputs. intros [[Hu Hr]%andb_true_iff Hs]%andb_true_iff E.
  destruct (endpoint_encodable url p0 rest Hu E). done.
Qed.

(** After the clock is read the signing path looks at the world no more,
    and changes it by its one log record. *)
Lemma logs_at_end_lift {A} (r : result A) (k : A -> M Frame) :
  (forall a, logs_at_end (k a)) -> logs_at_end (lift r ≫= k).
Proof.
  intros Hk w w'. unfold mbind, M_bind, lift.
  destruct r as [a|e]; [apply Hk|done].
Qed.

Lemma logs_at_end_return msg f :
  msg = "Request URL = " +:+ request_url f ->
  logs_at_end (logger_debug msg ≫= fun _ => mret f).
Proof. intros -> w w'. reflexivity. Qed.

(** The signing path depends on the world through the one clock reading
    only; it counts that reading and, when it returns, logs one record. *)
Lemma signing_path_factors ak sk url region w w' :
  clock w (ticks w) = clock w' (ticks w') ->
  signing_path ak sk url region w =
    match (signing_path ak sk url region w').1 with
    | Ok f =>
        (Ok f, mkWorld (environ w) (clock w) (S (ticks w))
                 (debug_log w ++ ["Request URL = " +:+ request_url f]))
    | Raise e => (Raise e, mkWorld (environ w) (clock w) (S (ticks w)) (debug_log w))
    end.
Proof.
  intros Hclock. destruct (split_parts url) as (p0 & rest & E).
  unfold signing_path, Py.split. rewrite E.
  repeat (cbv beta zeta;
          erewrite !run_lift by first [apply format_host | reflexivity]).
  rewrite !run_utcnow, Hclock. cbv beta zeta.
  match goal with
  | |- ?m ?w1 = _ => assert (HL : logs_at_end m)
  end.
  { repeat (cbv beta zeta; apply logs_at_end_lift; intros ?).
    apply logs_at_end_return. reflexivity. }
  apply HL.
Qed.

(** What the signing path returns depends on the world through the one
    clock reading only. *)
Lemma signing_path_reads_clock ak sk url region w :
  (signing_path ak sk url region w).1
  = (signing_path ak sk url region
       (mkWorld ∅ (fun _ => clock w (ticks w)) 0 [])).1.
Proof.
  rewrite (signing_path_factors ak sk url region w
             (mkWorld ∅ (fun _ => clock w (ticks w)) 0 [])) by done.
  by destruct (signing_path _ _ _ _ (mkWorld _ _ _ _)).1.
Qed.

(** The parsed endpoint of a returned frame. *)
Lemma signing_path_endpoint ak sk url region w f w' :
  signing_path ak sk url region w = (Ok f, w') ->
  exists p0 rest,
    Py.split_go "/" 0 (Py.replace url "https://" "") = p0 :: rest /\
    bucket f = Py.replace p0 ".s3.amazonaws.com" "" /\
    host f = bucket f +:+ ".s3.amazonaws.com" /\
    key f = Py.join "/" rest /\
    request_url f = "https://" +:+ host f +:+ "/" +:+ key f.
Proof.
  destruct (split_parts url) as (p0 & rest & E). intros Hf.
  exists p0, rest. split; [done|].
  unfold signing_path, Py.split in Hf. rewrite E in Hf.
  repeat (cbv beta zeta in Hf;
          first [ rewrite run_utcnow in Hf
                | apply lift_bind_returns in Hf as (? & [= <-] & Hf)
                | apply lift_bind_returns in Hf as (? & _ & Hf) ]).
  injection Hf as <- _.
  cbn [bucket host key request_url]. rewrite str_app_nil_r. done.
Qed.

(** The dated canonical request of a returned frame. *)
Lemma signing_path_canonical_request ak sk url region w f w' :
  signing_path ak sk url region w = (Ok f, w') ->
  amzdate f = strftime (clock w (ticks w)) "%Y%m%dT%H%M%SZ" /\
  canonical_request f = spec_canonical_request (key f) (host f) (amzdate f).
Proof.
  destruct (split_parts url) as (p0 & rest & E). intros Hf.
  unfold signing_path, Py.split in Hf. rewrite E in Hf.
  repeat (cbv beta zeta in Hf;
          first [ rewrite run_utcnow in Hf
                | apply lift_bind_returns in Hf as (? & [= <-] & Hf)
                | apply lift_bind_returns in Hf as (? & _ & Hf) ]).
  injection Hf as <- _.
  cbn [amzdate canonical_request key host]. done.
Qed.

(** The signing path reaches its [return] when what it encodes can be
    encoded. *)
Lemma signing_path_returns ak sk url region w :
  encodable_inputs url region sk = true ->
  exists f w', signing_path ak sk url region w = (Ok f, w').
Proof.
  intros Henc. destruct (split_parts url) as (p0 & rest & E).
  destruct (inputs_encodable _ _ _ _ _ Henc E) as (Hr & Hs & Hb & Hk).
  eexists _, _. run_signing_path E.
Qed.

(** The signing path raises when one of its inputs cannot be encoded. *)
Lemma signing_path_raises ak sk url region w :
  encodable_inputs url region sk = false ->
  signing_path ak sk url region w
  = (Raise (UnicodeEncodeError "surrogates not allowed"),
     mkWorld (environ w) (clock w) (S (ticks w)) (debug_log w)).
Proof.
  unfold encodable_inputs. intros Henc.
  destruct (split_parts url) as (p0 & rest & E).
  pose proof (endpoint_encodable_eq url p0 rest E) as Hurl.
  unfold signing_path, Py.split. rewrite E.
  repeat (cbv beta zeta;
          first [ rewrite run_utcnow
                | erewrite run_lift by
                    first [ apply format_host | apply format_canonical_headers
                          | reflexivity ] ]).
  destruct (Py.encodable url) eqn:Hu.
  - apply andb_true_iff in Hurl as [Hb Hk].
    erewrite run_lift by (apply encode_utf8_ok; encodability).
    cbv beta zeta.
    erewrite run_lift_raises; [reflexivity|].
    apply getSignatureKey_raises; [encodability|].
    cbn [andb] in Henc. by rewrite andb_comm.
  - erewrite run_lift_raises; [reflexivity|].
    apply encode_utf8_raises.
    rewrite !encodable_app.
    destruct (Py.encodable (Py.replace p0 ".s3.amazonaws.com" ""));
      [|by rewrite ?andb_false_r, ?andb_false_l].
    cbn [andb] in Hurl. change (Py.slice_from 1 (p0 :: rest)) with rest.
    rewrite Hurl. by rewrite ?andb_false_r, ?andb_false_l.
Qed.

(** C1: with both credentials present and a URL, region and secret key that
    can be encoded (the inputs on which the invocation completes), the
    canonical request is the newline-joined [GET], canonical URI, empty query
    string, the four canonical headers [host], [x-amz-content-sha256],
    [x-amz-date], [x-amz-request-payer] in that order, each as [name:value]
    closed by a newline, a blank line, the signed-headers list and the
    literal [UNSIGNED-PAYLOAD].  The canonical URI is [/] followed by the key
    of the URL given, the segments behind the first one of the URL without
    its scheme; the host is made of the first segment; the date is the clock
    reading of the call.  For a URL
    [https://<bucket>.s3.amazonaws.com/<key-path>] the canonical request
    carries that key path and that host.  It holds for every URL, hence for
    every https URL with a non-empty key. *)
Theorem canonical_request_form url region w ak sk :
  credentials w ak sk ->
  encodable_inputs url region sk = true ->
  exists f w' host_segment path,
    signing_call url region w ak sk f w' /\
    Py.split (Py.replace url "https://" "") "/" = Ok (host_segment :: path) /\
    key f = Py.join "/" path /\
    host f = Py.replace host_segment ".s3.amazonaws.com" "" +:+ ".s3.amazonaws.com" /\
    amzdate f = strftime (clock w (ticks w)) "%Y%m%dT%H%M%SZ" /\
    canonical_uri f = "/" +:+ key f /\
    canonical_querystring f = "" /\
    signed_headers f = "host;x-amz-content-sha256;x-amz-date;x-amz-request-payer" /\
    payload_hash f = "UNSIGNED-PAYLOAD" /\
    canonical_request f = spec_canonical_request (key f) (host f) (amzdate f) /\
    canonical_request f = spec_canonical_request_lines (key f) (host f) (amzdate f) /\
    spec_signed_headers (canonical_header_fields (host f) (amzdate f))
    = "host;x-amz-content-sha256;x-amz-date;x-amz-request-payer" /\
    (forall b kp,
       url = "https://" +:+ b +:+ ".s3.amazonaws.com/" +:+ kp ->
       Py.has_char "/" b = false ->
       Py.contains b ".s3.amazonaws.com" = false ->
       Py.contains kp "https://" = false ->
       canonical_request f
       = spec_canonical_request kp (b +:+ ".s3.amazonaws.com")
           (strftime (clock w (ticks w)) "%Y%m%dT%H%M%SZ")).
Proof.
  intros Hc Henc. destruct (split_parts url) as (p0 & rest & E).
  destruct (inputs_encodable _ _ _ _ _ Henc E) as (Hr & Hs & Hb & Hk).
  eexists _, _, p0, rest. split.
  { apply signing_call_intro; [done|]. run_signing_path E. }
  cbn [canonical_uri canonical_querystring signed_headers payload_hash
       canonical_request key host amzdate].
  rewrite <- spec_canonical_request_as_lines.
  split; [unfold Py.split; by rewrite E|].
  split_and!; try reflexivity.
  intros b kp -> Hslash Hsuffix Hscheme.
  rewrite url_scheme_stripped, url_segments in E by done.
  injection E as <- <-.
  unfold Py.slice_from. cbn [drop]. rewrite !drop_0.
  rewrite bucket_of_host_segment, join_split_slash by done.
  reflexivity.
Qed.

(** C2: when [AWS_ACCESS_KEY_ID] or [AWS_SECRET_ACCESS_KEY] is absent from
    the environment (or both are), the call returns the URL it was given and
    [None] for the headers; nothing is raised, the clock is not read and
    nothing is logged. *)
Theorem missing_credentials_unsigned url region w :
  environ w !! "AWS_ACCESS_KEY_ID" = None \/
  environ w !! "AWS_SECRET_ACCESS_KEY" = None ->
  get_s3_signed_url url region w = (Ok (url, None), w).
Proof.
  intros Hmiss. unfold get_s3_signed_url, mbind, M_bind, os_environ_get.
  destruct Hmiss as [-> | ->]; [done|].
  by destruct (environ w !! "AWS_ACCESS_KEY_ID").
Qed.

(** Where the two substitutions leave the URL alone the endpoint is parsed
    as the URL reads: for a URL [https://<bucket>.s3.amazonaws.com/<key-path>]
    whose bucket holds neither [/] nor the text [.s3.amazonaws.com] and
    whose key path does not hold the text [https://], with credentials
    present, inputs that can be encoded and any region, the host is
    [<bucket>.s3.amazonaws.com] (no region in it) and the key is the key
    path unchanged, every [/] segment kept, so that the request URL is the
    URL given. *)
Theorem endpoint_parsed b kp region w ak sk :
  credentials w ak sk ->
  encodable_inputs ("https://" +:+ b +:+ ".s3.amazonaws.com/" +:+ kp) region sk = true ->
  Py.has_char "/" b = false ->
  Py.contains b ".s3.amazonaws.com" = false ->
  Py.contains kp "https://" = false ->
  exists f w',
    signing_call ("https://" +:+ b +:+ ".s3.amazonaws.com/" +:+ kp) region w ak sk f w' /\
    bucket f = b /\
    host f = b +:+ ".s3.amazonaws.com" /\
    key f = kp /\
    request_url f = "https://" +:+ b +:+ ".s3.amazonaws.com/" +:+ kp.
Proof.
  intros Hc Henc Hslash Hsuffix Hscheme.
  set (url := "https://" +:+ b +:+ ".s3.amazonaws.com/" +:+ kp) in *.
  assert (E : Py.split_go "/" 0 (Py.replace url "https://" "")
              = (b +:+ ".s3.amazonaws.com") :: Py.split_go "/" 0 kp).
  { unfold url. rewrite url_scheme_stripped by done. by apply url_segments. }
  destruct (inputs_encodable _ _ _ _ _ Henc E) as (Hr & Hs & Hb & Hk).
  eexists _, _. split.
  { apply signing_call_intro; [done|]. run_signing_path E. }
  cbn [bucket host key request_url]. unfold Py.slice_from. cbn [drop]. rewrite !drop_0.
  rewrite bucket_of_host_segment, join_split_slash by done.
  split_and!; try reflexivity.
  unfold url. rewrite ?str_app_nil_r, !str_app_assoc. reflexivity.
Qed.


(** C5: with both credentials present and a URL, region and secret key that
    can be encoded (the inputs on which the invocation completes), the
    signing key comes from four
    HMAC-SHA256 steps in sequence: the first is keyed by [AWS4] followed by
    the secret key and hashes the date stamp; each later one is keyed by the
    digest before it and hashes, in order, the region, [s3] and
    [aws4_request]; the last digest keys the HMAC-SHA256 of the string to
    sign, whose hexadecimal form is the signature of the [Authorization]
    header. *)
Theorem signing_key_chain url region w ak sk :
  credentials w ak sk ->
  encodable_inputs url region sk = true ->
  exists f w',
    signing_call url region w ak sk f w' /\
    signing_key f = spec_signing_key sk (datestamp f) region /\
    signature f
    = Hex.hexlify (Hmac.digest (signing_key f) (Py.utf8_bytes (string_to_sign f))) /\
    authorization_header f
    = spec_authorization ak (credential_scope f) (signed_headers f) (signature f) /\
    headers f !! "Authorization" = Some (authorization_header f).
Proof.
  intros Hc Henc. destruct (split_parts url) as (p0 & rest & E).
  destruct (inputs_encodable _ _ _ _ _ Henc E) as (Hr & Hs & Hb & Hk).
  eexists _, _. split.
  { apply signing_call_intro; [done|]. run_signing_path E. }
  cbn [signing_key signature authorization_header headers datestamp
       string_to_sign credential_scope signed_headers].
  split_and!; [reflexivity..|].
  rewrite lookup_insert_ne by done. apply lookup_insert_eq.
Qed.

(** C6: with both credentials present and a URL, region and secret key that
    can be encoded (the inputs on which the invocation completes), the
    [SignedHeaders] list of the
    returned [Authorization] value is, in order, the list of header names
    from which the canonical headers block of the canonical request is
    built. *)
Theorem signed_headers_match url region w ak sk :
  credentials w ak sk ->
  encodable_inputs url region sk = true ->
  exists f w',
    signing_call url region w ak sk f w' /\
    let fields := canonical_header_fields (host f) (amzdate f) in
    canonical_headers f = header_block fields /\
    canonical_request f
    = Py.join nl ["GET"; canonical_uri f; ""; header_block fields;
                  Py.join ";" (map fst fields); "UNSIGNED-PAYLOAD"] /\
    authorization_header f
    = spec_authorization ak (credential_scope f)
        (Py.join ";" (map fst fields)) (signature f) /\
    headers f !! "Authorization" = Some (authorization_header f).
Proof.
  intros Hc Henc. destruct (split_parts url) as (p0 & rest & E).
  destruct (inputs_encodable _ _ _ _ _ Henc E) as (Hr & Hs & Hb & Hk).
  eexists _, _. split.
  { apply signing_call_intro; [done|]. run_signing_path E. }
  cbn [canonical_headers canonical_request canonical_uri authorization_header
       headers host amzdate credential_scope signature].
  split_and!; [reflexivity..|].
  rewrite lookup_insert_ne by done. apply lookup_insert_eq.
Qed.

(** C7: with both credentials present and a URL, region and secret key that
    can be encoded (the inputs on which the invocation completes), the
    clock is read once; the full
    timestamp and the date-only stamp are both formatted from that one
    reading, the date-only stamp is the date part of the full timestamp, and
    this one pair is what the canonical headers, the [x-amz-date] header,
    the credential scope, the signing key and the string to sign carry.
    For a reading within the ranges of [datetime], from the year 1000 on,
    the stamps have the shapes [YYYYMMDD] and [YYYYMMDDTHHMMSSZ]; before the
    year 1000 the year is written on fewer than four digits. *)
Theorem single_clock_reading url region w ak sk :
  credentials w ak sk ->
  encodable_inputs url region sk = true ->
  exists f w',
    signing_call url region w ak sk f w' /\
    ticks w' = S (ticks w) /\
    utc_t f = clock w (ticks w) /\
    amzdate f = strftime (utc_t f) "%Y%m%dT%H%M%SZ" /\
    datestamp f = strftime (utc_t f) "%Y%m%d" /\
    amzdate f = datestamp f +:+ "T" +:+ strftime (utc_t f) "%H%M%S" +:+ "Z" /\
    canonical_headers f = header_block (canonical_header_fields (host f) (amzdate f)) /\
    headers f !! "x-amz-date" = Some (amzdate f) /\
    credential_scope f = spec_credential_scope (datestamp f) region /\
    signing_key f = spec_signing_key sk (datestamp f) region /\
    string_to_sign f
    = spec_string_to_sign (amzdate f) (datestamp f) region (canonical_request f) /\
    (datetime_valid (utc_t f) -> (1000 <= year (utc_t f))%Z ->
     digits 8 (datestamp f) = true /\
     digits 6 (strftime (utc_t f) "%H%M%S") = true).
Proof.
  intros Hc Henc. destruct (split_parts url) as (p0 & rest & E).
  destruct (inputs_encodable _ _ _ _ _ Henc E) as (Hr & Hs & Hb & Hk).
  eexists _, _. split.
  { apply signing_call_intro; [done|]. run_signing_path E. }
  cbn [ticks utc_t amzdate datestamp canonical_headers headers host
       credential_scope signing_key string_to_sign canonical_request].
  split_and!; try reflexivity.
  - apply amzdate_opens_with_datestamp.
  - intros Hv Hy. split; [by apply datestamp_digits | by apply daytime_digits].
Qed.

(** C8, as amended: for a malformed URL (the host segment does not end in
    the storage-domain suffix, or the object key is empty), credentials
    present and a URL, region and secret key that can be encoded as UTF-8,
    nothing is raised: the call signs a request for the host made
    of the first segment, every occurrence of the suffix removed, followed
    by the suffix, and for the key as split, and returns the request URL
    with a header mapping that carries an [Authorization] value. *)
Theorem malformed_url_signed url region w ak sk :
  credentials w ak sk ->
  encodable_inputs url region sk = true ->
  malformed_url url = true ->
  exists f w',
    signing_call url region w ak sk f w' /\
    (exists host_segment path,
       Py.split (Py.replace url "https://" "") "/" = Ok (host_segment :: path) /\
       bucket f = Py.replace host_segment ".s3.amazonaws.com" "" /\
       key f = Py.join "/" path) /\
    host f = bucket f +:+ ".s3.amazonaws.com" /\
    canonical_uri f = "/" +:+ key f /\
    request_url f = "https://" +:+ host f +:+ canonical_uri f /\
    is_Some (headers f !! "Authorization").
Proof.
  intros Hc Henc _. destruct (split_parts url) as (p0 & rest & E).
  destruct (inputs_encodable _ _ _ _ _ Henc E) as (Hr & Hs & Hb & Hk).
  eexists _, _. split.
  { apply signing_call_intro; [done|]. run_signing_path E. }
  cbn [bucket key host canonical_uri request_url headers].
  split_and!; try reflexivity.
  - exists p0, rest. unfold Py.split. by rewrite E.
  - rewrite lookup_insert_ne by done. rewrite lookup_insert_eq. by eexists.
Qed.

(** The world a returned call leaves: the environment and the clock are as
    before, one more reading is counted and one record is logged. *)
Lemma signing_path_world ak sk url region w f w' :
  signing_path ak sk url region w = (Ok f, w') ->
  environ w' = environ w /\ clock w' = clock w /\ ticks w' = S (ticks w) /\
  debug_log w' = debug_log w ++ ["Request URL = " +:+ request_url f].
Proof.
  intros Hf. pose proof (signing_path_factors ak sk url region w w eq_refl) as HF.
  rewrite Hf in HF. cbn [fst] in HF. by injection HF as ->.
Qed.

(** The world a call that raises leaves: the reading is counted, nothing
    is logged. *)
Lemma signing_path_raise_world ak sk url region w e w' :
  signing_path ak sk url region w = (Raise e, w') ->
  w' = mkWorld (environ w) (clock w) (S (ticks w)) (debug_log w).
Proof.
  intros Hf. pose proof (signing_path_factors ak sk url region w w eq_refl) as HF.
  rewrite Hf in HF. cbn [fst] in HF. by injection HF as ->.
Qed.

(** Two worlds that agree on the credentials and on the next clock reading
    give the same result. *)
Lemma result_determined url region w1 w2 ak sk :
  credentials w1 ak sk ->
  credentials w2 ak sk ->
  clock w1 (ticks w1) = clock w2 (ticks w2) ->
  (get_s3_signed_url url region w1).1 = (get_s3_signed_url url region w2).1.
Proof.
  intros Hc1 Hc2 Hclock.
  rewrite (get_s3_signed_url_signed _ _ _ _ _ Hc1).
  rewrite (get_s3_signed_url_signed _ _ _ _ _ Hc2).
  rewrite (signing_path_factors ak sk url region w1 w2 Hclock).
  by destruct (signing_path ak sk url region w2) as [[f2|e2] w2'].
Qed.

(** Calling again in the world the first call left, with the clock standing
    still, returns, or raises, what the first call did. *)
Lemma repeated_call_agrees url region w ak sk r w1 :
  credentials w ak sk ->
  clock w (S (ticks w)) = clock w (ticks w) ->
  get_s3_signed_url url region w = (r, w1) ->
  (get_s3_signed_url url region w1).1 = r.
Proof.
  intros Hc Hclock Hrun.
  assert (Hw1 : environ w1 = environ w /\ clock w1 = clock w /\ ticks w1 = S (ticks w)).
  { rewrite (get_s3_signed_url_signed _ _ _ _ _ Hc) in Hrun.
    destruct (signing_path ak sk url region w) as [[f|e] w'] eqn:Hp.
    - apply signing_path_world in Hp as (? & ? & ? & _). by injection Hrun as _ <-.
    - apply signing_path_raise_world in Hp as ->. by injection Hrun as _ <-. }
  destruct Hw1 as (He & Hk & Ht).
  assert (Hc' : credentials w1 ak sk).
  { destruct Hc as [Hak Hsk]. split; by rewrite He. }
  rewrite (result_determined url region w1 w ak sk Hc' Hc).
  - by rewrite Hrun.
  - by rewrite Hk, Ht.
Qed.

(** C9: the outcome of a call is a function of the URL, the region, the
    credential pair and the clock reading: two invocations that agree on
    these, in whatever worlds, return the same request URL and the same
    header mapping. *)
Theorem signing_deterministic url region w1 w2 ak sk :
  credentials w1 ak sk ->
  credentials w2 ak sk ->
  clock w1 (ticks w1) = clock w2 (ticks w2) ->
  (get_s3_signed_url url region w1).1 = (get_s3_signed_url url region w2).1.
Proof. apply result_determined. Qed.

(** C10, as amended: for every [url], whatever its shape, every region and
    any credential pair present: when the URL, the region and the secret key
    can be encoded as UTF-8 the call returns a request URL paired with a
    header mapping and raises nothing; the mapping carries an
    [Authorization] value, so a malformed input is signed, not rejected.
    When one of the three holds a lone surrogate the call raises
    [UnicodeEncodeError]. *)
Theorem get_s3_signed_url_total url region w ak sk :
  credentials w ak sk ->
  if encodable_inputs url region sk
  then exists request_url headers w',
         get_s3_signed_url url region w = (Ok (request_url, Some headers), w') /\
         is_Some (headers !! "Authorization")
  else exists w',
         get_s3_signed_url url region w
         = (Raise (UnicodeEncodeError "surrogates not allowed"), w').
Proof.
  intros Hc. rewrite (get_s3_signed_url_signed _ _ _ _ _ Hc).
  destruct (encodable_inputs url region sk) eqn:Henc.
  - destruct (split_parts url) as (p0 & rest & E).
    destruct (inputs_encodable _ _ _ _ _ Henc E) as (Hr & Hs & Hb & Hk).
    assert (Hrun : exists f w', signing_path ak sk url region w = (Ok f, w') /\
                                is_Some (headers f !! "Authorization")).
    { eexists _, _. split; [run_signing_path E|]. cbn [headers].
      rewrite lookup_insert_ne by done. rewrite lookup_insert_eq. by eexists. }
    destruct Hrun as (f & w' & -> & Hauth). by eexists _, _, _.
  - rewrite (signing_path_raises _ _ _ _ _ Henc). by eexists.
Qed.

End Routine.

(** ** The theorems at concrete inputs *)

Lemma example_credentials : credentials example_world "AKIDEXAMPLE" "testsecret".
Proof. split; reflexivity. Qed.

Lemma canonical_request_form_witness :
  credentials example_world "AKIDEXAMPLE" "testsecret" /\
  encodable_inputs example_url default_region "testsecret" = true /\
  exists f w' host_segment path,
    signing_call example_url default_region example_world
      "AKIDEXAMPLE" "testsecret" f w' /\
    Py.split (Py.replace example_url "https://" "") "/" = Ok (host_segment :: path) /\
    key f = Py.join "/" path /\
    host f = Py.replace host_segment ".s3.amazonaws.com" "" +:+ ".s3.amazonaws.com" /\
    amzdate f = strftime (clock example_world (ticks example_world)) "%Y%m%dT%H%M%SZ" /\
    canonical_uri f = "/" +:+ key f /\
    canonical_querystring f = "" /\
    signed_headers f = "host;x-amz-content-sha256;x-amz-date;x-amz-request-payer" /\
    payload_hash f = "UNSIGNED-PAYLOAD" /\
    canonical_request f = spec_canonical_request (key f) (host f) (amzdate f) /\
    canonical_request f = spec_canonical_request_lines (key f) (host f) (amzdate f) /\
    spec_signed_headers (canonical_header_fields (host f) (amzdate f))
    = "host;x-amz-content-sha256;x-amz-date;x-amz-request-payer" /\
    (forall b kp,
       example_url = "https://" +:+ b +:+ ".s3.amazonaws.com/" +:+ kp ->
       Py.has_char "/" b = false ->
       Py.contains b ".s3.amazonaws.com" = false ->
       Py.contains kp "https://" = false ->
       canonical_request f
       = spec_canonical_request kp (b +:+ ".s3.amazonaws.com")
           (strftime (clock example_world (ticks example_world)) "%Y%m%dT%H%M%SZ")).
Proof.
  split; [split; reflexivity|]. split; [reflexivity|].
  apply canonical_request_form; [split; reflexivity|reflexivity].
Defined.

(** The canonical request of the known-answer call, line by line: the URI
    line carries the key [test.txt] of the URL and the host line its
    bucket. *)
Example canonical_request_of_example_url :
  exists f w',
    signing_call example_url default_region example_world
      "AKIDEXAMPLE" "testsecret" f w' /\
    canonical_request f
    = Py.join nl ["GET"; "/test.txt"; "";
                  "host:examplebucket.s3.amazonaws.com";
                  "x-amz-content-sha256:UNSIGNED-PAYLOAD";
                  "x-amz-date:20230101T000000Z";
                  "x-amz-request-payer:requester"; "";
                  "host;x-amz-content-sha256;x-amz-date;x-amz-request-payer";
                  "UNSIGNED-PAYLOAD"].
Proof.
  destruct (signing_path_returns "AKIDEXAMPLE" "testsecret" example_url
              default_region example_world) as (f & w' & Hp); [reflexivity|].
  exists f, w'. split; [by apply signing_call_intro; [split|]|].
  destruct (signing_path_canonical_request _ _ _ _ _ _ _ Hp) as (Hd & ->).
  apply signing_path_endpoint in Hp as (p0 & rest & E & Hb & Hh & Hk & _).
  vm_compute in E. injection E as <- <-.
  rewrite Hd, Hh, Hk, Hb. reflexivity.
Qed.

Lemma missing_credentials_unsigned_witness :
  (environ bare_world !! "AWS_ACCESS_KEY_ID" = None \/
   environ bare_world !! "AWS_SECRET_ACCESS_KEY" = None) /\
  get_s3_signed_url example_url default_region bare_world
  = (Ok (example_url, None), bare_world).
Proof.
  split; [left; reflexivity|].
  apply missing_credentials_unsigned. left. reflexivity.
Defined.

Lemma endpoint_parsed_witness :
  credentials example_world "AKIDEXAMPLE" "testsecret" /\
  encodable_inputs
    ("https://" +:+ "examplebucket" +:+ ".s3.amazonaws.com/" +:+ "a/b/test.txt")
    "us-west-2" "testsecret" = true /\
  Py.has_char "/" "examplebucket" = false /\
  Py.contains "examplebucket" ".s3.amazonaws.com" = false /\
  Py.contains "a/b/test.txt" "https://" = false /\
  exists f w',
    signing_call ("https://" +:+ "examplebucket" +:+ ".s3.amazonaws.com/" +:+ "a/b/test.txt")
      "us-west-2" example_world "AKIDEXAMPLE" "testsecret" f w' /\
    bucket f = "examplebucket" /\
    host f = "examplebucket" +:+ ".s3.amazonaws.com" /\
    key f = "a/b/test.txt" /\
    request_url f
    = "https://" +:+ "examplebucket" +:+ ".s3.amazonaws.com/" +:+ "a/b/test.txt".
Proof.
  split; [split; reflexivity|].
  do 4 (split; [reflexivity|]).
  apply endpoint_parsed; [split; reflexivity|reflexivity..].
Defined.

(** C3 at the failing input: the URL has the shape
    [https://<bucket>.s3.amazonaws.com/<key-path>] with the bucket [b] and
    the key path [a/https://c]; the call on it derives the key [a/c] and
    returns the request URL [https://b.s3.amazonaws.com/a/c], and no call on
    it derives the key path of the URL. *)
Lemma endpoint_key_altered :
  credentials example_world "AKIDEXAMPLE" "testsecret" /\
  (exists f w',
      signing_call ("https://" +:+ "b" +:+ ".s3.amazonaws.com/" +:+ "a/https://c")
        default_region example_world "AKIDEXAMPLE" "testsecret" f w' /\
      host f = "b" +:+ ".s3.amazonaws.com" /\
      key f = "a/c" /\
      request_url f = "https://b.s3.amazonaws.com/a/c") /\
  ~ exists f w',
      signing_call ("https://" +:+ "b" +:+ ".s3.amazonaws.com/" +:+ "a/https://c")
        default_region example_world "AKIDEXAMPLE" "testsecret" f w' /\
      host f = "b" +:+ ".s3.amazonaws.com" /\
      key f = "a/https://c".
Proof.
  split; [split; reflexivity|]. split.
  - destruct (signing_path_returns "AKIDEXAMPLE" "testsecret"
                ("https://" +:+ "b" +:+ ".s3.amazonaws.com/" +:+ "a/https://c")
                default_region example_world)
      as (f & w' & Hp); [reflexivity|].
    exists f, w'. split; [by apply signing_call_intro; [split|]|].
    apply signing_path_endpoint in Hp as (p0 & rest & E & Hb & Hh & Hk & Hu).
    vm_compute in E. injection E as <- <-.
    rewrite Hu, Hh, Hk, Hb. done.
  - intros (f & w' & (_ & Hp & _) & _ & Hkey).
    apply signing_path_endpoint in Hp as (p0 & rest & E & _ & _ & Hk & _).
    vm_compute in E. injection E as <- <-.
    rewrite Hk in Hkey. vm_compute in Hkey. discriminate Hkey.
Qed.


Lemma signing_key_chain_witness :
  credentials example_world "AKIDEXAMPLE" "testsecret" /\
  encodable_inputs example_url default_region "testsecret" = true /\
  exists f w',
    signing_call example_url default_region example_world
      "AKIDEXAMPLE" "testsecret" f w' /\
    signing_key f = spec_signing_key "testsecret" (datestamp f) default_region /\
    signature f
    = Hex.hexlify (Hmac.digest (signing_key f) (Py.utf8_bytes (string_to_sign f))) /\
    authorization_header f
    = spec_authorization "AKIDEXAMPLE" (credential_scope f) (signed_headers f)
        (signature f) /\
    headers f !! "Authorization" = Some (authorization_header f).
Proof.
  split; [split; reflexivity|]. split; [reflexivity|].
  apply signing_key_chain; [split; reflexivity|reflexivity].
Defined.

Lemma signed_headers_match_witness :
  credentials example_world "AKIDEXAMPLE" "testsecret" /\
  encodable_inputs example_url default_region "testsecret" = true /\
  exists f w',
    signing_call example_url default_region example_world
      "AKIDEXAMPLE" "testsecret" f w' /\
    let fields := canonical_header_fields (host f) (amzdate f) in
    canonical_headers f = header_block fields /\
    canonical_request f
    = Py.join nl ["GET"; canonical_uri f; ""; header_block fields;
                  Py.join ";" (map fst fields); "UNSIGNED-PAYLOAD"] /\
    authorization_header f
    = spec_authorization "AKIDEXAMPLE" (credential_scope f)
        (Py.join ";" (map fst fields)) (signature f) /\
    headers f !! "Authorization" = Some (authorization_header f).
Proof.
  split; [split; reflexivity|]. split; [reflexivity|].
  apply signed_headers_match; [split; reflexivity|reflexivity].
Defined.

Lemma single_clock_reading_witness :
  credentials later_world "AKIDEXAMPLE" "testsecret" /\
  encodable_inputs example_url default_region "testsecret" = true /\
  exists f w',
    signing_call example_url default_region later_world
      "AKIDEXAMPLE" "testsecret" f w' /\
    ticks w' = S (ticks later_world) /\
    utc_t f = clock later_world (ticks later_world) /\
    amzdate f = strftime (utc_t f) "%Y%m%dT%H%M%SZ" /\
    datestamp f = strftime (utc_t f) "%Y%m%d" /\
    amzdate f = datestamp f +:+ "T" +:+ strftime (utc_t f) "%H%M%S" +:+ "Z" /\
    canonical_headers f = header_block (canonical_header_fields (host f) (amzdate f)) /\
    headers f !! "x-amz-date" = Some (amzdate f) /\
    credential_scope f = spec_credential_scope (datestamp f) default_region /\
    signing_key f = spec_signing_key "testsecret" (datestamp f) default_region /\
    string_to_sign f
    = spec_string_to_sign (amzdate f) (datestamp f) default_region (canonical_request f) /\
    (datetime_valid (utc_t f) -> (1000 <= year (utc_t f))%Z ->
     digits 8 (datestamp f) = true /\
     digits 6 (strftime (utc_t f) "%H%M%S") = true).
Proof.
  split; [split; reflexivity|]. split; [reflexivity|].
  apply single_clock_reading; [split; reflexivity|reflexivity].
Defined.

Lemma malformed_url_signed_witness :
  credentials example_world "AKIDEXAMPLE" "testsecret" /\
  encodable_inputs "https://example.org/" default_region "testsecret" = true /\
  malformed_url "https://example.org/" = true /\
  exists f w',
    signing_call "https://example.org/" default_region example_world
      "AKIDEXAMPLE" "testsecret" f w' /\
    (exists host_segment path,
       Py.split (Py.replace "https://example.org/" "https://" "") "/"
       = Ok (host_segment :: path) /\
       bucket f = Py.replace host_segment ".s3.amazonaws.com" "" /\
       key f = Py.join "/" path) /\
    host f = bucket f +:+ ".s3.amazonaws.com" /\
    canonical_uri f = "/" +:+ key f /\
    request_url f = "https://" +:+ host f +:+ canonical_uri f /\
    is_Some (headers f !! "Authorization").
Proof.
  split; [split; reflexivity|]. do 2 (split; [reflexivity|]).
  apply malformed_url_signed; [split; reflexivity|reflexivity..].
Defined.

(** C8 fails as stated: [https://example.org/] has a host segment without
    the storage-domain suffix and an empty key, and with credentials present
    the call on it raises nothing; it returns a request URL and headers. *)
Lemma malformed_url_not_rejected :
  credentials example_world "AKIDEXAMPLE" "testsecret" /\
  malformed_url "https://example.org/" = true /\
  exists headers w',
    get_s3_signed_url "https://example.org/" default_region example_world
    = (Ok ("https://example.org.s3.amazonaws.com/", Some headers), w').
Proof.
  split; [split; reflexivity|]. split; [reflexivity|].
  destruct (signing_path_returns "AKIDEXAMPLE" "testsecret"
              "https://example.org/" default_region example_world)
    as (f & w' & Hp); [reflexivity|].
  exists (headers f), w'.
  rewrite (get_s3_signed_url_signed _ _ _ _ _ example_credentials), Hp.
  apply signing_path_endpoint in Hp as (p0 & rest & E & Hb & Hh & Hk & Hu).
  vm_compute in E. injection E as <- <-.
  rewrite Hu, Hh, Hk, Hb. reflexivity.
Qed.

Lemma signing_deterministic_witness :
  credentials example_world "AKIDEXAMPLE" "testsecret" /\
  credentials later_world "AKIDEXAMPLE" "testsecret" /\
  clock example_world (ticks example_world) = clock later_world (ticks later_world) /\
  (get_s3_signed_url example_url default_region example_world).1
  = (get_s3_signed_url example_url default_region later_world).1.
Proof.
  split; [split; reflexivity|]. split; [split; reflexivity|].
  split; [reflexivity|].
  apply (signing_deterministic _ _ _ _ "AKIDEXAMPLE" "testsecret");
    [split; reflexivity|split; reflexivity|reflexivity].
Defined.

Lemma get_s3_signed_url_total_witness :
  credentials example_world "AKIDEXAMPLE" "testsecret" /\
  encodable_inputs "not a url" default_region "testsecret" = true /\
  exists request_url headers w',
    get_s3_signed_url "not a url" default_region example_world
    = (Ok (request_url, Some headers), w') /\
    is_Some (headers !! "Authorization").
Proof.
  split; [split; reflexivity|]. split; [reflexivity|].
  exact (get_s3_signed_url_total "not a url" default_region example_world
           "AKIDEXAMPLE" "testsecret" (conj eq_refl eq_refl)).
Defined.

(** C10 fails as stated: the URL [https://b.s3.amazonaws.com/\udc80] is a
    string, its key is one lone surrogate, and with credentials present the
    call on it raises [UnicodeEncodeError] when it encodes the canonical
    request; it returns no request URL and no headers. *)
Lemma surrogate_url_raises :
  credentials example_world "AKIDEXAMPLE" "testsecret" /\
  get_s3_signed_url surrogate_url default_region example_world
  = (Raise (UnicodeEncodeError "surrogates not allowed"),
     mkWorld example_environ example_clock 1 []) /\
  ~ exists request_url headers w',
      get_s3_signed_url surrogate_url default_region example_world
      = (Ok (request_url, Some headers), w').
Proof.
  split; [split; reflexivity|]. split; [reflexivity|].
  intros (u & h & w' & Hrun). discriminate Hrun.
Qed.

(** * The rest of [utils.py]: properties *)

(** ** [os.path] and [splitall] *)

Lemma ends_with_sep_cons c s :
  s <> "" -> PosixPath.ends_with_sep (String c s) = PosixPath.ends_with_sep s.
Proof. by destruct s. Qed.

Lemma ends_with_sep_app x : PosixPath.ends_with_sep (x +:+ "/") = true.
Proof.
  induction x as [|c x IH]; [done|].
  rewrite str_app_cons, ends_with_sep_cons; [done|]. by destruct x.
Qed.

Lemma ends_with_sep_snoc s :
  PosixPath.ends_with_sep s = true -> exists q, s = q +:+ "/".
Proof.
  induction s as [|c s IH]; [done|]. destruct s as [|c' s'].
  - simpl. intros Hc. apply Ascii.eqb_eq in Hc as ->. by exists "".
  - rewrite ends_with_sep_cons by done. intros (q & ->)%IH. by exists (String c q).
Qed.

(** [cut] takes the path apart at its last separator. *)
Lemma cut_spec p :
  p = (PosixPath.cut p).1 +:+ (PosixPath.cut p).2 /\
  Py.has_char "/" (PosixPath.cut p).2 = false /\
  ((PosixPath.cut p).1 = "" \/ PosixPath.ends_with_sep (PosixPath.cut p).1 = true).
Proof.
  induction p as [|c p IH]; [by auto|].
  cbn [PosixPath.cut]. destruct (PosixPath.cut p) as [h t]. simpl in IH.
  destruct IH as (Hp & Ht & Hh). destruct h as [|a h].
  - rewrite str_app_nil_l in Hp. subst p.
    destruct (Ascii.eqb_spec c "/") as [->|Hc]; cbn [fst snd Py.has_char].
    + auto.
    + split; [done|]. split; [|by left].
      rewrite Ht, orb_false_r. apply Ascii.eqb_neq. congruence.
  - cbn [fst snd]. split; [by rewrite Hp at 1|]. split; [done|]. right.
    destruct Hh as [|Hh]; [done|]. by rewrite ends_with_sep_cons.
Qed.

Lemma cut_no_sep p : Py.has_char "/" p = false -> PosixPath.cut p = ("", p).
Proof.
  induction p as [|c p IH]; [done|]. cbn [Py.has_char PosixPath.cut].
  intros [Hc Hp]%orb_false_elim. rewrite (IH Hp).
  rewrite Ascii.eqb_sym, Hc. done.
Qed.

(** Behind a last separator. *)
Lemma cut_app q t :
  Py.has_char "/" t = false -> PosixPath.cut (q +:+ "/" +:+ t) = (q +:+ "/", t).
Proof.
  intros Ht. induction q as [|c q IH].
  - rewrite str_app_nil_l. change ("/" +:+ t) with (String "/" t).
    cbn [PosixPath.cut]. by rewrite (cut_no_sep _ Ht).
  - change (String c q +:+ "/" +:+ t) with (String c (q +:+ "/" +:+ t)).
    change (String c q +:+ "/") with (String c (q +:+ "/")).
    cbn [PosixPath.cut]. rewrite IH. by destruct q.
Qed.

Lemma rstrip_sep_prefix x : exists r, x = PosixPath.rstrip_sep x +:+ r.
Proof.
  induction x as [|c x (r & IH)]; [by exists ""|].
  cbn [PosixPath.rstrip_sep]. destruct (PosixPath.rstrip_sep x) as [|a y].
  - destruct (Ascii.eqb c "/").
    + by exists (String c x).
    + exists r. rewrite str_app_nil_l in IH. by rewrite str_app_cons, <- IH.
  - exists r. by rewrite str_app_cons, <- IH.
Qed.

Lemma rstrip_sep_app_sep x : PosixPath.rstrip_sep (x +:+ "/") = PosixPath.rstrip_sep x.
Proof.
  induction x as [|c x IH]; [done|].
  rewrite str_app_cons. cbn [PosixPath.rstrip_sep]. by rewrite IH.
Qed.

Lemma rstrip_sep_cons c s :
  PosixPath.rstrip_sep (String c s) =
  match PosixPath.rstrip_sep s with
  | "" => if Ascii.eqb c "/" then "" else String c ""
  | r => String c r
  end.
Proof. reflexivity. Qed.

Lemma rstrip_sep_id x : PosixPath.ends_with_sep x = false -> PosixPath.rstrip_sep x = x.
Proof.
  induction x as [|c x IH]; [done|]. destruct x as [|c' x'].
  - simpl. by intros ->.
  - rewrite ends_with_sep_cons by done. intros Hx.
    rewrite rstrip_sep_cons, (IH Hx). done.
Qed.

Lemma split_fst_prefix p : exists r, p = (PosixPath.split p).1 +:+ r.
Proof.
  unfold PosixPath.split. destruct (cut_spec p) as (Hp & _).
  destruct (PosixPath.cut p) as [h t]. cbn [fst snd] in *.
  destruct (_ && _).
  - destruct (rstrip_sep_prefix h) as (r & Hr). exists (r +:+ t).
    by rewrite <- str_app_assoc, <- Hr.
  - by exists t.
Qed.

Lemma split_snd_no_sep p : Py.has_char "/" (PosixPath.split p).2 = false.
Proof.
  unfold PosixPath.split. destruct (cut_spec p) as (_ & Ht & _).
  by destruct (PosixPath.cut p) as [h t].
Qed.

Lemma str_app_length_eq h r : h +:+ r = h -> r = "".
Proof.
  intros Heq. apply (f_equal String.length) in Heq.
  rewrite str_length_app in Heq. destruct r; [done|simpl in Heq; lia].
Qed.

(** Each turn of the loop that does not [break] goes on with a shorter
    path. *)
Lemma split_fst_shorter p :
  (PosixPath.split p).1 <> p ->
  String.length (PosixPath.split p).1 < String.length p.
Proof.
  intros Hne. destruct (split_fst_prefix p) as (r & Hr).
  destruct r as [|c r]; [by rewrite str_app_nil_r in Hr|].
  rewrite Hr at 2. rewrite str_length_app. simpl. lia.
Qed.

Lemma splitall_loop_more_fuel fuel : forall fuel' path acc parts,
  fuel <= fuel' ->
  splitall_loop fuel path acc = Some parts ->
  splitall_loop fuel' path acc = Some parts.
Proof.
  induction fuel as [|fuel IH]; intros fuel' path acc parts Hle; [done|].
  destruct fuel' as [|fuel']; [lia|]. cbn [splitall_loop].
  destruct (String.eqb _ _); [done|]. destruct (String.eqb _ _); [done|].
  apply IH. lia.
Qed.

Lemma splitall_loop_returns fuel : forall path acc,
  String.length path < fuel ->
  exists first mid, splitall_loop fuel path acc = Some (first :: mid ++ acc).
Proof.
  induction fuel as [|fuel IH]; intros path acc Hlen; [lia|].
  cbn [splitall_loop].
  destruct (String.eqb_spec (PosixPath.split path).1 path) as [|Hne].
  { by exists (PosixPath.split path).1, []. }
  destruct (String.eqb_spec (PosixPath.split path).2 path) as [|_].
  { by exists (PosixPath.split path).2, []. }
  destruct (IH (PosixPath.split path).1 ((PosixPath.split path).2 :: acc))
    as (first & mid & Hrun).
  { pose proof (split_fst_shorter _ Hne). lia. }
  exists first, (mid ++ [(PosixPath.split path).2]).
  by rewrite Hrun, <- app_assoc.
Qed.

(** X1: the [while 1] loop of [splitall] ends for every path, after at most one
    turn for each character and one more, and returns a list that is not
    empty. *)
Theorem splitall_terminates path :
  exists first rest,
    splitall path = Some (first :: rest) /\
    forall fuel, String.length path < fuel ->
                 splitall_loop fuel path [] = Some (first :: rest).
Proof.
  destruct (splitall_loop_returns (S (String.length path)) path []) as (first & mid & Hrun);
    [lia|].
  rewrite app_nil_r in Hrun. exists first, mid. split; [done|].
  intros fuel Hfuel. apply (splitall_loop_more_fuel (S (String.length path))); [lia|done].
Qed.

Lemma seps_S n : PosixPath.seps (S n) = String "/" (PosixPath.seps n).
Proof. reflexivity. Qed.

Lemma rstrip_sep_empty h : PosixPath.rstrip_sep h = "" -> h = PosixPath.seps (String.length h).
Proof.
  induction h as [|c h IH]; [done|]. rewrite rstrip_sep_cons.
  destruct (PosixPath.rstrip_sep h); [|done].
  destruct (Ascii.eqb_spec c "/") as [->|]; [|done].
  intros _. cbn [String.length]. by rewrite seps_S, <- IH.
Qed.

Lemma rstrip_sep_shorter h :
  PosixPath.ends_with_sep h = true -> PosixPath.rstrip_sep h <> h.
Proof.
  intros (q & ->)%ends_with_sep_snoc Heq. rewrite rstrip_sep_app_sep in Heq.
  destruct (rstrip_sep_prefix q) as (r & Hr). rewrite Heq in Hr.
  apply (f_equal String.length) in Hr.
  rewrite !str_length_app in Hr. simpl in Hr. lia.
Qed.

(** The first [break]: only the empty path and the paths made of separators
    are their own head. *)
Lemma split_fst_fixed p :
  (PosixPath.split p).1 = p -> p = PosixPath.seps (String.length p).
Proof.
  unfold PosixPath.split. destruct (cut_spec p) as (Hp & _ & Hh).
  destruct (PosixPath.cut p) as [h t]. cbn [fst snd] in *.
  destruct (negb (String.eqb h "")) eqn:Hne; cbn [andb].
  - destruct (String.eqb_spec h (PosixPath.seps (String.length h))) as [Hall|Hnot];
      cbn [negb].
    + intros <-. done.
    + intros Heq. exfalso.
      destruct Hh as [->|Hh]; [done|].
      destruct (rstrip_sep_prefix h) as (r & Hr).
      rewrite Heq, Hp in Hr at 1. rewrite Hp in Heq.
      rewrite !str_app_assoc in Hr. symmetry in Hr.
      apply str_app_length_eq in Hr.
      destruct t; [|done]. rewrite str_app_nil_r in Heq.
      by apply (rstrip_sep_shorter h).
  - apply negb_false_iff, String.eqb_eq in Hne. subst h.
    intros <-. done.
Qed.

Lemma split_fst_empty p : (PosixPath.split p).1 = "" -> (PosixPath.split p).2 = p.
Proof.
  unfold PosixPath.split. destruct (cut_spec p) as (Hp & _ & _).
  destruct (PosixPath.cut p) as [h t]. cbn [fst snd] in *.
  destruct (negb (String.eqb h "")) eqn:Hne; cbn [andb].
  - destruct (String.eqb_spec h (PosixPath.seps (String.length h))) as [Hall|Hnot];
      cbn [negb].
    + intros ->. done.
    + intros Hr%rstrip_sep_empty. done.
  - intros ->. done.
Qed.

Lemma startswith_sep_app h r :
  h <> "" -> Py.startswith (h +:+ r) "/" = Py.startswith h "/".
Proof. intros Hh. destruct h as [|c h]; [done|]. by rewrite str_app_cons. Qed.

Lemma splitall_loop_shape fuel : forall path acc parts,
  splitall_loop fuel path acc = Some parts ->
  exists first mid,
    parts = first :: mid ++ acc /\
    Forall (fun c => Py.has_char "/" c = false) mid /\
    if Py.startswith path "/"
    then first = PosixPath.seps (String.length first) /\ first <> ""
    else Py.has_char "/" first = false.
Proof.
  induction fuel as [|fuel IH]; intros path acc parts; [done|].
  cbn [splitall_loop].
  destruct (String.eqb_spec (PosixPath.split path).1 path) as [Hfix|Hne].
  { intros [= <-]. exists (PosixPath.split path).1, []. split; [done|]. split; [done|].
    rewrite Hfix. pose proof (split_fst_fixed _ Hfix) as Hall.
    destruct (Py.startswith path "/") eqn:Hsw.
    - split; [done|]. by destruct path.
    - destruct path as [|c path]; [done|]. rewrite Hall in Hsw. done. }
  destruct (String.eqb_spec (PosixPath.split path).2 path) as [Htail|Hnt].
  { intros [= <-]. exists (PosixPath.split path).2, []. split; [done|]. split; [done|].
    pose proof (split_snd_no_sep path) as Hfree.
    destruct (Py.startswith path "/") eqn:Hsw; [|done].
    rewrite Htail in Hfree. apply (startswith_has_char "/") in Hsw; [|done].
    congruence. }
  intros (first & mid & -> & Hmid & Hfirst)%IH.
  exists first, (mid ++ [(PosixPath.split path).2]).
  split; [by rewrite <- app_assoc|]. split.
  { apply Forall_app. split; [done|]. constructor; [apply split_snd_no_sep|done]. }
  destruct (split_fst_prefix path) as (r & Hr).
  assert (Hhead : (PosixPath.split path).1 <> "").
  { intros He. by apply split_fst_empty in He. }
  pose proof (startswith_sep_app _ r Hhead) as Hs.
  rewrite <- Hr in Hs. by rewrite Hs.
Qed.

(** X2: [splitall] returns the root, or nothing, in front of plain names: every
    component behind the first is free of separators; the first is made of
    separators only when the path starts with one and is free of them
    otherwise. *)
Theorem splitall_components path :
  exists first rest,
    splitall path = Some (first :: rest) /\
    Forall (fun c => Py.has_char "/" c = false) rest /\
    if Py.startswith path "/"
    then first = PosixPath.seps (String.length first) /\ first <> ""
    else Py.has_char "/" first = false.
Proof.
  destruct (splitall_loop_returns (S (String.length path)) path []) as (first & mid & Hrun);
    [lia|].
  destruct (splitall_loop_shape _ _ _ _ Hrun) as (first' & mid' & Heq & Hmid & Hfirst).
  rewrite !app_nil_r in *. injection Heq as <- <-.
  by exists first, mid.
Qed.

(** *** Paths without doubled separators *)


Lemma only_seps_spec s : only_seps s = true <-> s = PosixPath.seps (String.length s).
Proof.
  unfold only_seps. induction s as [|c s IH]; [done|].
  cbn [all_chars String.length]. rewrite seps_S, andb_true_iff, IH. split.
  - intros [->%Ascii.eqb_eq <-]. done.
  - intros [= <- Hs]. by rewrite Ascii.eqb_refl.
Qed.

Lemma only_seps_app a b : only_seps (a +:+ b) = only_seps a && only_seps b.
Proof. apply all_chars_app. Qed.

Lemma only_seps_ends s : only_seps s = true -> s <> "" -> PosixPath.ends_with_sep s = true.
Proof.
  unfold only_seps. induction s as [|c s IH]; [done|]. intros Hs _.
  cbn [all_chars] in Hs. apply andb_true_iff in Hs as [Hc Hs].
  destruct s as [|c' s']; [cbn [PosixPath.ends_with_sep]; by rewrite Ascii.eqb_sym|].
  rewrite ends_with_sep_cons by done. by apply IH.
Qed.

Lemma no_sep_not_starts t : Py.has_char "/" t = false -> Py.startswith t "/" = false.
Proof.
  destruct t as [|c t]; [done|]. cbn [Py.has_char Py.startswith].
  by intros [-> _]%orb_false_elim.
Qed.

Lemma split_no_sep p : Py.has_char "/" p = false -> PosixPath.split p = ("", p).
Proof. intros Hp. unfold PosixPath.split. by rewrite (cut_no_sep _ Hp). Qed.

(** A name behind a directory that does not end in a separator. *)
Lemma split_dir_name q t :
  Py.has_char "/" t = false -> q <> "" -> PosixPath.ends_with_sep q = false ->
  PosixPath.split (q +:+ "/" +:+ t) = (q, t).
Proof.
  intros Ht Hq Hend. unfold PosixPath.split. rewrite (cut_app _ _ Ht).
  assert (Hne : String.eqb (q +:+ "/") "" = false) by by destruct q.
  rewrite Hne. cbn [negb andb].
  destruct (String.eqb_spec (q +:+ "/") (PosixPath.seps (String.length (q +:+ "/"))))
    as [Hall|_]; cbn [negb].
  - apply only_seps_spec in Hall. rewrite only_seps_app in Hall.
    apply andb_true_iff in Hall as [Hall _].
    by rewrite (only_seps_ends _ Hall Hq) in Hend.
  - by rewrite rstrip_sep_app_sep, rstrip_sep_id.
Qed.

(** A name behind the root. *)
Lemma split_root_name h t :
  Py.has_char "/" t = false -> only_seps h = true -> h <> "" ->
  PosixPath.split (h +:+ t) = (h, t).
Proof.
  intros Ht Hall Hh.
  destruct (ends_with_sep_snoc h (only_seps_ends _ Hall Hh)) as (q & ->).
  unfold PosixPath.split. rewrite str_app_assoc, (cut_app _ _ Ht).
  apply only_seps_spec in Hall. rewrite <- Hall, String.eqb_refl.
  by rewrite andb_false_r.
Qed.

Lemma startswith_weaken x y p :
  Py.startswith x p = true -> Py.startswith (x +:+ y) p = true.
Proof.
  revert x. induction p as [|a p IH]; intros x; [done|].
  destruct x as [|c x]; [done|]. rewrite str_app_cons. cbn [Py.startswith].
  destruct (Ascii.eqb a c); [apply IH|done].
Qed.

Lemma contains_app_l x y p : Py.contains x p = true -> Py.contains (x +:+ y) p = true.
Proof.
  induction x as [|c x IH].
  - destruct p; [|done]. intros _. by destruct y.
  - rewrite str_app_cons, !contains_cons. intros [Hsw|Hc]%orb_true_iff.
    + apply (startswith_weaken _ y) in Hsw. rewrite str_app_cons in Hsw.
      by rewrite Hsw.
    + by rewrite (IH Hc), orb_true_r.
Qed.

Lemma contains_app_r x y p : Py.contains y p = true -> Py.contains (x +:+ y) p = true.
Proof.
  intros Hy. induction x as [|c x IH]; [done|].
  by rewrite str_app_cons, contains_cons, IH, orb_true_r.
Qed.

Lemma contains_doubled x y : Py.contains (x +:+ "//" +:+ y) "//" = true.
Proof.
  apply contains_app_r. destruct y; done.
Qed.

Lemma lstrip_sep_app x y :
  only_seps x = false -> lstrip_sep (x +:+ y) = lstrip_sep x +:+ y.
Proof.
  unfold only_seps. induction x as [|c x IH]; [done|].
  cbn [all_chars]. rewrite str_app_cons. cbn [lstrip_sep].
  rewrite (Ascii.eqb_sym c). destruct (Ascii.eqb "/" c); [apply IH|done].
Qed.

Lemma lstrip_sep_only x : only_seps x = true -> lstrip_sep x = "".
Proof.
  unfold only_seps. induction x as [|c x IH]; [done|].
  cbn [all_chars lstrip_sep]. rewrite (Ascii.eqb_sym c).
  by intros [-> ?]%andb_true_iff; apply IH.
Qed.

Lemma tidy_prefix h r : tidy (h +:+ r) = true -> tidy h = true.
Proof.
  unfold tidy. destruct (only_seps h) eqn:Hall.
  - by rewrite (lstrip_sep_only _ Hall).
  - rewrite (lstrip_sep_app _ _ Hall). intros Hp.
    destruct (Py.contains (lstrip_sep h) "//") eqn:Hc; [|done].
    by rewrite (contains_app_l _ r _ Hc) in Hp.
Qed.

(** In a tidy path a directory that is not the root does not end in a
    separator. *)
Lemma tidy_dir_end q t :
  only_seps q = false -> tidy (q +:+ "/" +:+ t) = true ->
  PosixPath.ends_with_sep q = false.
Proof.
  intros Hq Htidy. destruct (PosixPath.ends_with_sep q) eqn:Hend; [|done].
  destruct (ends_with_sep_snoc _ Hend) as (q' & ->).
  rewrite only_seps_app, andb_true_r in Hq.
  unfold tidy in Htidy. rewrite !str_app_assoc, (lstrip_sep_app _ _ Hq) in Htidy.
  change ("/" +:+ "/" +:+ t) with ("//" +:+ t) in Htidy.
  by rewrite contains_doubled in Htidy.
Qed.

(** Taking the last name off and putting it back with [os.path.join] gives
    the path, when the loop goes on. *)
Lemma split_join_step p :
  tidy p = true ->
  (PosixPath.split p).1 <> p -> (PosixPath.split p).2 <> p ->
  PosixPath.join_from (PosixPath.split p).1 [(PosixPath.split p).2] = p.
Proof.
  intros Htidy Hh Ht.
  destruct (cut_spec p) as (Hp & Hfree & Hcut).
  destruct (PosixPath.cut p) as [h0 t] eqn:Ecut. cbn [fst snd] in *.
  destruct Hcut as [->|Hend].
  { rewrite str_app_nil_l in Hp. subst t.
    rewrite (split_no_sep _ Hfree) in Ht. done. }
  destruct (ends_with_sep_snoc _ Hend) as (q & ->).
  rewrite str_app_assoc in Hp.
  cbn [PosixPath.join_from]. 
  destruct (only_seps (q +:+ "/")) eqn:Hall.
  - rewrite Hp, <- str_app_assoc, split_root_name; [|done|done|by destruct q].
    cbn [fst snd]. rewrite (no_sep_not_starts _ Hfree), Hend, orb_true_r. done.
  - rewrite only_seps_app, andb_true_r in Hall.
    assert (Hq : q <> "") by (by destruct q).
    rewrite Hp in Htidy. pose proof (tidy_dir_end _ _ Hall Htidy) as Hqe.
    rewrite Hp, (split_dir_name _ _ Hfree Hq Hqe). cbn [fst snd].
    rewrite (no_sep_not_starts _ Hfree), Hqe, orb_false_r.
    by destruct q.
Qed.

Lemma splitall_loop_join fuel : forall path acc parts,
  tidy path = true ->
  splitall_loop fuel path acc = Some parts ->
  exists a l, parts = a :: l /\ PosixPath.join_from a l = PosixPath.join_from path acc.
Proof.
  induction fuel as [|fuel IH]; intros path acc parts Htidy; [done|].
  cbn [splitall_loop].
  destruct (String.eqb_spec (PosixPath.split path).1 path) as [Hfix|Hne].
  { intros [= <-]. eexists _, _. split; [done|]. by rewrite Hfix. }
  destruct (String.eqb_spec (PosixPath.split path).2 path) as [Htail|Hnt].
  { intros [= <-]. eexists _, _. split; [done|]. by rewrite Htail. }
  intros Hrun. apply IH in Hrun as (a & l & -> & Hjoin).
  - exists a, l. split; [done|]. rewrite Hjoin.
    pose proof (split_join_step _ Htidy Hne Hnt) as Hstep.
    cbn [PosixPath.join_from] in Hstep |- *. by rewrite Hstep.
  - destruct (split_fst_prefix path) as (r & Hr). rewrite Hr in Htidy.
    by apply tidy_prefix in Htidy.
Qed.

(** X3: for a path that has no doubled separator behind its leading ones,
    [os.path.join] of the components [splitall] returns is the path again. *)
Theorem splitall_join_round_trip path :
  tidy path = true ->
  exists parts, splitall path = Some parts /\ PosixPath.join parts = Ok path.
Proof.
  intros Htidy.
  destruct (splitall_loop_returns (S (String.length path)) path []) as (first & mid & Hrun);
    [lia|].
  destruct (splitall_loop_join _ _ _ _ Htidy Hrun) as (a & l & Heq & Hjoin).
  exists (first :: mid ++ []). split; [done|].
  rewrite Heq. cbn [PosixPath.join]. by rewrite Hjoin.
Qed.

Lemma split_go_no_sep p : Py.has_char "/" p = false -> Py.split_go "/" 0 p = [p].
Proof.
  induction p as [|c p IH]; [done|]. cbn [Py.has_char].
  intros [Hc Hp]%orb_false_elim. by rewrite split_go_slash, Hc, (IH Hp).
Qed.

Lemma cons_head_app c l l' : l <> [] -> Py.cons_head c (l ++ l') = Py.cons_head c l ++ l'.
Proof. by destruct l. Qed.

Lemma split_go_snoc q t :
  Py.has_char "/" t = false ->
  Py.split_go "/" 0 (q +:+ "/" +:+ t) = Py.split_go "/" 0 q ++ [t].
Proof.
  intros Ht. induction q as [|c q IH].
  - rewrite str_app_nil_l. change ("/" +:+ t) with (String "/" t).
    by rewrite split_go_slash, (split_go_no_sep _ Ht).
  - change (String c q +:+ "/" +:+ t) with (String c (q +:+ "/" +:+ t)).
    rewrite !split_go_slash, IH. destruct (Ascii.eqb "/" c); [done|].
    apply cons_head_app, split_go_nonempty.
Qed.

Lemma splitall_loop_relative fuel : forall path acc,
  String.length path < fuel ->
  Py.startswith path "/" = false ->
  Py.contains path "//" = false ->
  splitall_loop fuel path acc = Some (Py.split_go "/" 0 path ++ acc).
Proof.
  induction fuel as [|fuel IH]; intros path acc Hlen Hrel Hdbl; [lia|].
  destruct (cut_spec path) as (Hp & Hfree & Hcut).
  destruct (PosixPath.cut path) as [h0 t]. cbn [fst snd] in *.
  destruct Hcut as [->|Hend].
  { rewrite str_app_nil_l in Hp. subst t. cbn [splitall_loop].
    rewrite (split_no_sep _ Hfree), (split_go_no_sep _ Hfree). cbn [fst snd].
    destruct (String.eqb_spec "" path) as [<-|_]; [done|].
    by rewrite String.eqb_refl. }
  destruct (ends_with_sep_snoc _ Hend) as (q & ->). rewrite str_app_assoc in Hp.
  subst path.
  assert (Hq : q <> "") by (by intros ->).
  assert (Hqe : PosixPath.ends_with_sep q = false).
  { destruct (PosixPath.ends_with_sep q) eqn:Hqe; [|done].
    destruct (ends_with_sep_snoc _ Hqe) as (q' & ->).
    rewrite str_app_assoc in Hdbl.
    change ("/" +:+ "/" +:+ t) with ("//" +:+ t) in Hdbl.
    by rewrite contains_doubled in Hdbl. }
  cbn [splitall_loop].
  rewrite (split_dir_name _ _ Hfree Hq Hqe). cbn [fst snd].
  rewrite !str_length_app in Hlen. cbn [String.length] in Hlen.
  destruct (String.eqb_spec q (q +:+ "/" +:+ t)) as [Heq|_].
  { apply (f_equal String.length) in Heq. rewrite !str_length_app in Heq.
    simpl in Heq. lia. }
  destruct (String.eqb_spec t (q +:+ "/" +:+ t)) as [Heq|_].
  { apply (f_equal String.length) in Heq. rewrite !str_length_app in Heq.
    destruct q; [done|]. simpl in Heq. lia. }
  rewrite IH.
  - by rewrite (split_go_snoc _ _ Hfree), <- app_assoc.
  - lia.
  - by rewrite startswith_sep_app in Hrel.
  - destruct (Py.contains q "//") eqn:Hc; [|done].
    by rewrite (contains_app_l _ _ _ Hc) in Hdbl.
Qed.

(** X4: on a relative path without a doubled separator [splitall] returns what
    [path.split('/')] returns. *)
Theorem splitall_relative path :
  Py.startswith path "/" = false ->
  Py.contains path "//" = false ->
  exists parts, splitall path = Some parts /\ Py.split path "/" = Ok parts.
Proof.
  intros Hrel Hdbl. exists (Py.split_go "/" 0 path). split; [|done].
  unfold splitall. rewrite splitall_loop_relative by (done || lia).
  by rewrite app_nil_r.
Qed.

(** ** [get_text_calendar_dates] *)

(** *** Facts about loops, ranges and slices *)

Lemma for_each_returns {A B} (f : A -> outcome B) (g : A -> B) l :
  (forall x, x ∈ l -> f x = Return (g x)) -> for_each f l = Return (map g l).
Proof.
  induction l as [|x l IH]; intros Hf; [done|]. cbn [for_each map].
  rewrite Hf by set_solver. rewrite IH; [done|]. intros y Hy. apply Hf. set_solver.
Qed.


Lemma for_each_length {A B} (f : A -> outcome B) l k :
  for_each f l = Return k -> length k = length l.
Proof.
  revert k. induction l as [|x l IH]; intros k; cbn [for_each].
  - by intros [= <-].
  - destruct (f x); [|done]. destruct (for_each f l) as [ys|]; [|done].
    intros [= <-]. cbn. by rewrite (IH ys).
Qed.

Lemma range_unit a b : PyList.range a b 1 = seqZ a (b - a).
Proof.
  unfold PyList.range. cbn [Z.ltb Z.compare].
  replace ((b - a + 1 - 1) / 1)%Z with (b - a)%Z by (rewrite Z.div_1_r; lia).
  unfold seqZ. rewrite <- list_fmap_compose. apply list_fmap_ext.
  intros i x _. cbn. lia.
Qed.

Lemma elem_of_range_unit x a b : x ∈ PyList.range a b 1 <-> (a <= x < b)%Z.
Proof. rewrite range_unit, elem_of_seqZ. lia. Qed.

Lemma take_all_eq {A} (l : list A) n m :
  length l <= n -> length l <= m -> take n l = take m l.
Proof. intros Hn Hm. by rewrite !take_ge. Qed.

Lemma slice_nonneg {A} (l : list A) (i w : nat) :
  i <= length l ->
  PyList.slice l (Z.of_nat i) (Z.of_nat i + Z.of_nat w) = take w (drop i l).
Proof.
  intros Hi. unfold PyList.slice, PyList.clamp.
  destruct (Z.ltb_spec (Z.of_nat i) 0) as [|_]; [lia|].
  destruct (Z.ltb_spec (Z.of_nat i + Z.of_nat w) 0) as [|_]; [lia|].
  rewrite (Z.min_l (Z.of_nat i)) by lia. rewrite Nat2Z.id.
  destruct (Z.min_spec (Z.of_nat i + Z.of_nat w) (Z.of_nat (length l))) as [[? ->]|[? ->]].
  - f_equal. lia.
  - apply take_all_eq; rewrite length_drop; lia.
Qed.

Lemma rows_of_slices {A} (l : list A) (w : Z) :
  (1 <= w)%Z ->
  map (fun i => PyList.slice l i (i + w)) (PyList.range 0 (Z.of_nat (length l)) w)
  = rows_of (Z.to_nat w) l (Z.to_nat ((Z.of_nat (length l) + w - 1) / w)).
Proof.
  intros Hw. unfold PyList.range, rows_of.
  destruct (Z.ltb_spec 0 w) as [_|]; [|lia].
  replace (Z.of_nat (length l) - 0 + w - 1)%Z with (Z.of_nat (length l) + w - 1)%Z by lia.
  set (n := ((Z.of_nat (length l) + w - 1) / w)%Z).
  unfold seqZ. rewrite <- !list_fmap_compose.
  apply list_fmap_ext. intros k r Hk. cbn.
  apply lookup_seq in Hk as [Heq Hr]. cbn in Heq. subst k.
  assert (Hn : (Z.of_nat r < n)%Z).
  { unfold n in *. assert (0 <= (Z.of_nat (length l) + w - 1) / w)%Z
      by (apply Z.div_pos; lia). lia. }
  assert (Hrw : (Z.of_nat r * w < Z.of_nat (length l))%Z).
  { unfold n in Hn.
    assert (Z.of_nat r + 1 <= (Z.of_nat (length l) + w - 1) / w)%Z as Hle by lia.
    apply (Z.mul_le_mono_nonneg_r _ _ w) in Hle; [|lia].
    pose proof (Z.mul_div_le (Z.of_nat (length l) + w - 1) w ltac:(lia)). nia. }
  rewrite <- (slice_nonneg l (r * Z.to_nat w) (Z.to_nat w)) by nia.
  f_equal; nia.
Qed.

Lemma concat_rows_of {A} (l : list A) w n : forall a c,
  length l <= n * w ->
  concat (take c (drop a (rows_of w l n))) = take (c * w) (drop (a * w) l).
Proof.
  intros a c Hn. revert a. induction c as [|c IH]; intros a; [done|].
  destruct (decide (a < n)) as [Ha|Ha].
  - unfold rows_of at 1. rewrite (drop_S _ (take w (drop (a * w) l)) a).
    2:{ rewrite list_lookup_fmap, lookup_seq_lt by done. by rewrite Nat.add_0_l. }
    cbn [take concat]. fold (rows_of w l n). rewrite IH.
    replace (S c * w) with (w + c * w) by lia.
    rewrite <- take_take_drop, drop_drop. do 3 f_equal. lia.
  - rewrite (drop_ge l) by nia.
    rewrite (drop_ge (rows_of w l n))
      by (unfold rows_of; rewrite length_map, length_seq; lia).
    by rewrite !take_nil.
Qed.

Lemma slice_take_drop {A} (l : list A) (a b : Z) :
  (0 <= a)%Z -> (0 <= b)%Z ->
  PyList.slice l a b = take (Z.to_nat b - Z.to_nat a) (drop (Z.to_nat a) l).
Proof.
  intros Ha Hb. unfold PyList.slice, PyList.clamp.
  destruct (Z.ltb_spec a 0) as [|_]; [lia|].
  destruct (Z.ltb_spec b 0) as [|_]; [lia|].
  destruct (decide (Z.to_nat a <= length l)) as [Hle|Hgt].
  - rewrite (Z.min_l a) by lia.
    destruct (Z.min_spec b (Z.of_nat (length l))) as [[? ->]|[? ->]].
    + f_equal. lia.
    + apply take_all_eq; rewrite length_drop; lia.
  - rewrite (Z.min_r a) by lia. rewrite Nat2Z.id.
    rewrite !drop_ge by lia. by rewrite !take_nil.
Qed.

Lemma seqZ_to_nat s n n' : Z.to_nat n = Z.to_nat n' -> seqZ s n = seqZ s n'.
Proof. unfold seqZ. by intros ->. Qed.

Lemma take_drop_seqZ s n (i j : nat) :
  take j (drop i (seqZ s n)) = seqZ (s + Z.of_nat i) (Z.min (Z.of_nat j) (n - Z.of_nat i)).
Proof.
  unfold seqZ. rewrite <- fmap_drop, <- fmap_take, drop_seq, take_seq.
  replace (Z.to_nat (Z.min (Z.of_nat j) (n - Z.of_nat i)))
    with (j `min` (Z.to_nat n - i)) by lia.
  replace (0 + i) with (i + 0) by lia.
  rewrite <- (fmap_add_seq i 0), <- list_fmap_compose.
  apply list_fmap_ext. intros k x _. cbn. lia.
Qed.

Section CalendarFacts.
Context {Month : Type}.
Variable monthdatescalendar : Z -> Z -> outcome Month.
Variable calendar_of : Z -> Z -> Month.

Lemma length_year_rows cols y :
  length (year_rows calendar_of cols y) = Z.to_nat ((12 + cols - 1) / cols).
Proof. unfold year_rows, rows_of. by rewrite length_map, length_seq. Qed.

Lemma yeardatescalendar_rows y cols :
  (1 <= cols)%Z ->
  (forall m, (1 <= m <= 12)%Z -> monthdatescalendar y m = Return (calendar_of y m)) ->
  Cal.yeardatescalendar monthdatescalendar y cols = Return (year_rows calendar_of cols y).
Proof.
  intros Hcols Hm. unfold Cal.yeardatescalendar.
  rewrite (for_each_returns _ (calendar_of y)).
  2:{ intros m Hin. apply Hm. apply elem_of_range_unit in Hin. lia. }
  cbn [mbind outcome_bind]. destruct (Z.eqb_spec cols 0) as [|_]; [lia|].
  rewrite rows_of_slices by done. rewrite range_unit. cbn [Z.sub Z.add Z.pos_sub].
  unfold year_rows. rewrite length_map, length_seqZ. done.
Qed.

(** The months a block of rows holds, read row by row. *)
Lemma concat_year_rows y cols (a c : nat) :
  (1 <= cols)%Z ->
  concat (take c (drop a (year_rows calendar_of cols y)))
  = map (calendar_of y)
      (seqZ (1 + Z.of_nat a * cols)
         (Z.min (Z.of_nat c * cols) (12 - Z.of_nat a * cols))).
Proof.
  intros Hcols. unfold year_rows. rewrite concat_rows_of.
  - rewrite <- fmap_drop, <- fmap_take, take_drop_seqZ.
    f_equal. f_equal; [lia|]. f_equal; lia.
  - rewrite length_map, length_seqZ.
    pose proof (Z.mul_div_le (12 + cols - 1) cols ltac:(lia)).
    pose proof (Z.mod_pos_bound (12 + cols - 1) cols ltac:(lia)).
    pose proof (Z.div_mod (12 + cols - 1) cols ltac:(lia)).
    assert (0 <= (12 + cols - 1) / cols)%Z by (apply Z.div_pos; lia).
    nia.
Qed.

Lemma block_rows date1 date2 cols yr :
  (1 <= cols)%Z ->
  (1 <= Cal.month date1 <= 12)%Z -> (1 <= Cal.month date2 <= 12)%Z ->
  let row1 := ((Cal.month date1 - 1) `quot` cols)%Z in
  let row2 := ((Cal.month date2 - 1) `quot` cols + 1)%Z in
  let ycal := year_rows calendar_of cols yr in
  concat (if (yr =? Cal.year date1)%Z && (yr =? Cal.year date2)%Z
          then PyList.slice ycal row1 row2
          else if (yr =? Cal.year date1)%Z then PyList.slice_from ycal row1
          else if (yr =? Cal.year date2)%Z then PyList.slice_to ycal row2
          else ycal)
  = map (calendar_of yr)
      (seqZ (first_shown date1 cols yr)
         (last_shown date2 cols yr - first_shown date1 cols yr + 1)).
Proof.
  intros Hcols H1 H2 row1 row2 ycal.
  assert (Hq1 : row1 = ((Cal.month date1 - 1) / cols)%Z)
    by (apply Z.quot_div_nonneg; lia).
  assert (Hq2 : row2 = ((Cal.month date2 - 1) / cols + 1)%Z)
    by (unfold row2; rewrite Z.quot_div_nonneg by lia; done).
  assert (0 <= (Cal.month date1 - 1) / cols)%Z by (apply Z.div_pos; lia).
  assert (0 <= (Cal.month date2 - 1) / cols)%Z by (apply Z.div_pos; lia).
  pose proof (Z.mul_div_le (Cal.month date1 - 1) cols ltac:(lia)) as Hd1.
  pose proof (Z.mul_div_le (12 + cols - 1) cols ltac:(lia)) as Hd.
  pose proof (Z.mod_pos_bound (12 + cols - 1) cols ltac:(lia)) as Hm.
  pose proof (Z.div_mod (12 + cols - 1) cols ltac:(lia)) as Hdm.
  assert (0 <= (12 + cols - 1) / cols)%Z by (apply Z.div_pos; lia).
  set (R := Z.to_nat ((12 + cols - 1) / cols)).
  assert (Hlen : length ycal = R) by apply length_year_rows.
  assert (Hfull : forall a, drop a ycal = take R (drop a ycal)).
  { intros a. symmetry. apply take_ge. rewrite length_drop. lia. }
  unfold first_shown, last_shown, PyList.slice_from, PyList.slice_to.
  destruct (Z.eqb_spec yr (Cal.year date1)) as [E1|E1],
           (Z.eqb_spec yr (Cal.year date2)) as [E2|E2]; cbn [andb].
  - rewrite slice_take_drop by lia. unfold ycal.
    rewrite concat_year_rows by done.
    f_equal. rewrite Hq1, Hq2. replace (Z.of_nat (Z.to_nat _) * cols)%Z
      with (cols * ((Cal.month date1 - 1) / cols))%Z by lia.
    rewrite (Z.add_comm 1). apply seqZ_to_nat. nia.
  - rewrite slice_take_drop by lia. rewrite Hlen.
    rewrite (take_all_eq _ _ R) by (rewrite length_drop; lia).
    unfold ycal. rewrite concat_year_rows by done.
    f_equal. rewrite Hq1. replace (Z.of_nat (Z.to_nat _) * cols)%Z
      with (cols * ((Cal.month date1 - 1) / cols))%Z by lia.
    rewrite (Z.add_comm 1). apply seqZ_to_nat. unfold R. nia.
  - rewrite slice_take_drop by lia. change (Z.to_nat 0) with 0%nat.
    rewrite Nat.sub_0_r. unfold ycal. rewrite concat_year_rows by done.
    f_equal. cbn [Z.of_nat Z.mul Z.add]. apply seqZ_to_nat. rewrite Hq2. nia.
  - rewrite <- (drop_0 ycal), (Hfull 0%nat). unfold ycal.
    rewrite concat_year_rows by done.
    f_equal. cbn [Z.of_nat Z.mul Z.add]. apply seqZ_to_nat. unfold R. nia.
Qed.


Lemma for_each_total {A B} (f : A -> outcome B) l :
  (forall x, x ∈ l -> exists y, f x = Return y) -> exists k, for_each f l = Return k.
Proof.
  induction l as [|x l IH]; intros Hf; [by eexists|]. cbn [for_each].
  destruct (Hf x) as (y & ->); [set_solver|].
  destruct IH as (k & ->); [intros; apply Hf; set_solver|]. by eexists.
Qed.


Lemma calendar_blocks date1 date2 cols :
  (1 <= cols)%Z ->
  (forall y m, (Cal.year date1 <= y <= Cal.year date2)%Z -> (1 <= m <= 12)%Z ->
     monthdatescalendar y m = Return (calendar_of y m)) ->
  Cal.get_text_calendar_dates monthdatescalendar date1 date2 cols
  = Return (map (year_block calendar_of date1 date2 cols)
              (seqZ (Cal.year date1) (Cal.year date2 - Cal.year date1 + 1))).
Proof.
  intros Hcols Hcal.
  unfold Cal.get_text_calendar_dates, Cal.int_of_quotient.
  destruct (Z.eqb_spec cols 0) as [|_]; [lia|]. cbn [mbind outcome_bind].
  rewrite range_unit.
  replace (Cal.year date2 + 1 - Cal.year date1)%Z
    with (Cal.year date2 - Cal.year date1 + 1)%Z by lia.
  apply for_each_returns.
  intros yr Hin. apply elem_of_seqZ in Hin.
  rewrite (yeardatescalendar_rows yr cols Hcols) by (intros; apply Hcal; lia).
  reflexivity.
Qed.

Lemma year_block_width date1 date2 cols yr :
  (0 <= cols)%Z ->
  Forall (fun row => Z.of_nat (length row) <= cols)%Z (year_block calendar_of date1 date2 cols yr).
Proof.
  intros Hcols.
  assert (Hrows : Forall (fun row : list Month => (Z.of_nat (length row) <= cols)%Z)
            (year_rows calendar_of cols yr)).
  { unfold rows_of. apply Forall_fmap, Forall_forall. intros r _. cbn.
    rewrite length_take. lia. }
  unfold year_block, PyList.slice_from, PyList.slice_to, PyList.slice.
  repeat case_match; try done; by apply Forall_take, Forall_drop.
Qed.

(** X5: with at least one column, months within 1..12 in both dates and the
    month calendars of the years from [date1]'s to [date2]'s all built,
    [get_text_calendar_dates] returns one block for each of these years, in
    order.  The rows of a block hold at most [cols] months each and, read row
    by row, the months of that year from the first month of the row that
    holds [date1]'s month (January in a year after [date1]'s) to the last
    month of the row that holds [date2]'s month (December in a year before
    [date2]'s). *)
Theorem calendar_months_shown date1 date2 cols :
  (1 <= cols)%Z ->
  (1 <= Cal.month date1 <= 12)%Z -> (1 <= Cal.month date2 <= 12)%Z ->
  (forall y m, (Cal.year date1 <= y <= Cal.year date2)%Z -> (1 <= m <= 12)%Z ->
     monthdatescalendar y m = Return (calendar_of y m)) ->
  exists cal,
    Cal.get_text_calendar_dates monthdatescalendar date1 date2 cols = Return cal /\
    length cal = Z.to_nat (Cal.year date2 - Cal.year date1 + 1) /\
    forall (k : nat) rows, cal !! k = Some rows ->
      Forall (fun row => Z.of_nat (length row) <= cols)%Z rows /\
      concat rows
      = map (calendar_of (Cal.year date1 + Z.of_nat k))
          (seqZ (first_shown date1 cols (Cal.year date1 + Z.of_nat k))
             (last_shown date2 cols (Cal.year date1 + Z.of_nat k)
              - first_shown date1 cols (Cal.year date1 + Z.of_nat k) + 1)).
Proof.
  intros Hcols H1 H2 Hcal.
  rewrite calendar_blocks by done.
  eexists. split; [reflexivity|]. split.
  { by rewrite length_map, length_seqZ. }
  intros k rows Hk. rewrite list_lookup_fmap in Hk.
  destruct (seqZ _ _ !! k) as [yr|] eqn:Hyr; [|done].
  apply lookup_seqZ in Hyr as [-> Hlt]. cbn in Hk. injection Hk as <-.
  split; [apply year_block_width; lia | by apply block_rows].
Qed.

(** X6: with at least one column, months within 1..12 in both dates and the
    month calendars of the years from [date1]'s to [date2]'s all built,
    every month from [date1]'s to [date2]'s is in the block of its year: the
    calendar returned leaves out no month of the period. *)
Theorem calendar_covers_period date1 date2 cols y m :
  (1 <= cols)%Z ->
  (1 <= Cal.month date1 <= 12)%Z -> (1 <= Cal.month date2 <= 12)%Z ->
  (forall y m, (Cal.year date1 <= y <= Cal.year date2)%Z -> (1 <= m <= 12)%Z ->
     monthdatescalendar y m = Return (calendar_of y m)) ->
  (1 <= m <= 12)%Z ->
  (Cal.year date1 < y \/ y = Cal.year date1 /\ Cal.month date1 <= m)%Z ->
  (y < Cal.year date2 \/ y = Cal.year date2 /\ m <= Cal.month date2)%Z ->
  exists cal rows,
    Cal.get_text_calendar_dates monthdatescalendar date1 date2 cols = Return cal /\
    cal !! Z.to_nat (y - Cal.year date1) = Some rows /\
    calendar_of y m ∈ concat rows.
Proof.
  intros Hcols H1 H2 Hcal Hm Hlo Hhi.
  rewrite calendar_blocks by done.
  eexists _, (year_block calendar_of date1 date2 cols y). split; [reflexivity|]. split.
  { rewrite list_lookup_fmap.
    rewrite (proj2 (lookup_seqZ _ _ _ y)); [done|]. lia. }
  unfold year_block. rewrite block_rows by done.
  apply list_elem_of_fmap. exists m. split; [done|].
  apply elem_of_seqZ.
  pose proof (Z.mul_div_le (Cal.month date1 - 1) cols ltac:(lia)).
  pose proof (Z.mod_pos_bound (Cal.month date2 - 1) cols ltac:(lia)).
  pose proof (Z.div_mod (Cal.month date2 - 1) cols ltac:(lia)).
  unfold first_shown, last_shown.
  destruct (Z.eqb_spec y (Cal.year date1)), (Z.eqb_spec y (Cal.year date2)); lia.
Qed.



(** X8: when [date2]'s year lies before [date1]'s and [cols] is not zero the
    result is the empty list: nothing is raised and no month calendar is
    built, whatever the calendar library would answer. *)
Theorem calendar_reversed_years date1 date2 cols :
  cols <> 0%Z -> (Cal.year date2 < Cal.year date1)%Z ->
  Cal.get_text_calendar_dates monthdatescalendar date1 date2 cols = Return [].
Proof.
  intros Hcols Hy. unfold Cal.get_text_calendar_dates, Cal.int_of_quotient.
  destruct (Z.eqb_spec cols 0) as [|_]; [done|]. cbn [mbind outcome_bind].
  rewrite range_unit, seqZ_nil by lia. reflexivity.
Qed.

(** X9: a negative [cols] raises nothing: when the month calendars of the
    years from [date1]'s to [date2]'s are built, the result holds one empty
    block for each of these years. *)
Theorem calendar_negative_cols date1 date2 cols :
  (cols < 0)%Z ->
  (forall y m, (Cal.year date1 <= y <= Cal.year date2)%Z -> (1 <= m <= 12)%Z ->
     exists c, monthdatescalendar y m = Return c) ->
  Cal.get_text_calendar_dates monthdatescalendar date1 date2 cols
  = Return (replicate (Z.to_nat (Cal.year date2 - Cal.year date1 + 1)) []).
Proof.
  intros Hcols Hcal. unfold Cal.get_text_calendar_dates, Cal.int_of_quotient.
  destruct (Z.eqb_spec cols 0) as [|_]; [lia|]. cbn [mbind outcome_bind].
  rewrite range_unit.
  rewrite (for_each_returns _ (fun _ => [])).
  - f_equal. rewrite <- (length_seqZ (Cal.year date1)).
    replace (Cal.year date2 - Cal.year date1 + 1)%Z
      with (Cal.year date2 + 1 - Cal.year date1)%Z by lia.
    generalize (seqZ (Cal.year date1) (Cal.year date2 + 1 - Cal.year date1)).
    intros l. induction l; cbn; congruence.
  - intros yr Hin. apply elem_of_seqZ in Hin. unfold Cal.yeardatescalendar.
    destruct (for_each_total (monthdatescalendar yr) (PyList.range 1 13 1)) as (k & Hk).
    { intros m Hm. apply Hcal; [lia|]. apply elem_of_range_unit in Hm. lia. }
    rewrite Hk. cbn [mbind outcome_bind].
    destruct (Z.eqb_spec cols 0) as [|_]; [lia|].
    assert (Hr : PyList.range 0 (Z.of_nat (length k)) cols = []).
    { unfold PyList.range. destruct (Z.ltb_spec 0 cols) as [|_]; [lia|].
      apply for_each_length in Hk. rewrite range_unit, length_seqZ in Hk.
      rewrite Hk. change (Z.of_nat (Z.to_nat (13 - 1))) with 12%Z.
      rewrite seqZ_nil; [done|].
      enough (((0 - 12 - cols - 1) / (- cols)) < 1)%Z by lia.
      apply Z.div_lt_upper_bound; lia. }
    rewrite Hr. cbn [map mbind outcome_bind].
    unfold PyList.slice_from, PyList.slice_to, PyList.slice.
    repeat case_match; by rewrite ?drop_nil, ?take_nil.
Qed.

End CalendarFacts.

(** ** [download_file] *)

Lemma gets_app tr1 tr2 : gets (tr1 ++ tr2) = gets tr1 ++ gets tr2.
Proof. apply List.filter_app. Qed.

Lemma writes_app tr1 tr2 : writes (tr1 ++ tr2) = writes tr1 ++ writes tr2.
Proof. apply List.filter_app. Qed.

Lemma file_events_app tr1 tr2 :
  file_events (tr1 ++ tr2) = file_events tr1 ++ file_events tr2.
Proof. apply List.filter_app. Qed.

Lemma gets_info msg tr : gets (Logged msg :: tr) = gets tr.
Proof. done. Qed.

Lemma gets_get u h a tr : gets (Requested u h a :: tr) = Requested u h a :: gets tr.
Proof. done. Qed.

Lemma gets_writes ws : gets (map Wrote ws) = [].
Proof. by induction ws. Qed.

Lemma file_events_writes ws : file_events (map Wrote ws) = map Wrote ws.
Proof. induction ws; [done|]. cbn. by f_equal. Qed.

Lemma format_downloading url name :
  Py.format "Downloading %s as %s" [url; name]
  = Ok ("Downloading " +:+ url +:+ " as " +:+ name).
Proof. cbn. by rewrite str_app_nil_r. Qed.

Lemma format_unable url body :
  Py.format "Unable to download file %s: %s" [url; body]
  = Ok ("Unable to download file " +:+ url +:+ ": " +:+ body).
Proof. cbn. by rewrite str_app_nil_r. Qed.

Section DownloadFacts.
Context `{HashLib}.
Variable env : Env.

(** The signing of the URL returns or raises; for a URL outside S3 it is
    not called. *)
Lemma signing_cases url w :
  signing_returns url w \/
  exists e w', Py.contains url "s3.amazonaws.com" = true /\
               get_s3_signed_url url default_region w = (Raise e, w').
Proof.
  unfold signing_returns. destruct (Py.contains url "s3.amazonaws.com"); [|by left].
  destruct (get_s3_signed_url url default_region w) as [[[u h]|e] w'].
  - left. intros _. by exists u, h, w'.
  - right. by exists e, w'.
Qed.

(** The writes of the loop, when no write fails. *)
Lemma write_chunks_all chunks stop s :
  (forall n c, write_error env n c = None) ->
  write_chunks env chunks stop s
  = (match stop with Some e => Throw e | None => Return tt end,
     mkSys (proc s) (trace s ++ map Wrote (List.filter nonempty chunks))).
Proof.
  intros Hw. revert s. induction chunks as [|c chunks IH]; intros s.
  - cbn. rewrite app_nil_r. by destruct stop, s.
  - cbn [write_chunks mbind IO_bind]. destruct c as [|b c].
    + cbn. apply IH.
    + unfold mbind, IO_bind, f_write. rewrite Hw, IH.
      cbn [proc trace List.filter nonempty map].
      by rewrite <- app_assoc.
Qed.

(** Whatever happens, the loop only writes. *)
Lemma write_chunks_trace chunks stop s :
  exists ws, (write_chunks env chunks stop s).2
           = mkSys (proc s) (trace s ++ map Wrote ws).
Proof.
  revert s. induction chunks as [|c chunks IH]; intros s.
  - exists []. cbn. rewrite app_nil_r. by destruct stop, s.
  - cbn [write_chunks mbind IO_bind]. destruct c as [|b c].
    + cbn. apply IH.
    + unfold mbind, IO_bind, f_write.
      destruct (write_error env _ _).
      * exists [b :: c]. done.
      * destruct (IH (mkSys (proc s) (trace s ++ [Wrote (b :: c)]))) as (ws & Hws).
        exists ((b :: c) :: ws). rewrite Hws. cbn. by rewrite <- app_assoc.
Qed.

(** The calls of the [with] block. *)
Lemma with_open_trace name chunks stop s :
  exists fe, (with_open env name (write_chunks env chunks stop) s).2
           = mkSys (proc s) (trace s ++ Opened name :: fe) /\
           gets fe = [] /\ file_events fe = fe /\
           forall f, Opened f ∈ fe -> False.
Proof.
  unfold with_open. destruct (open_error env name).
  - exists []. split_and!; [done..|]. intros f Hf. by apply elem_of_nil in Hf.
  - destruct (write_chunks_trace chunks stop
                (mkSys (proc s) (trace s ++ [Opened name]))) as (ws & Hws).
    destruct (write_chunks env chunks stop _) as [r s1]. cbn in Hws. subst s1.
    exists (map Wrote ws ++ [Closed]).
    split; [|split; [|split]].
    + destruct (close_error env); cbn; by rewrite <- !app_assoc.
    + by rewrite gets_app, gets_writes.
    + by rewrite file_events_app, file_events_writes.
    + intros f Hin. apply elem_of_app in Hin as [Hin|Hin].
      * apply list_elem_of_fmap in Hin as (? & ? & ?). done.
      * apply list_elem_of_singleton in Hin. done.
Qed.

(** When the signing raises, its exception ends the call behind the log
    record. *)
Lemma download_file_raised url filename s e w' :
  Py.contains url "s3.amazonaws.com" = true ->
  get_s3_signed_url url default_region (proc s) = (Raise e, w') ->
  download_file env url filename s
  = (Throw (Builtin e),
     mkSys w' (trace s ++
                [Logged ("Downloading " +:+ url +:+ " as " +:+ target url filename)])).
Proof.
  intros Hs3 Hsig. unfold download_file. fold (target url filename).
  unfold mbind at 1. unfold IO_bind at 1. unfold pure at 1.
  rewrite format_downloading.
  unfold mbind at 1. unfold IO_bind at 1. unfold logger_info, record.
  cbn [proc trace]. rewrite Hs3.
  unfold mbind at 1. unfold IO_bind at 1.
  unfold mbind at 1. unfold IO_bind at 1.
  unfold in_process. cbn [proc trace]. by rewrite Hsig.
Qed.

(** The run of [download_file] when the signing returns, phase by phase. *)
Lemma download_file_run url filename s :
  signing_returns url (proc s) ->
  let name := target url filename in
  let '(u1, h1, w') := first_request url (proc s) in
  let n := length (gets (trace s)) in
  let a1 := network env n u1 h1 in
  let a2 := network env (S n) url (Some ∅) in
  let retry := Py.contains url "s3.amazonaws.com" && rejected a1 in
  let requests := Requested u1 h1 a1 :: (if retry then [Requested url (Some ∅) a2] else []) in
  let s2 := mkSys w' (trace s ++
              Logged ("Downloading " +:+ url +:+ " as " +:+ name) :: requests) in
  download_file env url filename s =
    match (if retry then a2 else a1) with
    | Throw e => (Throw e, s2)
    | Return resp =>
        if negb (status_code resp =? 200)%Z then
          match text resp with
          | Throw e => (Throw e, s2)
          | Return body =>
              (Throw (Exception ("Unable to download file " +:+ url +:+ ": " +:+ body)),
               s2)
          end
        else
          let '(r, s3) :=
            with_open env name
              (write_chunks env (iter_content resp) (iter_error resp)) s2 in
          (match r with Return _ => Return name | Throw e => Throw e end, s3)
    end.
Proof.
  intros Hret name. unfold first_request, download_file.
  fold (target url filename). fold name.
  unfold mbind at 1. unfold IO_bind at 1. unfold pure at 1.
  rewrite format_downloading.
  unfold mbind at 1. unfold IO_bind at 1. unfold logger_info, record.
  cbn [proc trace].
  assert (Hn : forall tr e, is_get e = false -> length (gets (tr ++ [e])) = length (gets tr)).
  { intros tr e He. rewrite gets_app. cbn. rewrite He. by rewrite app_nil_r. }
  assert (Hfin : forall resp s2,
    (if negb (status_code resp =? 200)%Z
     then body ← read (text resp);
          msg ← pure (Py.format "Unable to download file %s: %s" [url; body]);
          raise (Exception msg)
     else _ ← with_open env name
                (write_chunks env (iter_content resp) (iter_error resp));
          mret name) s2
    = if negb (status_code resp =? 200)%Z then
        match text resp with
        | Throw e => (Throw e, s2)
        | Return body =>
            (Throw (Exception ("Unable to download file " +:+ url +:+ ": " +:+ body)),
             s2)
        end
      else
        let '(r, s3) :=
          with_open env name
            (write_chunks env (iter_content resp) (iter_error resp)) s2 in
        (match r with Return _ => Return name | Throw e => Throw e end, s3)).
  { intros resp s2. destruct (negb _).
    - unfold mbind, IO_bind, read, pure, raise.
      destruct (text resp) as [body|e]; [|done]. by rewrite format_unable.
    - unfold mbind, IO_bind.
      destruct (with_open _ _ _ _) as [[[]|e] s3]; done. }
  destruct (Py.contains url "s3.amazonaws.com") eqn:Hs3; cbn [andb].
  - destruct (Hret Hs3) as (u & h & w' & Hsig).
    rewrite Hsig.
    unfold mbind at 1. unfold IO_bind at 1.
    unfold mbind at 1. unfold IO_bind at 1.
    unfold in_process. cbn [proc trace]. rewrite Hsig.
    unfold mbind at 1. unfold IO_bind at 1.
    unfold requests_get at 1. cbn [proc trace].
    rewrite Hn by done.
    destruct (network env (length (gets (trace s))) u h) as [resp|e] eqn:Ha1;
      cbn [rejected]; [|by rewrite <- app_assoc].
    destruct (negb (status_code resp =? 200)%Z) eqn:Hst.
    + unfold requests_get. cbn [proc trace].
      rewrite gets_app, length_app. cbn [gets List.filter is_get length].
      rewrite Hn by done. rewrite Nat.add_1_r.
      rewrite <- !app_assoc. cbn [app].
      destruct (network env (S _) url (Some ∅)) as [resp2|e2]; [|done].
      apply Hfin.
    + cbn [mret IO_ret]. rewrite <- !app_assoc. cbn [app].
      apply Hfin.
  - unfold mbind at 1. unfold IO_bind at 1.
    unfold requests_get. cbn [proc trace]. rewrite Hn by done.
    rewrite <- !app_assoc. cbn [app].
    destruct (network env _ url (Some ∅)) as [resp|e]; [|done].
    apply Hfin.
Qed.


(** Without both credentials the URL comes back as it is. *)
Lemma unsigned_when_missing url region w :
  environ w !! "AWS_ACCESS_KEY_ID" = None \/
  environ w !! "AWS_SECRET_ACCESS_KEY" = None ->
  get_s3_signed_url url region w = (Ok (url, None), w).
Proof.
  intros Hmiss. unfold get_s3_signed_url, mbind, M_bind, os_environ_get.
  destruct Hmiss as [-> | ->]; [done|].
  by destruct (environ w !! "AWS_ACCESS_KEY_ID").
Qed.

Lemma last_requests (g : event) (b : bool) g' :
  last (g :: (if b then [g'] else [])) = Some (if b then g' else g).
Proof. by destruct b. Qed.

(** The calls of a run: the log record, the requests, then the calls on the
    file, which exist only when the last answer has status 200. *)
Lemma download_file_events url filename s :
  signing_returns url (proc s) ->
  let name := target url filename in
  let '(u1, h1, w') := first_request url (proc s) in
  let n := length (gets (trace s)) in
  let a1 := network env n u1 h1 in
  let a2 := network env (S n) url (Some ∅) in
  let retry := Py.contains url "s3.amazonaws.com" && rejected a1 in
  let requests := Requested u1 h1 a1 :: (if retry then [Requested url (Some ∅) a2] else []) in
  exists fe,
    (download_file env url filename s).2
    = mkSys w' (trace s ++ Logged ("Downloading " +:+ url +:+ " as " +:+ name)
                  :: requests ++ fe) /\
    gets fe = [] /\ file_events fe = fe /\
    (fe = [] \/
     exists resp fe', (if retry then a2 else a1) = Return resp /\
       status_code resp = 200%Z /\ fe = Opened name :: fe' /\
       forall f, Opened f ∈ fe' -> False).
Proof.
  intros Hret name. pose proof (download_file_run url filename s Hret) as Hrun.
  fold name in Hrun. cbv zeta in Hrun.
  destruct (first_request url (proc s)) as [[u1 h1] w'].
  cbv zeta. rewrite Hrun. clear Hrun.
  set (requests := Requested u1 h1 _ :: _).
  set (final := if _ && _ then _ else _).
  assert (Hnone : forall r : outcome string * Sys,
    r.2 = mkSys w' (trace s ++ Logged ("Downloading " +:+ url +:+ " as " +:+ name)
                      :: requests) ->
    exists fe, r.2 = mkSys w' (trace s ++ Logged ("Downloading " +:+ url +:+ " as " +:+ name)
                                 :: requests ++ fe) /\
      gets fe = [] /\ file_events fe = fe /\
      (fe = [] \/
       exists resp fe', final = Return resp /\
         status_code resp = 200%Z /\ fe = Opened name :: fe' /\
         forall f, Opened f ∈ fe' -> False)).
  { intros r ->. exists []. rewrite app_nil_r. auto. }
  destruct final as [resp|e] eqn:Hfinal; [|by apply Hnone].
  destruct (Z.eqb_spec (status_code resp) 200) as [Hst|Hst]; cbn [negb].
  2:{ destruct (text resp); by apply Hnone. }
  match goal with
  | |- context [with_open env name ?b ?s2] =>
      destruct (with_open_trace name (iter_content resp) (iter_error resp) s2)
        as (fe' & Hfe & Hg & Hf & Hopen);
      destruct (with_open env name b s2) as [r s3]
  end.
  cbn in Hfe. subst s3. cbn [snd].
  exists (Opened name :: fe'). split_and!.
  - f_equal. by rewrite <- app_assoc.
  - done.
  - change (file_events (Opened name :: fe')) with (Opened name :: file_events fe').
    by rewrite Hf.
  - right. by exists resp, fe'.
Qed.

(** X10: a call of [download_file] makes no request, one or two.  For a URL
    that contains [s3.amazonaws.com] the routine first calls
    [get_s3_signed_url] for the default region; when that call raises, as it
    does for a URL, a region or a secret key that cannot be encoded, its
    exception ends the call behind the log record and nothing is requested.
    Otherwise the first request goes to the URL and headers that call
    returned, or, for a URL outside S3, to the URL itself with empty
    headers; the second, to the URL itself with empty headers, is made
    exactly when the URL contains [s3.amazonaws.com] and the first answer
    carries a status other than 200.  The process state after the call is
    the one [get_s3_signed_url] leaves, or the one before. *)
Theorem download_file_requests url filename s :
  exists new,
    trace (download_file env url filename s).2 = trace s ++ new /\
    match (if Py.contains url "s3.amazonaws.com"
           then get_s3_signed_url url default_region (proc s)
           else (Ok (url, Some ∅), proc s)) with
    | (Raise e, w') =>
        download_file env url filename s
        = (Throw (Builtin e), mkSys w' (trace s ++ new)) /\
        gets new = []
    | (Ok (u1, h1), w') =>
        let n := length (gets (trace s)) in
        let a1 := network env n u1 h1 in
        let a2 := network env (S n) url (Some ∅) in
        proc (download_file env url filename s).2 = w' /\
        gets new
        = Requested u1 h1 a1 ::
          (if Py.contains url "s3.amazonaws.com" && rejected a1
           then [Requested url (Some ∅) a2] else [])
    end.
Proof.
  destruct (signing_cases url (proc s)) as [Hret|(e & w' & Hs3 & Hsig)].
  - pose proof (download_file_events url filename s Hret) as Hev. cbv zeta in Hev.
    unfold first_request in Hev.
    destruct (Py.contains url "s3.amazonaws.com") eqn:Hs3.
    + destruct (Hret Hs3) as (u & h & w' & Hsig).
      rewrite Hsig in Hev |- *. destruct Hev as (fe & Hrun & Hg & _).
      eexists. rewrite Hrun. cbn [proc trace]. split; [reflexivity|].
      cbv zeta. split; [done|].
      cbn [app]. rewrite gets_info, gets_get, gets_app, Hg, app_nil_r.
      by destruct (_ && _).
    + destruct Hev as (fe & Hrun & Hg & _).
      eexists. rewrite Hrun. cbn [proc trace]. split; [reflexivity|].
      cbv zeta. split; [done|].
      cbn [app andb]. by rewrite gets_info, gets_get, Hg.
  - rewrite Hs3, Hsig, (download_file_raised _ _ _ _ _ Hs3 Hsig).
    eexists. cbn [snd trace]. split; [reflexivity|]. done.
Qed.

(** The outcome of a run, read off the answer to its last request. *)
Lemma download_file_outcome url filename s new u h a :
  trace (download_file env url filename s).2 = trace s ++ new ->
  last (gets new) = Some (Requested u h a) ->
  let name := target url filename in
  exists w' requests,
    gets requests = requests /\ file_events requests = [] /\
    let s2 := mkSys w' (trace s ++
                Logged ("Downloading " +:+ url +:+ " as " +:+ name) :: requests) in
    download_file env url filename s =
      match a with
      | Throw e => (Throw e, s2)
      | Return resp =>
          if negb (status_code resp =? 200)%Z then
            match text resp with
            | Throw e => (Throw e, s2)
            | Return body =>
                (Throw (Exception ("Unable to download file " +:+ url +:+ ": " +:+ body)),
                 s2)
            end
          else
            let '(r, s3) :=
              with_open env name
                (write_chunks env (iter_content resp) (iter_error resp)) s2 in
            (match r with Return _ => Return name | Throw e => Throw e end, s3)
      end.
Proof.
  intros Hnew Hlast name.
  destruct (signing_cases url (proc s)) as [Hret|(e & w0 & Hs3 & Hsig)].
  2:{ rewrite (download_file_raised _ _ _ _ _ Hs3 Hsig) in Hnew.
      cbn [snd trace] in Hnew. apply app_inv_head in Hnew. by subst new. }
  pose proof (download_file_run url filename s Hret) as Hrun.
  pose proof (download_file_events url filename s Hret) as Hev.
  cbv zeta in Hrun, Hev. fold name in Hrun, Hev.
  destruct (first_request url (proc s)) as [[u1 h1] w'].
  destruct Hev as (fe & Hs' & Hg & _).
  rewrite Hs' in Hnew. cbn [trace] in Hnew. apply app_inv_head in Hnew. subst new.
  rewrite gets_info, gets_app, Hg, app_nil_r in Hlast.
  set (retry := Py.contains url "s3.amazonaws.com" && rejected _) in *.
  assert (Hreq : forall g g', gets (Requested u1 h1 g :: (if retry then [Requested url (Some ∅) g'] else []))
                 = Requested u1 h1 g :: (if retry then [Requested url (Some ∅) g'] else [])
                 /\ file_events (Requested u1 h1 g :: (if retry then [Requested url (Some ∅) g'] else [])) = [])
    by (intros; by destruct retry).
  rewrite (proj1 (Hreq _ _)), last_requests in Hlast.
  eexists w', _. split; [apply Hreq|]. split; [apply Hreq|].
  cbv zeta. rewrite Hrun.
  destruct retry; injection Hlast as _ _ <-; reflexivity.
Qed.

(** X11: when the answer to the last request of a call carries a status other
    than 200 and its text can be read, the call raises [Exception] with the
    message [Unable to download file <url>: <text>], naming the URL the
    caller gave, and makes no call on the file system. *)
Theorem download_file_rejected url filename s new u h resp body :
  trace (download_file env url filename s).2 = trace s ++ new ->
  last (gets new) = Some (Requested u h (Return resp)) ->
  status_code resp <> 200%Z ->
  text resp = Return body ->
  (download_file env url filename s).1
  = Throw (Exception ("Unable to download file " +:+ url +:+ ": " +:+ body)) /\
  file_events new = [].
Proof.
  intros Hnew Hlast Hst Htext.
  destruct (download_file_outcome url filename s new u h _ Hnew Hlast)
    as (w' & requests & Hg & Hf & Hrun).
  cbv zeta in Hrun. rewrite Hrun in Hnew |- *.
  destruct (Z.eqb_spec (status_code resp) 200) as [|_]; [done|]. cbn [negb] in *.
  rewrite Htext in Hnew |- *. split; [done|].
  cbn [snd trace] in Hnew. apply app_inv_head in Hnew. subst new.
  done.
Qed.

(** X12: a file is opened only under the target name, only after the last
    request of the call was answered with status 200, and only once; no call
    on the file system comes before and no request after. *)
Theorem download_file_opens_after_200 url filename s new f :
  trace (download_file env url filename s).2 = trace s ++ new ->
  Opened f ∈ new ->
  f = target url filename /\
  exists before after u h resp,
    new = before ++ Opened f :: after /\
    file_events before = [] /\ gets after = [] /\
    (forall f', Opened f' ∈ after -> False) /\
    last (gets before) = Some (Requested u h (Return resp)) /\
    status_code resp = 200%Z.
Proof.
  intros Hnew Hin.
  destruct (signing_cases url (proc s)) as [Hret|(e & w0 & Hs3 & Hsig)].
  2:{ rewrite (download_file_raised _ _ _ _ _ Hs3 Hsig) in Hnew.
      cbn [snd trace] in Hnew. apply app_inv_head in Hnew. subst new.
      apply list_elem_of_singleton in Hin. done. }
  pose proof (download_file_events url filename s Hret) as Hev. cbv zeta in Hev.
  destruct (first_request url (proc s)) as [[u1 h1] w'].
  destruct Hev as (fe & Hs' & Hg & Hfe & Hcases).
  rewrite Hs' in Hnew. cbn [trace] in Hnew. apply app_inv_head in Hnew. subst new.
  set (retry := Py.contains url "s3.amazonaws.com" && rejected _) in *.
  set (a1 := network env (length (gets (trace s))) u1 h1) in *.
  set (a2 := network env (S (length (gets (trace s)))) url (Some ∅)) in *.
  set (requests := Requested u1 h1 a1 :: _) in *.
  assert (Hreq : gets requests = requests /\ file_events requests = []
                 /\ forall f', Opened f' ∈ requests -> False).
  { unfold requests. destruct retry; split_and!; try done.
    - intros f'. rewrite !elem_of_cons, elem_of_nil. intuition discriminate.
    - intros f'. rewrite !elem_of_cons, elem_of_nil. intuition discriminate. }
  destruct Hreq as (Hreq1 & Hreq2 & Hreq3).
  apply elem_of_cons in Hin as [Hin|Hin]; [done|].
  apply elem_of_app in Hin as [Hin|Hin]; [by apply Hreq3 in Hin|].
  destruct Hcases as [->|(resp & fe' & Hfinal & Hst & -> & Hnone)];
    [by apply elem_of_nil in Hin|].
  apply elem_of_cons in Hin as [[= ->]|Hin]; [|by apply Hnone in Hin].
  split; [done|].
  exists (Logged ("Downloading " +:+ url +:+ " as " +:+ target url filename) :: requests),
    fe', (if retry then url else u1), (if retry then Some ∅ else h1), resp.
  split_and!; try done.
  rewrite gets_info, Hreq1. unfold requests. rewrite last_requests, <- Hfinal.
  by destruct retry.
Qed.

(** X13: when the answer to the last request carries status 200 and opening,
    writing and closing the file succeed, the calls on the file system are:
    the opening of the target name, one write for each chunk that is not
    empty, in order, and the closing; the bytes written are those of the
    stream.  The call returns the target name, or raises the exception of the
    stream when it breaks after its chunks; the chunks received are written,
    and the file closed, in that case too. *)
Theorem download_file_saves_stream url filename s new u h resp :
  trace (download_file env url filename s).2 = trace s ++ new ->
  last (gets new) = Some (Requested u h (Return resp)) ->
  status_code resp = 200%Z ->
  open_error env (target url filename) = None ->
  (forall n chunk, write_error env n chunk = None) ->
  close_error env = None ->
  (download_file env url filename s).1
  = match iter_error resp with
    | None => Return (target url filename)
    | Some e => Throw e
    end /\
  file_events new
  = Opened (target url filename)
    :: map Wrote (List.filter nonempty (iter_content resp)) ++ [Closed] /\
  written new = concat (iter_content resp).
Proof.
  intros Hnew Hlast Hst Hopen Hwrite Hclose.
  destruct (download_file_outcome url filename s new u h _ Hnew Hlast)
    as (w' & requests & Hg & Hf & Hrun).
  cbv zeta in Hrun. rewrite Hrun in Hnew |- *. clear Hrun.
  rewrite Hst in Hnew |- *. cbn [Z.eqb Pos.eqb negb] in Hnew |- *.
  unfold with_open in Hnew |- *. rewrite Hopen, Hclose in Hnew |- *.
  rewrite write_chunks_all in Hnew |- * by done.
  cbn [proc trace snd fst] in Hnew |- *.
  split; [by destruct (iter_error resp)|].
  rewrite <- !app_assoc in Hnew. apply app_inv_head in Hnew. subst new.
  assert (Hreq : omap (fun e => match e with Wrote c => Some c | _ => None end)
                    requests = []).
  { clear -Hf. induction requests as [|[] l IH]; try done; by apply IH. }
  split.
  - rewrite !file_events_app, file_events_writes.
    change (file_events (Logged ?m :: requests)) with (file_events requests).
    by rewrite Hf.
  - unfold written. rewrite !omap_app.
    change (omap ?g (Logged ?m :: requests)) with (omap g requests).
    rewrite Hreq. cbn [app omap list_omap]. rewrite app_nil_r.
    generalize (iter_content resp). intros cs.
    induction cs as [|[|b c] cs IH]; [done|apply IH|].
    cbn. by rewrite IH.
Qed.

(** X14: for a URL that contains [s3.amazonaws.com], with both credentials in
    the environment, the first request of [download_file] is the signed one:
    it goes to the request URL and carries the headers of a signing
    invocation for that URL and the region [eu-central-1], which the caller
    of [download_file] cannot choose.  The URL, that region and the secret
    key can be encoded, so that the signing returns. *)
Theorem download_file_signs_s3 url filename s ak sk :
  Py.contains url "s3.amazonaws.com" = true ->
  credentials (proc s) ak sk ->
  encodable_inputs url default_region sk = true ->
  exists f w' rest,
    signing_call url default_region (proc s) ak sk f w' /\
    (download_file env url filename s).2
    = mkSys w'
        (trace s ++
         Logged ("Downloading " +:+ url +:+ " as " +:+ target url filename)
         :: Requested (request_url f) (Some (headers f))
              (network env (length (gets (trace s))) (request_url f) (Some (headers f)))
         :: rest).
Proof.
  intros Hs3 Hc Henc.
  destruct (signing_path_returns ak sk url default_region (proc s) Henc)
    as (f & w' & Hf).
  assert (Hret : signing_returns url (proc s)).
  { intros _. rewrite (get_s3_signed_url_signed _ _ _ _ _ Hc), Hf. by eexists _, _, _. }
  pose proof (download_file_events url filename s Hret) as Hev. cbv zeta in Hev.
  unfold first_request in Hev.
  rewrite Hs3, (get_s3_signed_url_signed _ _ _ _ _ Hc), Hf in Hev.
  destruct Hev as (fe & Hrun & _).
  exists f, w'. eexists. split; [by apply signing_call_intro|].
  rewrite Hrun. reflexivity.
Qed.

(** X15: for a URL that contains [s3.amazonaws.com], with a credential
    missing, the first request goes to the URL itself with [headers=None];
    when its answer carries a status other than 200 the same URL is requested
    once more, with empty headers, and nothing else is requested.  The
    process state is left as it was. *)
Theorem download_file_retries_same_url url filename s :
  Py.contains url "s3.amazonaws.com" = true ->
  environ (proc s) !! "AWS_ACCESS_KEY_ID" = None \/
  environ (proc s) !! "AWS_SECRET_ACCESS_KEY" = None ->
  rejected (network env (length (gets (trace s))) url None) = true ->
  exists rest,
    (download_file env url filename s).2
    = mkSys (proc s)
        (trace s ++
         Logged ("Downloading " +:+ url +:+ " as " +:+ target url filename)
         :: Requested url None (network env (length (gets (trace s))) url None)
         :: Requested url (Some ∅) (network env (S (length (gets (trace s)))) url (Some ∅))
         :: rest) /\
    gets rest = [].
Proof.
  intros Hs3 Hmiss Hrej.
  assert (Hret : signing_returns url (proc s)).
  { intros _. rewrite (unsigned_when_missing _ _ _ Hmiss). by eexists _, _, _. }
  pose proof (download_file_events url filename s Hret) as Hev. cbv zeta in Hev.
  unfold first_request in Hev.
  rewrite Hs3, (unsigned_when_missing _ _ _ Hmiss), Hrej in Hev.
  destruct Hev as (fe & Hrun & Hg & _).
  exists fe. by rewrite Hrun.
Qed.

(** X16: without a file name from the caller the target name is the text
    behind the last [/] of the URL, query string included: it is the name in
    the log record, the only name a file is opened under and the value
    returned.  For a URL that ends in [/] the name is empty. *)
Theorem download_file_default_name dir name s :
  Py.has_char "/" name = false ->
  exists rest,
    trace (download_file env (dir +:+ "/" +:+ name) None s).2
    = trace s ++
      Logged ("Downloading " +:+ (dir +:+ "/" +:+ name) +:+ " as " +:+ name) :: rest /\
    (forall f, Opened f ∈ rest -> f = name) /\
    (forall x, (download_file env (dir +:+ "/" +:+ name) None s).1 = Return x -> x = name).
Proof.
  intros Hname. set (url := dir +:+ "/" +:+ name).
  assert (Ht : target url None = name).
  { unfold target, PosixPath.basename, url. by rewrite cut_app. }
  destruct (signing_cases url (proc s)) as [Hret|(e & w0 & Hs3 & Hsig)].
  2:{ rewrite (download_file_raised _ _ _ _ _ Hs3 Hsig), Ht. cbn [fst snd trace].
      exists []. split_and!; [done| |done].
      intros f Hf. by apply elem_of_nil in Hf. }
  pose proof (download_file_events url None s Hret) as Hev.
  pose proof (download_file_run url None s Hret) as Hrun.
  cbv zeta in Hev, Hrun. rewrite Ht in Hev, Hrun.
  destruct (first_request url (proc s)) as [[u1 h1] w'].
  destruct Hev as (fe & Hs' & Hg & Hfe & Hcases).
  eexists. split; [by rewrite Hs'|]. split.
  - intros f Hin.
    apply elem_of_app in Hin as [Hin|Hin].
    { destruct (_ && _); rewrite !elem_of_cons, ?elem_of_nil in Hin;
        intuition discriminate. }
    destruct Hcases as [->|(resp & fe' & _ & _ & -> & Hnone)];
      [by apply elem_of_nil in Hin|].
    apply elem_of_cons in Hin as [Hin|Hin]; [congruence|by apply Hnone in Hin].
  - intros x. rewrite Hrun.
    destruct (if _ && _ then network env _ _ _ else network env _ _ _)
      as [resp|e]; cbn [fst]; [|done].
    destruct (negb _); [by destruct (text resp)|].
    destruct (with_open _ _ _ _) as [[?|e] s3]; cbn [fst]; [|done].
    by intros [= <-].
Qed.

End DownloadFacts.

(** ** [get_s3_signed_url]: what the region and the credentials reach *)

Section SigningFacts.
Context `{HashLib}.

(** X17: of what a signing invocation returns and logs, only the
    [Authorization] header depends on the region and the credentials: two
    invocations for the same URL at the same clock reading, with any regions,
    access keys and secret keys that can be encoded, give the same request
    URL, the same canonical request, the same headers apart from
    [Authorization], and log the same record. *)
Theorem credentials_reach_authorization_only
    url region1 region2 w1 w2 ak1 sk1 ak2 sk2 :
  credentials w1 ak1 sk1 ->
  credentials w2 ak2 sk2 ->
  encodable_inputs url region1 sk1 = true ->
  encodable_inputs url region2 sk2 = true ->
  clock w1 (ticks w1) = clock w2 (ticks w2) ->
  exists f1 w1' f2 w2' record,
    signing_call url region1 w1 ak1 sk1 f1 w1' /\
    signing_call url region2 w2 ak2 sk2 f2 w2' /\
    request_url f1 = request_url f2 /\
    canonical_request f1 = canonical_request f2 /\
    (forall name, name <> "Authorization" ->
       headers f1 !! name = headers f2 !! name) /\
    debug_log w1' = debug_log w1 ++ [record] /\
    debug_log w2' = debug_log w2 ++ [record].
Proof.
  intros Hc1 Hc2 Henc1 Henc2 Hclock. destruct (split_parts url) as (p0 & rest & E).
  destruct (inputs_encodable _ _ _ _ _ Henc1 E) as (Hr1 & Hs1 & Hb & Hk).
  destruct (inputs_encodable _ _ _ _ _ Henc2 E) as (Hr2 & Hs2 & _ & _).
  eexists _, _, _, _, _. split.
  { apply signing_call_intro; [done|]. run_signing_path E. }
  split.
  { apply signing_call_intro; [done|]. run_signing_path E. }
  cbn [request_url canonical_request headers debug_log].
  rewrite Hclock. split_and!; try reflexivity.
  intros name Hname.
  destruct (decide (name = "x-amz-request-payer")) as [->|Hp].
  - by rewrite !lookup_insert_eq.
  - rewrite !(lookup_insert_ne _ "x-amz-request-payer" name) by done.
    by rewrite !(lookup_insert_ne _ "Authorization" name) by done.
Qed.

(** X18: with both credentials present and inputs that can be encoded the
    returned header mapping has exactly the keys [x-amz-date],
    [x-amz-content-sha256], [Authorization] and [x-amz-request-payer], the
    second and the last with the fixed values [UNSIGNED-PAYLOAD] and
    [requester]; [host], the first of the signed headers, is no key of it. *)
Theorem returned_headers_exactly_four url region w ak sk :
  credentials w ak sk ->
  encodable_inputs url region sk = true ->
  exists f w',
    signing_call url region w ak sk f w' /\
    dom (headers f)
    = ({["x-amz-date"; "x-amz-content-sha256"; "Authorization";
         "x-amz-request-payer"]} : gset string) /\
    headers f !! "x-amz-date" = Some (amzdate f) /\
    headers f !! "x-amz-content-sha256" = Some "UNSIGNED-PAYLOAD" /\
    headers f !! "x-amz-request-payer" = Some "requester" /\
    headers f !! "host" = None /\
    Py.startswith (signed_headers f) "host;" = true.
Proof.
  intros Hc Henc. destruct (split_parts url) as (p0 & rest & E).
  destruct (inputs_encodable _ _ _ _ _ Henc E) as (Hr & Hs & Hb & Hk).
  eexists _, _. split.
  { apply signing_call_intro; [done|]. run_signing_path E. }
  cbn [headers amzdate signed_headers].
  split_and!.
  - rewrite !dom_insert_L, dom_empty_L. set_solver.
  - rewrite !lookup_insert_ne by done. apply lookup_insert_eq.
  - rewrite !lookup_insert_ne by done. apply lookup_insert_eq.
  - apply lookup_insert_eq.
  - by rewrite !lookup_insert_ne.
  - reflexivity.
Qed.

End SigningFacts.

(** ** Known answers for the rest of the module *)

Example splitall_known_answers :
  map splitall ["/a/b/c"; "a/b/c"; "a/b/"; ""; "/"; "//a"; "a//b"; "/a//b/"]
  = map Some [["/"; "a"; "b"; "c"]; ["a"; "b"; "c"]; ["a"; "b"; ""]; [""];
              ["/"]; ["//"; "a"]; ["a"; "b"]; ["/"; "a"; "b"; ""]].
Proof. reflexivity. Qed.

Example posixpath_split_known_answers :
  map PosixPath.split ["/a/b"; "a"; "a/"; "/"; "//a"; "a//b"; ""]
  = [("/a", "b"); ("", "a"); ("a", ""); ("/", ""); ("//", "a"); ("a", "b"); ("", "")].
Proof. reflexivity. Qed.

Example posixpath_join_known_answers :
  map PosixPath.join [["a"; "b"]; ["a/"; "b"]; ["a"; "/b"; "c"]; [""; "a"]; ["a"; ""]; []]
  = [Ok "a/b"; Ok "a/b"; Ok "/b/c"; Ok "a"; Ok "a/";
     Raise (TypeError "join() missing 1 required positional argument: 'a'")].
Proof. reflexivity. Qed.

Example range_known_answers :
  PyList.range 0 12 5 = [0; 5; 10]%Z /\ PyList.range 0 12 (-3) = [] /\
  PyList.range 5 0 (-2) = [5; 3; 1]%Z /\ PyList.range 2020 2022 1 = [2020; 2021]%Z.
Proof. repeat split. Qed.

Example slice_known_answers :
  PyList.slice [1; 2; 3; 4] 1 3 = [2; 3] /\ PyList.slice [1; 2; 3; 4] (-1) 9 = [4] /\
  PyList.slice [1; 2; 3; 4] 3 1 = [] /\ PyList.slice_to [1; 2; 3; 4] (-1) = [1; 2; 3].
Proof. repeat split. Qed.

Example calendar_known_answers :
  Cal.get_text_calendar_dates example_calendar may_2020 (Cal.mkDate 2020 8 1) 3
  = Return [[[(2020, 4); (2020, 5); (2020, 6)]; [(2020, 7); (2020, 8); (2020, 9)]]]%Z /\
  Cal.get_text_calendar_dates example_calendar (Cal.mkDate 2020 11 1) feb_2021 5
  = Return [[[(2020, 11); (2020, 12)]]; [[(2021, 1); (2021, 2); (2021, 3); (2021, 4); (2021, 5)]]]%Z /\
  Cal.get_text_calendar_dates example_calendar (Cal.mkDate 2020 12 1) (Cal.mkDate 2020 1 1) 3
  = Return [[]].
Proof. repeat split. Qed.

Example download_known_answer :
  download_file (answering served) plain_url None (mkSys bare_world [])
  = (Return "scene.tif?v=2",
     mkSys bare_world
       [Logged "Downloading http://example.org/data/scene.tif?v=2 as scene.tif?v=2";
        Requested plain_url (Some ∅) (Return served);
        Opened "scene.tif?v=2"; Wrote ["a"%byte; "b"%byte]; Wrote ["c"%byte];
        Closed]).
Proof. reflexivity. Qed.

(** A URL in S3 whose key is a lone surrogate: the signing raises, and the
    call ends with its exception behind the log record, no request made. *)
Example download_surrogate_url :
  download_file (answering served) surrogate_url None (mkSys example_world [])
  = (Throw (Builtin (UnicodeEncodeError "surrogates not allowed")),
     mkSys (mkWorld example_environ example_clock 1 [])
       [Logged ("Downloading " +:+ surrogate_url +:+ " as " +:+ lone_surrogate)]).
Proof. reflexivity. Qed.

Example calendar_zero_cols :
  Cal.get_text_calendar_dates calendar_to_9999 may_2020 feb_2021 0
  = Throw (ZeroDivisionError "division by zero").
Proof. reflexivity. Qed.

(** ** The further theorems at concrete inputs *)

Lemma splitall_join_round_trip_witness :
  tidy "/a/b/" = true /\
  exists parts, splitall "/a/b/" = Some parts /\ PosixPath.join parts = Ok "/a/b/".
Proof. split; [reflexivity|]. apply splitall_join_round_trip. reflexivity. Defined.

Lemma splitall_relative_witness :
  Py.startswith "a/b/c" "/" = false /\ Py.contains "a/b/c" "//" = false /\
  exists parts, splitall "a/b/c" = Some parts /\ Py.split "a/b/c" "/" = Ok parts.
Proof. do 2 (split; [reflexivity|]). apply splitall_relative; reflexivity. Defined.

Lemma calendar_months_shown_witness :
  (1 <= 3)%Z /\
  (1 <= Cal.month may_2020 <= 12)%Z /\ (1 <= Cal.month feb_2021 <= 12)%Z /\
  (forall y m, (Cal.year may_2020 <= y <= Cal.year feb_2021)%Z -> (1 <= m <= 12)%Z ->
     example_calendar y m = Return (y, m)) /\
  exists cal,
    Cal.get_text_calendar_dates example_calendar may_2020 feb_2021 3 = Return cal /\
    length cal = Z.to_nat (Cal.year feb_2021 - Cal.year may_2020 + 1) /\
    forall (k : nat) rows, cal !! k = Some rows ->
      Forall (fun row => Z.of_nat (length row) <= 3)%Z rows /\
      concat rows
      = map (pair (Cal.year may_2020 + Z.of_nat k)%Z)
          (seqZ (first_shown may_2020 3 (Cal.year may_2020 + Z.of_nat k))
             (last_shown feb_2021 3 (Cal.year may_2020 + Z.of_nat k)
              - first_shown may_2020 3 (Cal.year may_2020 + Z.of_nat k) + 1)).
Proof.
  split; [lia|]. do 2 (split; [simpl; lia|]). split; [reflexivity|].
  apply (calendar_months_shown example_calendar pair may_2020 feb_2021 3);
    [lia | simpl; lia | simpl; lia | reflexivity].
Defined.

Lemma calendar_covers_period_witness :
  (1 <= 3)%Z /\
  (1 <= Cal.month may_2020 <= 12)%Z /\ (1 <= Cal.month feb_2021 <= 12)%Z /\
  (forall y m, (Cal.year may_2020 <= y <= Cal.year feb_2021)%Z -> (1 <= m <= 12)%Z ->
     example_calendar y m = Return (y, m)) /\
  (1 <= 12 <= 12)%Z /\
  (Cal.year may_2020 < 2020 \/ 2020 = Cal.year may_2020 /\ Cal.month may_2020 <= 12)%Z /\
  (2020 < Cal.year feb_2021 \/ 2020 = Cal.year feb_2021 /\ 12 <= Cal.month feb_2021)%Z /\
  exists cal rows,
    Cal.get_text_calendar_dates example_calendar may_2020 feb_2021 3 = Return cal /\
    cal !! Z.to_nat (2020 - Cal.year may_2020) = Some rows /\
    (2020, 12)%Z ∈ concat rows.
Proof.
  split; [lia|]. do 2 (split; [simpl; lia|]). split; [reflexivity|].
  split; [lia|]. split; [right; simpl; lia|]. split; [left; simpl; lia|].
  apply (calendar_covers_period example_calendar pair may_2020 feb_2021 3 2020 12);
    [lia | simpl; lia | simpl; lia | reflexivity | lia | right; simpl; lia
    | left; simpl; lia].
Defined.


Lemma calendar_reversed_years_witness :
  3%Z <> 0%Z /\ (Cal.year may_2020 < Cal.year feb_2021)%Z /\
  Cal.get_text_calendar_dates calendar_to_9999 feb_2021 may_2020 3 = Return [].
Proof.
  split; [lia|]. split; [simpl; lia|].
  apply calendar_reversed_years; [lia | simpl; lia].
Defined.

Lemma calendar_negative_cols_witness :
  (-3 < 0)%Z /\
  (forall y m, (Cal.year may_2020 <= y <= Cal.year feb_2021)%Z -> (1 <= m <= 12)%Z ->
     exists c, example_calendar y m = Return c) /\
  Cal.get_text_calendar_dates example_calendar may_2020 feb_2021 (-3)
  = Return (replicate (Z.to_nat (Cal.year feb_2021 - Cal.year may_2020 + 1)) []).
Proof.
  split; [lia|]. split; [intros; by eexists|].
  apply calendar_negative_cols; [lia | intros; by eexists].
Defined.

Lemma download_file_signs_s3_witness :
  Py.contains example_url "s3.amazonaws.com" = true /\
  credentials example_world "AKIDEXAMPLE" "testsecret" /\
  encodable_inputs example_url default_region "testsecret" = true /\
  exists f w' rest,
    signing_call example_url default_region example_world
      "AKIDEXAMPLE" "testsecret" f w' /\
    (download_file (answering served) example_url None (mkSys example_world [])).2
    = mkSys w'
        ([] ++
         Logged ("Downloading " +:+ example_url +:+ " as " +:+ target example_url None)
         :: Requested (request_url f) (Some (headers f))
              (network (answering served) (length (gets [])) (request_url f)
                 (Some (headers f)))
         :: rest).
Proof.
  split; [reflexivity|]. split; [split; reflexivity|]. split; [reflexivity|].
  apply (download_file_signs_s3 (answering served) example_url None
           (mkSys example_world []) "AKIDEXAMPLE" "testsecret");
    [reflexivity | split; reflexivity | reflexivity].
Defined.

Lemma download_file_retries_same_url_witness :
  Py.contains example_url "s3.amazonaws.com" = true /\
  (environ bare_world !! "AWS_ACCESS_KEY_ID" = None \/
   environ bare_world !! "AWS_SECRET_ACCESS_KEY" = None) /\
  rejected (network (answering denied) (length (gets [])) example_url None) = true /\
  exists rest,
    (download_file (answering denied) example_url (Some "out.txt") (mkSys bare_world [])).2
    = mkSys bare_world
        ([] ++
         Logged ("Downloading " +:+ example_url +:+ " as "
                 +:+ target example_url (Some "out.txt"))
         :: Requested example_url None
              (network (answering denied) (length (gets [])) example_url None)
         :: Requested example_url (Some ∅)
              (network (answering denied) (S (length (gets []))) example_url (Some ∅))
         :: rest) /\
    gets rest = [].
Proof.
  split; [reflexivity|]. split; [left; reflexivity|]. split; [reflexivity|].
  apply (download_file_retries_same_url (answering denied) example_url (Some "out.txt")
           (mkSys bare_world []));
    [reflexivity | left; reflexivity | reflexivity].
Defined.

Lemma download_file_rejected_witness :
  let run := download_file (answering denied) plain_url None (mkSys bare_world []) in
  let new :=
    [Logged "Downloading http://example.org/data/scene.tif?v=2 as scene.tif?v=2";
     Requested plain_url (Some ∅) (Return denied)] in
  trace run.2 = [] ++ new /\
  last (gets new) = Some (Requested plain_url (Some ∅) (Return denied)) /\
  status_code denied <> 200%Z /\
  text denied = Return "AccessDenied" /\
  run.1 = Throw (Exception ("Unable to download file " +:+ plain_url +:+ ": "
                            +:+ "AccessDenied")) /\
  file_events new = [].
Proof.
  cbv zeta. split; [reflexivity|]. split; [reflexivity|]. split; [discriminate|].
  split; [reflexivity|].
  apply (download_file_rejected (answering denied) plain_url None (mkSys bare_world [])
           _ plain_url (Some ∅) denied "AccessDenied");
    [reflexivity | reflexivity | discriminate | reflexivity].
Defined.

Lemma download_file_opens_after_200_witness :
  let run := download_file (answering served) plain_url None (mkSys bare_world []) in
  let new :=
    [Logged "Downloading http://example.org/data/scene.tif?v=2 as scene.tif?v=2";
     Requested plain_url (Some ∅) (Return served);
     Opened "scene.tif?v=2"; Wrote ["a"%byte; "b"%byte]; Wrote ["c"%byte]; Closed] in
  trace run.2 = [] ++ new /\
  Opened "scene.tif?v=2" ∈ new /\
  "scene.tif?v=2" = target plain_url None /\
  exists before after u h resp,
    new = before ++ Opened "scene.tif?v=2" :: after /\
    file_events before = [] /\ gets after = [] /\
    (forall f', Opened f' ∈ after -> False) /\
    last (gets before) = Some (Requested u h (Return resp)) /\
    status_code resp = 200%Z.
Proof.
  cbv zeta. split; [reflexivity|].
  split; [rewrite !elem_of_cons; right; right; by left|].
  apply (download_file_opens_after_200 (answering served) plain_url None
           (mkSys bare_world []));
    [reflexivity | rewrite !elem_of_cons; right; right; by left].
Defined.

Lemma download_file_saves_stream_witness :
  let run := download_file (answering served) plain_url None (mkSys bare_world []) in
  let new :=
    [Logged "Downloading http://example.org/data/scene.tif?v=2 as scene.tif?v=2";
     Requested plain_url (Some ∅) (Return served);
     Opened "scene.tif?v=2"; Wrote ["a"%byte; "b"%byte]; Wrote ["c"%byte]; Closed] in
  trace run.2 = [] ++ new /\
  last (gets new) = Some (Requested plain_url (Some ∅) (Return served)) /\
  status_code served = 200%Z /\
  open_error (answering served) (target plain_url None) = None /\
  (forall n chunk, write_error (answering served) n chunk = None) /\
  close_error (answering served) = None /\
  run.1 = match iter_error served with
          | None => Return (target plain_url None)
          | Some e => Throw e
          end /\
  file_events new
  = Opened (target plain_url None)
    :: map Wrote (List.filter nonempty (iter_content served)) ++ [Closed] /\
  written new = concat (iter_content served).
Proof.
  cbv zeta. do 4 (split; [reflexivity|]). split; [reflexivity|]. split; [reflexivity|].
  apply (download_file_saves_stream (answering served) plain_url None
           (mkSys bare_world []) _ plain_url (Some ∅) served);
    reflexivity.
Defined.

Lemma download_file_default_name_witness :
  Py.has_char "/" "scene.tif?v=2" = false /\
  exists rest,
    trace (download_file (answering served)
             ("http://example.org/data" +:+ "/" +:+ "scene.tif?v=2") None
             (mkSys bare_world [])).2
    = [] ++
      Logged ("Downloading " +:+ ("http://example.org/data" +:+ "/" +:+ "scene.tif?v=2")
              +:+ " as " +:+ "scene.tif?v=2") :: rest /\
    (forall f, Opened f ∈ rest -> f = "scene.tif?v=2") /\
    (forall x, (download_file (answering served)
                  ("http://example.org/data" +:+ "/" +:+ "scene.tif?v=2") None
                  (mkSys bare_world [])).1 = Return x -> x = "scene.tif?v=2").
Proof.
  split; [reflexivity|].
  apply (download_file_default_name (answering served) "http://example.org/data"
           "scene.tif?v=2" (mkSys bare_world [])).
  reflexivity.
Defined.

Lemma credentials_reach_authorization_only_witness :
  credentials example_world "AKIDEXAMPLE" "testsecret" /\
  credentials other_world "AKIDOTHER" "othersecret" /\
  encodable_inputs example_url "eu-central-1" "testsecret" = true /\
  encodable_inputs example_url "us-west-2" "othersecret" = true /\
  clock example_world (ticks example_world) = clock other_world (ticks other_world) /\
  exists f1 w1' f2 w2' record,
    signing_call example_url "eu-central-1" example_world
      "AKIDEXAMPLE" "testsecret" f1 w1' /\
    signing_call example_url "us-west-2" other_world
      "AKIDOTHER" "othersecret" f2 w2' /\
    request_url f1 = request_url f2 /\
    canonical_request f1 = canonical_request f2 /\
    (forall name, name <> "Authorization" ->
       headers f1 !! name = headers f2 !! name) /\
    debug_log w1' = debug_log example_world ++ [record] /\
    debug_log w2' = debug_log other_world ++ [record].
Proof.
  split; [split; reflexivity|]. split; [split; reflexivity|].
  do 3 (split; [reflexivity|]).
  apply credentials_reach_authorization_only;
    [split; reflexivity | split; reflexivity | reflexivity | reflexivity | reflexivity].
Defined.

Lemma returned_headers_exactly_four_witness :
  credentials example_world "AKIDEXAMPLE" "testsecret" /\
  encodable_inputs example_url default_region "testsecret" = true /\
  exists f w',
    signing_call example_url default_region example_world
      "AKIDEXAMPLE" "testsecret" f w' /\
    dom (headers f)
    = ({["x-amz-date"; "x-amz-content-sha256"; "Authorization";
         "x-amz-request-payer"]} : gset string) /\
    headers f !! "x-amz-date" = Some (amzdate f) /\
    headers f !! "x-amz-content-sha256" = Some "UNSIGNED-PAYLOAD" /\
    headers f !! "x-amz-request-payer" = Some "requester" /\
    headers f !! "host" = None /\
    Py.startswith (signed_headers f) "host;" = true.
Proof.
  split; [split; reflexivity|]. split; [reflexivity|].
  apply returned_headers_exactly_four; [split; reflexivity|reflexivity].
Defined.

